(** * apikeyhelper: issuing, rotating, looking up and revoking API keys

    A shallow embedding of [backend/helpers/apikeyhelper/apikeyhelper.go].

    Go strings are byte sequences, so a Go [string] is a Rocq [string]
    (a list of 8-bit [ascii]); a [[]byte] is a list of integers in
    [0, 256); a [uint32] is an integer kept below [2^32] by an explicit
    reduction after every addition and left shift.

    The helper is effectful (data store, random source, clock, logger):
    every method is a function from a [World] to a result and a new
    [World]. *)

From Stdlib Require Import ZArith NArith List String Ascii Bool Lia.
From Stdlib Require Import DecimalString.
Import ListNotations.

Local Open Scope Z_scope.
Local Open Scope string_scope.
Local Open Scope list_scope.

(* ================================================================== *)
(** ** Bytes and formatting *)

Module bytes.

(** [[]byte(s)] *)
Definition of_string (s : string) : list Z :=
  List.map (fun a => Z.of_N (N_of_ascii a)) (list_ascii_of_string s).

(** [string(b)] *)
Definition to_string (b : list Z) : string :=
  string_of_list_ascii (List.map (fun x => ascii_of_N (Z.to_N x)) b).

(** [make([]byte, n)] *)
Definition make (n : nat) : list Z := List.repeat 0 n.

(** [copy(dst, src)]: overwrites the first [min(len dst, len src)] bytes
    of [dst]. *)
Definition copy (dst src : list Z) : list Z :=
  List.firstn (List.length dst) src ++ List.skipn (List.length src) dst.


End bytes.

Module fmt.

Definition hexdigit (d : Z) : ascii :=
  match d with
  | 0 => "0" | 1 => "1" | 2 => "2" | 3 => "3"
  | 4 => "4" | 5 => "5" | 6 => "6" | 7 => "7"
  | 8 => "8" | 9 => "9" | 10 => "a" | 11 => "b"
  | 12 => "c" | 13 => "d" | 14 => "e" | _ => "f"
  end%char.

(** [fmt.Sprintf("%x", b)] for a byte slice [b]: two lower-case
    hexadecimal digits per byte. *)
Fixpoint hex (b : list Z) : string :=
  match b with
  | [] => EmptyString
  | x :: rest =>
      String (hexdigit (Z.shiftr x 4))
        (String (hexdigit (Z.land x 15)) (hex rest))
  end.

(** [fmt.Sprintf("%d", n)] for an unsigned integer. *)
Definition decimal (n : N) : string := NilZero.string_of_uint (N.to_uint n).



End fmt.

(* ================================================================== *)
(** ** crypto/sha256 *)

Module sha256.

Definition BlockSize : nat := 64.
Definition Size : nat := 32.

Definition u32 (x : Z) : Z := x mod 4294967296.

(** [bits.RotateLeft32(x, -k)] *)
Definition rotr (k x : Z) : Z :=
  Z.lor (Z.shiftr x k) (u32 (Z.shiftl x (32 - k))).

(** [^x] on a [uint32] *)
Definition not32 (x : Z) : Z := Z.lxor x 4294967295.

Definition add32 (x y : Z) : Z := u32 (x + y).

(** The round constants [_K] (the table of [sha256block.go], written in
    decimal: its first entry is [0x428a2f98]). *)
Definition _K : list Z :=
  [
    1116352408; 1899447441; 3049323471; 3921009573;
    961987163; 1508970993; 2453635748; 2870763221;
    3624381080; 310598401; 607225278; 1426881987;
    1925078388; 2162078206; 2614888103; 3248222580;
    3835390401; 4022224774; 264347078; 604807628;
    770255983; 1249150122; 1555081692; 1996064986;
    2554220882; 2821834349; 2952996808; 3210313671;
    3336571891; 3584528711; 113926993; 338241895;
    666307205; 773529912; 1294757372; 1396182291;
    1695183700; 1986661051; 2177026350; 2456956037;
    2730485921; 2820302411; 3259730800; 3345764771;
    3516065817; 3600352804; 4094571909; 275423344;
    430227734; 506948616; 659060556; 883997877;
    958139571; 1322822218; 1537002063; 1747873779;
    1955562222; 2024104815; 2227730452; 2361852424;
    2428436474; 2756734187; 3204031479; 3329325298 ].

(** The eight chaining words [h0 .. h7]. *)
Record state : Type := mkState {
  h0 : Z; h1 : Z; h2 : Z; h3 : Z; h4 : Z; h5 : Z; h6 : Z; h7 : Z
}.

Definition init : state :=
  mkState 0x6a09e667 0xbb67ae85 0x3c6ef372 0xa54ff53a
          0x510e527f 0x9b05688c 0x1f83d9ab 0x5be0cd19.

(** [w[i]] for [i < 16]: the big-endian word at offset [4*i] of the
    chunk. *)
Fixpoint load_words (n : nat) (p : list Z) : list Z :=
  match n with
  | O => []
  | S n' =>
      match p with
      | b0 :: b1 :: b2 :: b3 :: rest =>
          Z.lor (Z.lor (Z.lor (Z.shiftl b0 24) (Z.shiftl b1 16))
                       (Z.shiftl b2 8)) b3
          :: load_words n' rest
      | _ => []
      end
  end.

Definition word_at (w : list Z) (i : nat) : Z := List.nth i w 0.

(** [w[i]] for [16 <= i < 64]; [w] holds [w[0 .. i-1]]. *)
Definition schedule_step (w : list Z) : list Z :=
  let i := List.length w in
  let v1 := word_at w (i - 2) in
  let t1 := Z.lxor (Z.lxor (rotr 17 v1) (rotr 19 v1)) (Z.shiftr v1 10) in
  let v2 := word_at w (i - 15) in
  let t2 := Z.lxor (Z.lxor (rotr 7 v2) (rotr 18 v2)) (Z.shiftr v2 3) in
  w ++ [add32 (add32 (add32 t1 (word_at w (i - 7))) t2)
              (word_at w (i - 16))].

Definition schedule (p : list Z) : list Z :=
  Nat.iter 48 schedule_step (load_words 16 p).

(** One round of the compression loop on the working variables
    [a .. h]. *)
Definition round (s : state) (kw : Z * Z) : state :=
  let '(mkState a b c d e f g h) := s in
  let '(k, w) := kw in
  let t1 :=
    add32 (add32 (add32 (add32 h
      (Z.lxor (Z.lxor (rotr 6 e) (rotr 11 e)) (rotr 25 e)))
      (Z.lxor (Z.land e f) (Z.land (not32 e) g))) k) w in
  let t2 :=
    add32 (Z.lxor (Z.lxor (rotr 2 a) (rotr 13 a)) (rotr 22 a))
          (Z.lxor (Z.lxor (Z.land a b) (Z.land a c)) (Z.land b c)) in
  mkState (add32 t1 t2) a b c (add32 d t1) e f g.

(** [blockGeneric] on one 64-byte chunk. *)
Definition block1 (s : state) (p : list Z) : state :=
  let r := List.fold_left round (List.combine _K (schedule p)) s in
  mkState (add32 (h0 s) (h0 r)) (add32 (h1 s) (h1 r))
          (add32 (h2 s) (h2 r)) (add32 (h3 s) (h3 r))
          (add32 (h4 s) (h4 r)) (add32 (h5 s) (h5 r))
          (add32 (h6 s) (h6 r)) (add32 (h7 s) (h7 r)).

(** [blockGeneric]: consumes [n] whole chunks of [p]. *)
Fixpoint block (n : nat) (s : state) (p : list Z) : state :=
  match n with
  | O => s
  | S n' => block n' (block1 s (List.firstn 64 p)) (List.skipn 64 p)
  end.

(** Big-endian encoding of the low [8 * n] bits of [x]. *)
Fixpoint be_bytes (n : nat) (x : Z) : list Z :=
  match n with
  | O => []
  | S n' => Z.land (Z.shiftr x (8 * Z.of_nat n')) 255 :: be_bytes n' x
  end.

(** The padding appended by [checkSum]: [0x80], zero bytes up to 56
    modulo 64, and the bit length as a 64-bit big-endian integer. *)
Definition padding (len : nat) : list Z :=
  let r := (len mod 64)%nat in
  let zeros := (if (r <? 56)%nat then 55 - r else 119 - r)%nat in
  128 :: List.repeat 0 zeros ++ be_bytes 8 (8 * Z.of_nat len).

(** [sha256.Sum256] / [Write] followed by [Sum(nil)]. *)
Definition sum (msg : list Z) : list Z :=
  let p := msg ++ padding (List.length msg) in
  let s := block (List.length p / 64) init p in
  be_bytes 4 (h0 s) ++ be_bytes 4 (h1 s) ++ be_bytes 4 (h2 s) ++
  be_bytes 4 (h3 s) ++ be_bytes 4 (h4 s) ++ be_bytes 4 (h5 s) ++
  be_bytes 4 (h6 s) ++ be_bytes 4 (h7 s).

End sha256.

(* ================================================================== *)
(** ** crypto/hmac, instantiated with [sha256.New] *)

Module hmac.

(** The state of [hmac.New(sha256.New, key)]: the outer pad and the
    bytes written so far to the inner hash (which start with the inner
    pad). *)
Record t : Type := mk { opad : list Z; inner : list Z }.

(** The 64-byte block key: a key longer than the block size is hashed
    first; the result is copied into a zeroed block. *)
Definition block_key (key : list Z) : list Z :=
  let key' :=
    if (sha256.BlockSize <? List.length key)%nat then sha256.sum key
    else key in
  bytes.copy (bytes.make sha256.BlockSize) key'.

Definition New (key : list Z) : t :=
  let k := block_key key in
  mk (List.map (fun b => Z.lxor b 0x5c) k)
     (List.map (fun b => Z.lxor b 0x36) k).

(** [h.Write(p)] returns the number of bytes written and an error that
    is always [nil]; [E] is the type of Go errors. *)
Definition Write {E : Type} (h : t) (p : list Z) : t * (nat * option E) :=
  (mk (opad h) (inner h ++ p), (List.length p, None)).

(** [h.Sum(nil)] *)
Definition Sum (h : t) : list Z :=
  sha256.sum (opad h ++ sha256.sum (inner h)).


End hmac.

(* ================================================================== *)
(** ** core/errors *)

Module errors.

(** Modelled from the spec: the error classes of [core/errors] (the
    package is not part of the helper's file) that the helper names,
    [errors.Default] (generic), [errors.BadInput] (client input) and
    [errors.NotFound]. *)
Inductive Type_ : Type := Default | BadInput | NotFound.

(** Modelled from the spec: the two failures of the database driver
    that the persistence layer tells apart from the others. *)
Inductive Sentinel : Type := ErrRecordNotFound | ErrDuplicatedKey.

(** Modelled from the spec: error values.  [Known] is one of the
    driver's two failures, [Plain] any other error of a library
    ([regexp], the random source, the database driver); [New] and [Wrap]
    are [t.New(msg)] and [t.Wrap(cause, msg)] of [core/errors]: an error
    of class [t] with a message, the second with the error it wraps. *)
Inductive Error : Type :=
| Known (s : Sentinel)
| Plain (msg : string)
| New (t : Type_) (msg : string)
| Wrap (t : Type_) (cause : Error) (msg : string).

(** Modelled from the spec: [err.Unwrap()], the wrapped error, [nil]
    when there is none. *)
Definition Unwrap (e : Error) : option Error :=
  match e with
  | Wrap _ cause _ => Some cause
  | _ => None
  end.

Definition Sentinel_eqb (a b : Sentinel) : bool :=
  match a, b with
  | ErrRecordNotFound, ErrRecordNotFound => true
  | ErrDuplicatedKey, ErrDuplicatedKey => true
  | _, _ => false
  end.

(** [errors.Is(e, target)] for one of the driver's failures: follows the
    chain of wrapped errors. *)
Fixpoint Is (e : Error) (target : Sentinel) : bool :=
  match e with
  | Known s => Sentinel_eqb s target
  | Plain _ => false
  | New _ _ => false
  | Wrap _ cause _ => Is cause target
  end.

End errors.
Export errors(Error).

(* ================================================================== *)
(** ** core/models *)

(** [time.Time] as a count of nanoseconds. *)
Definition Time : Type := Z.

(** Modelled from the spec: [common.User], the acting identity, with
    the two fields the helper reads. *)
Record common_User : Type := mkUser {
  user_Name : string;
  user_Email : string
}.

(** Modelled from the spec: [models.ApiKey], the credential record,
    with the fields the helper reads and writes; the embedded
    [common.Model] ([ID], [CreatedAt], [UpdatedAt]), [common.Creator]
    and [common.Updater] are flattened.  [ID] is a [uint64]. *)
Record models_ApiKey : Type := mkApiKey {
  ID : N;
  CreatedAt : Time;
  UpdatedAt : Time;
  Creator : string;
  CreatorEmail : string;
  Updater : string;
  UpdaterEmail : string;
  Name : string;
  ApiKey : string;
  ExpiredAt : option Time;
  AllowedPath : string;
  Type_ : string;
  Extra : string
}.

(** [models.ApiKey{}] *)
Definition zero_ApiKey : models_ApiKey :=
  mkApiKey 0%N 0 0 "" "" "" "" "" "" None "" "" "".

Definition set_ID (r : models_ApiKey) (v : N) : models_ApiKey :=
  mkApiKey v (CreatedAt r) (UpdatedAt r) (Creator r) (CreatorEmail r)
    (Updater r) (UpdaterEmail r) (Name r) (ApiKey r) (ExpiredAt r)
    (AllowedPath r) (Type_ r) (Extra r).

Definition set_ApiKey (r : models_ApiKey) (v : string) : models_ApiKey :=
  mkApiKey (ID r) (CreatedAt r) (UpdatedAt r) (Creator r) (CreatorEmail r)
    (Updater r) (UpdaterEmail r) (Name r) v (ExpiredAt r)
    (AllowedPath r) (Type_ r) (Extra r).

Definition set_UpdatedAt (r : models_ApiKey) (v : Time) : models_ApiKey :=
  mkApiKey (ID r) (CreatedAt r) v (Creator r) (CreatorEmail r)
    (Updater r) (UpdaterEmail r) (Name r) (ApiKey r) (ExpiredAt r)
    (AllowedPath r) (Type_ r) (Extra r).

Definition set_Creator (r : models_ApiKey) (n e : string) : models_ApiKey :=
  mkApiKey (ID r) (CreatedAt r) (UpdatedAt r) n e
    (Updater r) (UpdaterEmail r) (Name r) (ApiKey r) (ExpiredAt r)
    (AllowedPath r) (Type_ r) (Extra r).

Definition set_Updater (r : models_ApiKey) (n e : string) : models_ApiKey :=
  mkApiKey (ID r) (CreatedAt r) (UpdatedAt r) (Creator r) (CreatorEmail r)
    n e (Name r) (ApiKey r) (ExpiredAt r)
    (AllowedPath r) (Type_ r) (Extra r).

(* ================================================================== *)
(** ** core/dal: the persistence collaborator *)

Module dal.

(** Modelled from the spec: the argument of a [dal.Where] clause. *)
Inductive Arg : Type :=
| Uint (n : N)
| Str (s : string).

(** Modelled from the spec: [dal.Where(query, arg)], a filter. *)
Inductive Clause : Type :=
| Where (query : string) (arg : Arg).

(** The calls received by the collaborator, in order. *)
Inductive Call : Type :=
| CallCreate (r : models_ApiKey)
| CallUpdate (r : models_ApiKey)
| CallDelete (r : models_ApiKey) (clauses : list Clause)
| CallFirst (clauses : list Clause).

(** Modelled from the spec: the relational persistence layer
    ([core/dal] and its implementation are not part of the helper).  The
    table of credential records in insertion order, the next identifier
    the layer will assign, the faults it is going to report (one entry
    per incoming call: [Some msg] makes that call fail with an error
    other than not-found and duplicate-key and leaves the table as it
    is, [None] lets it proceed; no entry means no fault), and the calls
    it has received so far. *)
Record Store : Type := mkStore {
  rows : list models_ApiKey;
  next_id : N;
  faults : list (option string);
  calls : list Call
}.

(** Modelled from the spec: a handle on the store ([dal.Dal],
    [dal.Transaction]), the base connection ([basicRes.GetDal()]) or a
    transaction opened on it by the caller.  Every handle reads and
    writes the one table; commit and rollback are the caller's. *)
Inductive Dal : Type := Conn.

(** Modelled from the spec: the filters the layer understands on the
    credential table, [column = ?] with an argument of the column's
    type.  [None] is a query the layer rejects. *)
Definition eval_clause (c : Clause) (r : models_ApiKey) : option bool :=
  match c with
  | Where q (Uint n) =>
      if String.eqb q "id = ?" then Some (N.eqb (ID r) n) else None
  | Where q (Str s) =>
      if String.eqb q "name = ?" then Some (String.eqb (Name r) s)
      else if String.eqb q "api_key = ?" then Some (String.eqb (ApiKey r) s)
      else if String.eqb q "allowed_path = ?"
           then Some (String.eqb (AllowedPath r) s)
      else if String.eqb q "type = ?" then Some (String.eqb (Type_ r) s)
      else if String.eqb q "extra = ?" then Some (String.eqb (Extra r) s)
      else None
  end.

(** A record passes a list of clauses when it passes each of them. *)
Fixpoint eval_clauses (cs : list Clause) (r : models_ApiKey) : option bool :=
  match cs with
  | [] => Some true
  | c :: cs' =>
      match eval_clause c r, eval_clauses cs' r with
      | Some b, Some b' => Some (b && b')
      | _, _ => None
      end
  end.

(** Whether every clause is one the layer understands (this does not
    depend on the record). *)
Definition valid_clauses (cs : list Clause) : bool :=
  match eval_clauses cs zero_ApiKey with
  | Some _ => true
  | None => false
  end.

Definition matches (cs : list Clause) (r : models_ApiKey) : bool :=
  match eval_clauses cs r with
  | Some b => b
  | None => false
  end.

(** Modelled from the spec: the [NotFoundError] of the layer, the
    driver's failure wrapped in the not-found class. *)
Definition NotFoundError : Error :=
  errors.Wrap errors.NotFound (errors.Known errors.ErrRecordNotFound)
              "record not found".

(** Modelled from the spec: the [DuplicateKeyError] of the layer, the
    driver's failure wrapped in the client-input class. *)
Definition DuplicateKeyError : Error :=
  errors.Wrap errors.BadInput (errors.Known errors.ErrDuplicatedKey)
              "duplicated key not allowed".

(** Modelled from the spec: the [OtherError] of the layer, any other
    failure of the driver wrapped in the generic class. *)
Definition OtherError (msg : string) : Error :=
  errors.Wrap errors.Default (errors.Plain msg) "database error".

(** Modelled from the spec: [tx.IsErrorNotFound(err)]; [err] may be
    [nil]. *)
Definition IsErrorNotFound (e : option Error) : bool :=
  match e with
  | Some e' => errors.Is e' errors.ErrRecordNotFound
  | None => false
  end.

(** Modelled from the spec: [tx.IsDuplicationError(err)]. *)
Definition IsDuplicationError (e : option Error) : bool :=
  match e with
  | Some e' => errors.Is e' errors.ErrDuplicatedKey
  | None => false
  end.

(** Registers an incoming call and takes the fault scheduled for it. *)
Definition enter (c : Call) (s : Store) : option string * Store :=
  (List.hd None (faults s),
   mkStore (rows s) (next_id s) (List.tl (faults s)) (calls s ++ [c])).

Definition with_rows (s : Store) (rs : list models_ApiKey) (nxt : N) : Store :=
  mkStore rs nxt (faults s) (calls s).

Definition name_taken (n : string) (s : Store) : bool :=
  List.existsb (fun r => String.eqb (Name r) n) (rows s).

(** Modelled from the spec: [Create(record) -> ok | DuplicateKeyError |
    OtherError].  The layer assigns the identifier (written back into
    the caller's record) and enforces the uniqueness of [name]. *)
Definition Create (r : models_ApiKey) (s : Store)
  : (models_ApiKey * option Error) * Store :=
  let '(f, s1) := enter (CallCreate r) s in
  match f with
  | Some msg => ((r, Some (OtherError msg)), s1)
  | None =>
      if name_taken (Name r) s1 then ((r, Some DuplicateKeyError), s1)
      else
        let r' := set_ID r (next_id s1) in
        ((r', None), with_rows s1 (rows s1 ++ [r']) (N.succ (next_id s1)))
  end.

(** Modelled from the spec: [Update(record) -> ok | OtherError].  The
    row with the record's identifier is replaced by the record. *)
Definition Update (r : models_ApiKey) (s : Store) : option Error * Store :=
  let '(f, s1) := enter (CallUpdate r) s in
  match f with
  | Some msg => (Some (OtherError msg), s1)
  | None =>
      (None,
       with_rows s1
         (List.map (fun x => if N.eqb (ID x) (ID r) then r else x) (rows s1))
         (next_id s1))
  end.

(** The rows a [Delete(record, clauses...)] removes: those with the
    record's identifier when it has one (is not zero), that pass the
    clauses. *)
Definition doomed (r : models_ApiKey) (cs : list Clause) (x : models_ApiKey)
  : bool :=
  (N.eqb (ID r) 0 || N.eqb (ID x) (ID r)) && matches cs x.

(** Modelled from the spec: [Delete(record-or-filter) -> ok |
    OtherError].  A delete with neither an identifier nor a filter, or
    with a filter the layer rejects, is an [OtherError]. *)
Definition Delete (r : models_ApiKey) (cs : list Clause) (s : Store)
  : option Error * Store :=
  let '(f, s1) := enter (CallDelete r cs) s in
  match f with
  | Some msg => (Some (OtherError msg), s1)
  | None =>
      if negb (valid_clauses cs) then
        (Some (OtherError "invalid query"), s1)
      else if N.eqb (ID r) 0 && Nat.eqb (List.length cs) 0 then
        (Some (OtherError "missing WHERE clause"), s1)
      else
        (None,
         with_rows s1
           (List.filter (fun x => negb (doomed r cs x)) (rows s1))
           (next_id s1))
  end.

(** Modelled from the spec: [First(record, filters...) -> ok |
    NotFoundError | OtherError].  On success the first row that passes
    the filters is written into [dst]; on failure [dst] is left as it
    is. *)
Definition First (dst : models_ApiKey) (cs : list Clause) (s : Store)
  : (models_ApiKey * option Error) * Store :=
  let '(f, s1) := enter (CallFirst cs) s in
  match f with
  | Some msg => ((dst, Some (OtherError msg)), s1)
  | None =>
      if negb (valid_clauses cs) then
        ((dst, Some (OtherError "invalid query")), s1)
      else
        match List.find (matches cs) (rows s1) with
        | Some x => ((x, None), s1)
        | None => ((dst, Some NotFoundError), s1)
        end
  end.

(** None of the next [n] calls is scheduled to fail. *)
Definition quiet (n : nat) (s : Store) : bool :=
  List.forallb (fun f => match f with None => true | Some _ => false end)
               (List.firstn n (faults s)).

Definition has_id (id : N) (s : Store) : bool :=
  List.existsb (fun r => N.eqb (ID r) id) (rows s).

(** The identifiers in the table, in row order. *)
Definition ids (s : Store) : list N := List.map ID (rows s).

Fixpoint nodupb (l : list N) : bool :=
  match l with
  | [] => true
  | i :: l' => negb (List.existsb (N.eqb i) l') && nodupb l'
  end.

(** The table of a store the layer can be in: identifiers are assigned
    from 1 upwards, below [next_id], and never twice. *)
Definition wf (s : Store) : bool :=
  N.ltb 0 (next_id s)
  && List.forallb (fun i => N.ltb 0 i && N.ltb i (next_id s)) (ids s)
  && nodupb (ids s).

End dal.

(* ================================================================== *)
(** ** The world the helper runs in *)

(** The data store behind [basicRes.GetDal()], the random source (the
    values it is going to deliver; it fails when none is left), the
    clock read by [time.Now()] and the lines written by the logger. *)
Record World : Type := mkWorld {
  db : dal.Store;
  entropy : list Z;
  clock : Time;
  log : list (Error * string)
}.

(** Computations that read and change the world. *)
Definition M (A : Type) : Type := World -> A * World.

Definition ret {A : Type} (a : A) : M A := fun w => (a, w).

Definition bind {A B : Type} (m : M A) (k : A -> M B) : M B :=
  fun w => let '(a, w') := m w in k a w'.

Declare Scope world_scope.
Delimit Scope world_scope with world.
Notation "x <- m ;; k" := (bind m (fun x => k))
  (at level 100, m at next level, right associativity) : world_scope.
Notation "' p <- m ;; k" := (bind m (fun p => k))
  (at level 100, p pattern, m at next level, right associativity)
  : world_scope.
Notation "m ;;; k" := (bind m (fun _ => k))
  (at level 100, right associativity) : world_scope.

(** Modelled from the spec: [c.logger.Error(err, msg)] of the logging
    collaborator appends a line to the log. *)
Definition logger_Error (err : Error) (msg : string) : M unit :=
  fun w => (tt, mkWorld (db w) (entropy w) (clock w) (log w ++ [(err, msg)])).

(** [time.Now()] *)
Definition time_Now : M Time := fun w => (clock w, w).

(** [c.basicRes.GetDal()] *)
Definition GetDal : dal.Dal := dal.Conn.

(** A call of the data layer through a handle. *)
Definition on_db {A : Type} (tx : dal.Dal) (op : dal.Store -> A * dal.Store)
  : M A :=
  fun w =>
    let '(a, s) := op (db w) in
    (a, mkWorld s (entropy w) (clock w) (log w)).

(* ================================================================== *)
(** ** core/utils *)

Module utils.

(** Modelled from the spec: the letters alphabet of the secret
    generator. *)
Definition letterBytes : list ascii :=
  list_ascii_of_string
    "abcdefghijklmnopqrstuvwxyzABCDEFGHIJKLMNOPQRSTUVWXYZ".

(** Modelled from the spec: the letter drawn for a value read from the
    random source. *)
Definition letter (x : Z) : ascii :=
  List.nth (Z.to_nat (x mod 52)) letterBytes "a"%char.

(** Modelled from the spec: the secret of length [n] drawn from the
    first [n] values of the random source. *)
Definition letters (n : nat) (source : list Z) : string :=
  string_of_list_ascii (List.map letter (List.firstn n source)).

(** Modelled from the spec: the secret generator [utils.RandLetterBytes]
    (not part of the helper's file).  It produces a secret of the
    requested length drawn from a letters alphabet, one letter per value
    read from the random source, and fails when the source does: here,
    when the source has fewer values left than requested. *)
Definition RandLetterBytes (n : nat) : M (string * option Error) :=
  fun w =>
    if (List.length (entropy w) <? n)%nat then
      (("", Some (errors.Plain "random source failed")), w)
    else
      ((letters n (entropy w), None),
       mkWorld (db w) (List.skipn n (entropy w)) (clock w) (log w)).

End utils.

(* ================================================================== *)
(** ** Stand-ins for the Go library, used to run the helper on examples *)

Module sample.

(** A stand-in for [regexp.Compile]: it rejects a pattern whose
    parentheses are not balanced and accepts every other one. *)
Fixpoint balanced (depth : nat) (s : string) : bool :=
  match s with
  | EmptyString => Nat.eqb depth 0
  | String "("%char rest => balanced (S depth) rest
  | String ")"%char rest =>
      match depth with
      | O => false
      | S d => balanced d rest
      end
  | String _ rest => balanced depth rest
  end.

Definition Compile (pattern : string) : option Error :=
  if balanced 0 pattern then None
  else Some (errors.Plain
               ("error parsing regexp: unbalanced parentheses: " ++ pattern)).





Definition emptyStore : dal.Store := dal.mkStore [] 1%N [] [].

(** A random source that delivers [0, 1, ..., n-1]. *)
Definition counting (n : nat) : list Z :=
  List.map Z.of_nat (List.seq 0 n).

End sample.

(* ================================================================== *)
(** ** apikeyhelper *)

Definition EncodeKeyEnvStr : string := "ENCRYPTION_SECRET".
Definition apiKeyLen : nat := 128.

(** [ApiKeyHelper].  The fields [basicRes] and [logger] are handles on
    the store and the log of the [World]. *)
Record ApiKeyHelper : Type := mkApiKeyHelper {
  cfg : string -> string;
  encryptionSecret : string
}.

(** The error values of the helper, named after the error kinds they
    stand for. *)
Definition InvalidPatternError (cause : Error) (allowedPath : string) : Error :=
  errors.Wrap errors.Default cause ("compile allowed path: " ++ allowedPath).
Definition RandomSourceError (cause : Error) : Error :=
  errors.Wrap errors.Default cause "random letters".
Definition DigestError (cause : Error) : Error :=
  errors.Wrap errors.Default cause "hmac write token".
Definition DuplicateNameError (name : string) : Error :=
  errors.New errors.BadInput
    ("An api key with name [" ++ name ++ "] has already exists").
Definition NotFoundError (cause : Error) (id : N) : Error :=
  errors.Wrap errors.NotFound cause
    ("could not find api key id[" ++ fmt.decimal id ++ "] in DB").
Definition PersistenceError (cause : Error) (msg : string) : Error :=
  errors.Wrap errors.Default cause msg.

(** The value [DigestToken] computes: the HMAC-SHA256 of the token
    under the secret, in hexadecimal. *)
Definition hmac_sha256_hex (secret token : string) : string :=
  fmt.hex
    (hmac.Sum
       (fst (hmac.Write (E := Error) (hmac.New (bytes.of_string secret))
                        (bytes.of_string token)))).

(** The records a plugin-scoped revocation is aimed at: those of the
    plugin's type when a plugin name is given, with the given [extra]
    when one is given. *)
Definition plugin_match (pluginName extra : string) (r : models_ApiKey)
  : bool :=
  (String.eqb pluginName "" || String.eqb (Type_ r) ("plugin:" ++ pluginName))
  && (String.eqb extra "" || String.eqb (Extra r) extra).

(** The record [Create] hands to the persistence layer: no identifier
    yet, both timestamps [now], the digest in the key field, creator and
    updater taken from the acting user when there is one. *)
Definition new_record (user : option common_User) (name : string)
    (expiredAt : option Time) (allowedPath apiKeyType extra : string)
    (now : Time) (hashedApiKey : string) : models_ApiKey :=
  let apiKeyRecord :=
    mkApiKey 0%N now now "" "" "" "" name hashedApiKey expiredAt
             allowedPath apiKeyType extra in
  match user with
  | Some u =>
      set_Updater (set_Creator apiKeyRecord (user_Name u) (user_Email u))
                  (user_Name u) (user_Email u)
  | None => apiKeyRecord
  end.

(** The record [Put] hands to the persistence layer: the record found,
    with the new digest, the update time [now], and the updater taken
    from the acting user when there is one. *)
Definition rotated_record (user : option common_User) (old : models_ApiKey)
    (now : Time) (hashApiKey : string) : models_ApiKey :=
  let apiKey := set_UpdatedAt (set_ApiKey old hashApiKey) now in
  match user with
  | Some u => set_Updater apiKey (user_Name u) (user_Email u)
  | None => apiKey
  end.

(** The filters [DeleteForPlugin] builds from its two arguments. *)
Definition plugin_clauses (pluginName extra : string) : list dal.Clause :=
  let clauses : list dal.Clause := [] in
  let clauses :=
    if negb (String.eqb pluginName "") then
      clauses ++ [dal.Where "type = ?" (dal.Str ("plugin:" ++ pluginName))]
    else clauses in
  if negb (String.eqb extra "") then
    clauses ++ [dal.Where "extra = ?" (dal.Str extra)]
  else clauses.

(** A helper whose secret is [secret]. *)
Definition helper_with (secret : string) : ApiKeyHelper :=
  mkApiKeyHelper (fun _ => secret) secret.

Section ApiKeyHelper.

(** [regexp.Compile], reduced to its error ([None] is [nil]), and
    [strings.TrimSpace]: functions of the Go library, taken as they
    are. *)
Variable regexp_Compile : string -> option Error.
Variable strings_TrimSpace : string -> string.

(** [NewApiKeyHelper]; [config.GetConfig()] is the argument [cfg0]
    ([cfg0 k] is [cfg.GetString(k)]), and [None] is the panic. *)
Definition NewApiKeyHelper (cfg0 : string -> string) : option ApiKeyHelper :=
  let encryptionSecret := strings_TrimSpace (cfg0 EncodeKeyEnvStr) in
  if String.eqb encryptionSecret "" then None
  else Some (mkApiKeyHelper cfg0 encryptionSecret).

Definition DigestToken (c : ApiKeyHelper) (token : string)
  : M (string * option Error) :=
  let h := hmac.New (bytes.of_string (encryptionSecret c)) in
  let '(h, (_, err)) := hmac.Write h (bytes.of_string token) in
  match err with
  | Some err =>
      (logger_Error err "hmac write api key" ;;;
       ret ("", Some (DigestError err)))%world
  | None =>
      let hashedApiKey := fmt.hex (hmac.Sum h) in
      ret (hashedApiKey, None)
  end.

Definition generateApiKey (c : ApiKeyHelper)
  : M (string * string * option Error) :=
  ('(apiKey, randomLetterErr) <- utils.RandLetterBytes apiKeyLen ;;
   match randomLetterErr with
   | Some e => ret (apiKey, "", Some (RandomSourceError e))
   | None =>
       '(hashedApiKey, err) <- DigestToken c apiKey ;;
       ret (apiKey, hashedApiKey, err)
   end)%world.

Definition Create (c : ApiKeyHelper) (tx : dal.Dal) (user : option common_User)
    (name : string) (expiredAt : option Time) (allowedPath : string)
    (apiKeyType : string) (extra : string)
  : M (option models_ApiKey * option Error) :=
  match regexp_Compile allowedPath with
  | Some err =>
      (logger_Error err "Compile allowed path" ;;;
       ret (None, Some (InvalidPatternError err allowedPath)))%world
  | None =>
      ('(apiKey, hashedApiKey, err) <- generateApiKey c ;;
       match err with
       | Some err =>
           logger_Error err "generateApiKey" ;;;
           ret (None, Some err)
       | None =>
           now <- time_Now ;;
           let apiKeyRecord :=
             mkApiKey 0%N now now "" "" "" "" name hashedApiKey expiredAt
                      allowedPath apiKeyType extra in
           let apiKeyRecord :=
             match user with
             | Some u =>
                 set_Updater
                   (set_Creator apiKeyRecord (user_Name u) (user_Email u))
                   (user_Name u) (user_Email u)
             | None => apiKeyRecord
             end in
           '(apiKeyRecord, err) <- on_db tx (dal.Create apiKeyRecord) ;;
           match err with
           | Some err =>
               logger_Error err "create api key record" ;;;
               if dal.IsDuplicationError (Some err) then
                 ret (None, Some (DuplicateNameError name))
               else
                 ret (None,
                      Some (PersistenceError err "error creating DB api key"))
           | None =>
               let apiKeyRecord := set_ApiKey apiKeyRecord apiKey in
               ret (Some apiKeyRecord, None)
           end
       end)%world
  end.

Definition CreateForPlugin (c : ApiKeyHelper) (tx : dal.Dal)
    (user : option common_User) (name : string) (pluginName : string)
    (allowedPath : string) (extra : string)
  : M (option models_ApiKey * option Error) :=
  Create c tx user name None ("plugin:" ++ pluginName) allowedPath extra.

Definition getApiKeyById (c : ApiKeyHelper) (tx : option dal.Dal) (id : N)
    (additionalClauses : list dal.Clause)
  : M (option models_ApiKey * option Error) :=
  let tx := match tx with None => GetDal | Some t => t end in
  let apiKey := zero_ApiKey in
  ('(apiKey, err) <-
     on_db tx (dal.First apiKey
                 ([dal.Where "id = ?" (dal.Uint id)] ++ additionalClauses)) ;;
   match err with
   | Some err =>
       if dal.IsErrorNotFound (Some err) then
         ret (None, Some (NotFoundError err id))
       else
         ret (None,
              Some (PersistenceError err "error getting api key from DB"))
   | None => ret (Some apiKey, None)
   end)%world.

Definition GetApiKey (c : ApiKeyHelper) (tx : option dal.Dal)
    (additionalClauses : list dal.Clause)
  : M (option models_ApiKey * option Error) :=
  let tx := match tx with None => GetDal | Some t => t end in
  let apiKey := zero_ApiKey in
  ('(apiKey, err) <- on_db tx (dal.First apiKey additionalClauses) ;;
   ret (Some apiKey, err))%world.

Definition Put (c : ApiKeyHelper) (user : option common_User) (id : N)
  : M (option models_ApiKey * option Error) :=
  let db := GetDal in
  ('(found, err) <- getApiKeyById c (Some db) id [] ;;
   match err with
   | Some err =>
       logger_Error err ("get api key by id: " ++ fmt.decimal id) ;;;
       ret (None, Some err)
   | None =>
       '(apiKeyStr, hashApiKey, err) <- generateApiKey c ;;
       match err with
       | Some err =>
           logger_Error err "generateApiKey" ;;;
           ret (None, Some err)
       | None =>
           match found with
           | None =>
               (* a nil [apiKey] with a nil error: [getApiKeyById] never
                  returns it (lemma [getApiKeyById_not_nil_nil]) *)
               ret (None, None)
           | Some apiKey =>
               let apiKey := set_ApiKey apiKey hashApiKey in
               now <- time_Now ;;
               let apiKey := set_UpdatedAt apiKey now in
               let apiKey :=
                 match user with
                 | Some u => set_Updater apiKey (user_Name u) (user_Email u)
                 | None => apiKey
                 end in
               err <- on_db db (dal.Update apiKey) ;;
               match err with
               | Some err =>
                   logger_Error err
                     ("update api key, id: " ++ fmt.decimal id) ;;;
                   ret (None,
                        Some (PersistenceError err "error deleting api key"))
               | None =>
                   let apiKey := set_ApiKey apiKey apiKeyStr in
                   ret (Some apiKey, None)
               end
           end
       end
   end)%world.

Definition Delete (c : ApiKeyHelper) (id : N) : M (option Error) :=
  let db := GetDal in
  ('(_, err) <- getApiKeyById c (Some db) id [] ;;
   match err with
   | Some err =>
       logger_Error err ("get api key by id: " ++ fmt.decimal id) ;;;
       ret (Some err)
   | None =>
       err <- on_db db (dal.Delete zero_ApiKey
                          [dal.Where "id = ?" (dal.Uint id)]) ;;
       match err with
       | Some err =>
           logger_Error err ("delete api key, id: " ++ fmt.decimal id) ;;;
           ret (Some (PersistenceError err "error deleting api key"))
       | None => ret None
       end
   end)%world.

Definition DeleteForPlugin (c : ApiKeyHelper) (tx : dal.Dal)
    (pluginName : string) (extra : string) : M (option Error) :=
  let apiKey := zero_ApiKey in
  let clauses : list dal.Clause := [] in
  let clauses :=
    if negb (String.eqb pluginName "") then
      clauses ++ [dal.Where "type = ?" (dal.Str ("plugin:" ++ pluginName))]
    else clauses in
  let clauses :=
    if negb (String.eqb extra "") then
      clauses ++ [dal.Where "extra = ?" (dal.Str extra)]
    else clauses in
  ('(apiKey, err) <- on_db tx (dal.First apiKey clauses) ;;
   match err with
   | Some err =>
       logger_Error err "query api key record" ;;;
       if dal.IsErrorNotFound (errors.Unwrap err) then ret None
       else ret (Some err)
   | None =>
       err <- on_db tx (dal.Delete apiKey []) ;;
       match err with
       | Some err =>
           logger_Error err "delete api key record" ;;;
           ret (Some err)
       | None => ret None
       end
   end)%world.

End ApiKeyHelper.

(** The worlds the helper can bring about: it starts on an empty table
    whose first identifier is 1; between two calls the environment may
    change everything but the table and its identifier counter (the
    clock runs, the random source is refilled, faults get scheduled). *)
Inductive step (regexp_Compile : string -> option Error)
  : World -> World -> Prop :=
| step_Create c tx user name expiredAt allowedPath apiKeyType extra w :
    step regexp_Compile w
      (snd (Create regexp_Compile c tx user name expiredAt allowedPath
                   apiKeyType extra w))
| step_CreateForPlugin c tx user name pluginName allowedPath extra w :
    step regexp_Compile w
      (snd (CreateForPlugin regexp_Compile c tx user name pluginName
                            allowedPath extra w))
| step_Put c user id w :
    step regexp_Compile w (snd (Put c user id w))
| step_Delete c id w :
    step regexp_Compile w (snd (Delete c id w))
| step_DeleteForPlugin c tx pluginName extra w :
    step regexp_Compile w (snd (DeleteForPlugin c tx pluginName extra w))
| step_getApiKeyById c tx id cs w :
    step regexp_Compile w (snd (getApiKeyById c tx id cs w))
| step_GetApiKey c tx cs w :
    step regexp_Compile w (snd (GetApiKey c tx cs w))
| step_environment w w' :
    dal.rows (db w') = dal.rows (db w) ->
    dal.next_id (db w') = dal.next_id (db w) ->
    step regexp_Compile w w'.

Inductive reachable (regexp_Compile : string -> option Error)
  : World -> Prop :=
| reachable_init w :
    dal.rows (db w) = [] -> dal.next_id (db w) = 1%N ->
    reachable regexp_Compile w
| reachable_step w w' :
    reachable regexp_Compile w -> step regexp_Compile w w' ->
    reachable regexp_Compile w'.

(** ** Shapes of strings *)

Fixpoint string_forallb (p : ascii -> bool) (s : string) : bool :=
  match s with
  | EmptyString => true
  | String a rest => p a && string_forallb p rest
  end.

(** A digit or one of the letters [a] to [f]. *)
Definition is_lower_hex (a : ascii) : bool :=
  let n := N_of_ascii a in
  (N.leb 48 n && N.leb n 57) || (N.leb 97 n && N.leb n 102).

(** What a stored key looks like: the digest, under some secret, of a
    token of the length of a secret. *)
Definition is_digest (key : string) : Prop :=
  exists secret token,
    String.length token = apiKeyLen /\
    key = hmac_sha256_hex secret token.

(** The names in the table, in row order. *)
Definition names (s : dal.Store) : list string := List.map Name (dal.rows s).

(** The world [w] with the faults [fs] scheduled for the next calls of
    the persistence layer. *)
Definition with_faults (w : World) (fs : list (option string)) : World :=
  mkWorld (dal.mkStore (dal.rows (db w)) (dal.next_id (db w)) fs
                       (dal.calls (db w)))
          (entropy w) (clock w) (log w).


(* ================================================================== *)
(** ** Worlds to run the helper in *)

Module examples.

Definition helper : ApiKeyHelper := helper_with "s3cret".

Definition alice : common_User := mkUser "alice" "alice@example.org".

(** An empty table, a random source good for four secrets, no fault. *)
Definition fresh : World :=
  mkWorld sample.emptyStore (sample.counting 600) 1000 [].

(** One user key, created by [alice]. *)
Definition one_key : World :=
  snd (Create sample.Compile helper dal.Conn (Some alice)
              "ci" None "/api/.*" "user" "" fresh).

(** The user key and two keys of the plugin [webhook] with the same
    [extra]. *)
Definition three_keys : World :=
  snd (Create sample.Compile helper dal.Conn None
              "hook-b" None ".*" "plugin:webhook" "7"
         (snd (Create sample.Compile helper dal.Conn None
                      "hook-a" None ".*" "plugin:webhook" "7" one_key))).

(** A key issued for the plugin [webhook] through [CreateForPlugin]. *)
Definition plugin_key : World :=
  snd (CreateForPlugin sample.Compile helper dal.Conn None
                       "hook" "webhook" "/plugins/webhook/7/.*" "7" fresh).

(** A random source that delivers the same 128 values twice, and the
    table after one key has been created from it. *)
Definition repeating : World :=
  mkWorld sample.emptyStore (sample.counting 128 ++ sample.counting 128)
          1000 [].

Definition repeating_one_key : World :=
  snd (Create sample.Compile helper dal.Conn None
              "ci" None "/api/.*" "user" "" repeating).

(** A world with nothing in it. *)
Definition idle : World := mkWorld sample.emptyStore [] 0 [].

(** The user key and one key of the plugin [webhook]. *)
Definition one_hook : World :=
  snd (Create sample.Compile helper dal.Conn None
              "hook-a" None ".*" "plugin:webhook" "7" one_key).


(** The table of [one_key] when the next call of the persistence layer
    is going to fail. *)
Definition failing : World := with_faults one_key [Some "connection lost"].

(** The table of [one_key] when the second call of the persistence layer
    from now is going to fail. *)
Definition failing_later : World :=
  with_faults one_key [None; Some "deadlock"].

End examples.

(* ================================================================== *)
(** * Properties *)

(** ** The hash functions on known inputs *)

Example sha256_abc :
  fmt.hex (sha256.sum (bytes.of_string "abc")) =
  "ba7816bf8f01cfea414140de5dae2223b00361a396177a9cb410ff61f20015ad".
Proof. vm_compute. reflexivity. Qed.

Example sha256_empty :
  fmt.hex (sha256.sum []) =
  "e3b0c44298fc1c149afbf4c8996fb92427ae41e4649b934ca495991b7852b855".
Proof. vm_compute. reflexivity. Qed.

Example sha256_two_blocks :
  fmt.hex (sha256.sum (bytes.of_string
    "abcdbcdecdefdefgefghfghighijhijkijkljklmklmnlmnomnopnopq")) =
  "248d6a61d20638b8e5c026930c3e6039a33ce45964ff2167f6ecedd419db06c1".
Proof. vm_compute. reflexivity. Qed.

Example hmac_sha256_rfc4231_case2 :
  hmac_sha256_hex "Jefe" "what do ya want for nothing?" =
  "5bdcc146bf60754e6a042426089575c75a003f089d2739839dec58b964ec3843".
Proof. vm_compute. reflexivity. Qed.

Example hmac_sha256_long_key_and_message :
  hmac_sha256_hex (bytes.to_string (List.repeat 107 200))
                  (bytes.to_string (List.repeat 109 300)) =
  "b232c078380bb17bdc3d4d4359919b99f2239f80e1dfd5c773c5c4a64b1b81a0".
Proof. vm_compute. reflexivity. Qed.

(** ** Lengths *)

Lemma be_bytes_length (n : nat) (x : Z) :
  List.length (sha256.be_bytes n x) = n.
Proof.
  induction n as [|n IH]; simpl; [reflexivity | now rewrite IH].
Qed.

Lemma sha256_sum_length (msg : list Z) :
  List.length (sha256.sum msg) = sha256.Size.
Proof.
  unfold sha256.sum.
  repeat rewrite List.length_app.
  repeat rewrite be_bytes_length.
  reflexivity.
Qed.

Lemma hex_length (b : list Z) :
  String.length (fmt.hex b) = (2 * List.length b)%nat.
Proof.
  induction b as [|x b IH]; simpl; [reflexivity | rewrite IH; lia].
Qed.

Lemma hmac_sha256_hex_length (secret token : string) :
  String.length (hmac_sha256_hex secret token) = 64%nat.
Proof.
  unfold hmac_sha256_hex, hmac.Sum.
  rewrite hex_length, sha256_sum_length. reflexivity.
Qed.

Lemma string_of_list_ascii_length (l : list ascii) :
  String.length (string_of_list_ascii l) = List.length l.
Proof.
  induction l as [|a l IH]; simpl; [reflexivity | now rewrite IH].
Qed.

(** ** The persistence layer *)

Lemma nodupb_NoDup (l : list N) : dal.nodupb l = true <-> NoDup l.
Proof.
  induction l as [|i l IH]; simpl.
  - split; [constructor | reflexivity].
  - rewrite andb_true_iff, negb_true_iff, IH. split.
    + intros [Hi Hl]. constructor; [|assumption].
      intro Hin.
      assert (List.existsb (N.eqb i) l = true) as E.
      { apply List.existsb_exists. exists i. split; [assumption|].
        apply N.eqb_refl. }
      congruence.
    + intro H. inversion H as [|? ? Hni Hnd]; subst. split; [|assumption].
      destruct (List.existsb (N.eqb i) l) eqn:E; [|reflexivity].
      apply List.existsb_exists in E. destruct E as [j [Hj Hij]].
      apply N.eqb_eq in Hij. subst j. contradiction.
Qed.

Lemma wf_iff (s : dal.Store) :
  dal.wf s = true <->
  (0 < dal.next_id s)%N /\
  (forall i, In i (dal.ids s) -> (0 < i < dal.next_id s)%N) /\
  NoDup (dal.ids s).
Proof.
  unfold dal.wf.
  rewrite !andb_true_iff, N.ltb_lt, List.forallb_forall, nodupb_NoDup.
  split.
  - intros [[H0 H1] H2]. split; [assumption|]. split; [|assumption].
    intros i Hi. specialize (H1 i Hi).
    rewrite andb_true_iff, !N.ltb_lt in H1. exact H1.
  - intros [H0 [H1 H2]]. split; [split|]; try assumption.
    intros i Hi. rewrite andb_true_iff, !N.ltb_lt. apply H1, Hi.
Qed.

Lemma quiet_succ (n : nat) (s : dal.Store) (c : dal.Call) :
  dal.quiet (S n) s = true ->
  List.hd None (dal.faults s) = None /\
  dal.quiet n (snd (dal.enter c s)) = true.
Proof.
  unfold dal.quiet, dal.enter. simpl.
  destruct (dal.faults s) as [|f fs]; simpl.
  - intros _. split; [reflexivity|]. now destruct n.
  - destruct f; simpl; [discriminate|]. intro H. split; [reflexivity|exact H].
Qed.

Lemma quiet_weaken (n : nat) (s : dal.Store) :
  dal.quiet (S n) s = true -> dal.quiet n s = true.
Proof.
  unfold dal.quiet. generalize (dal.faults s). clear s.
  induction n as [|n IH]; intros l H; [reflexivity|].
  destruct l as [|f l]; [reflexivity|].
  change (List.firstn (S (S n)) (f :: l)) with (f :: List.firstn (S n) l) in H.
  change (List.firstn (S n) (f :: l)) with (f :: List.firstn n l).
  simpl in H |- *. destruct f; [discriminate|]. simpl in *. apply IH, H.
Qed.

Lemma find_split {A : Type} (p : A -> bool) (l : list A) (x : A) :
  List.find p l = Some x ->
  exists l1 l2, l = l1 ++ x :: l2 /\ p x = true /\
                List.forallb (fun y => negb (p y)) l1 = true.
Proof.
  induction l as [|a l IH]; simpl; [discriminate|].
  destruct (p a) eqn:Ea.
  - intro H. inversion H; subst. exists [], l. simpl. auto.
  - intro H. destruct (IH H) as [l1 [l2 [-> [Hx Hl1]]]].
    exists (a :: l1), l2. simpl. rewrite Ea. auto.
Qed.

Lemma find_none_forallb {A : Type} (p : A -> bool) (l : list A) :
  List.find p l = None ->
  List.forallb (fun y => negb (p y)) l = true.
Proof.
  induction l as [|a l IH]; simpl; [reflexivity|].
  destruct (p a); [discriminate|]. simpl. exact IH.
Qed.

Lemma filter_all {A : Type} (p : A -> bool) (l : list A) :
  List.forallb p l = true -> List.filter p l = l.
Proof.
  induction l as [|a l IH]; simpl; [reflexivity|].
  rewrite andb_true_iff. intros [Ha Hl]. rewrite Ha, IH; auto.
Qed.

(** Deleting by identifier in a table without duplicate identifiers
    removes one row and keeps the others in place. *)
Lemma filter_by_id (l1 l2 : list models_ApiKey) (x : models_ApiKey) :
  NoDup (List.map ID (l1 ++ x :: l2)) ->
  List.filter (fun y => negb (N.eqb (ID y) (ID x))) (l1 ++ x :: l2)
  = l1 ++ l2.
Proof.
  intro Hnd.
  rewrite List.map_app in Hnd. simpl in Hnd.
  assert (~ In (ID x) (List.map ID l1 ++ List.map ID l2)) as Hx
    by (apply NoDup_remove_2; exact Hnd).
  rewrite List.filter_app. simpl. rewrite N.eqb_refl. simpl.
  rewrite !filter_all; [reflexivity | |];
    apply List.forallb_forall; intros y Hy; rewrite negb_true_iff;
    apply N.eqb_neq; intro E; apply Hx; apply List.in_or_app;
    [right | left]; rewrite <- E; apply List.in_map; exact Hy.
Qed.

Lemma matches_id (id : N) (r : models_ApiKey) :
  dal.matches [dal.Where "id = ?" (dal.Uint id)] r = N.eqb (ID r) id.
Proof.
  unfold dal.matches. simpl. apply andb_true_r.
Qed.

Lemma matches_nil (r : models_ApiKey) : dal.matches [] r = true.
Proof. reflexivity. Qed.

Lemma matches_cons_id (id : N) (cs : list dal.Clause) (r : models_ApiKey) :
  dal.matches (dal.Where "id = ?" (dal.Uint id) :: cs) r
  = N.eqb (ID r) id && dal.matches cs r.
Proof.
  unfold dal.matches. simpl.
  destruct (dal.eval_clauses cs r); [reflexivity|].
  now rewrite andb_false_r.
Qed.

(** What [First] answers, by cases on the fault scheduled for the call,
    the filters and the table. *)
Lemma First_eq (dst : models_ApiKey) (cs : list dal.Clause) (s : dal.Store) :
  dal.First dst cs s =
  (match List.hd None (dal.faults s) with
   | Some msg => (dst, Some (dal.OtherError msg))
   | None =>
       if dal.valid_clauses cs then
         match List.find (dal.matches cs) (dal.rows s) with
         | Some x => (x, None)
         | None => (dst, Some dal.NotFoundError)
         end
       else (dst, Some (dal.OtherError "invalid query"))
   end,
   snd (dal.enter (dal.CallFirst cs) s)).
Proof.
  unfold dal.First, dal.enter. simpl.
  destruct (List.hd None (dal.faults s)); [reflexivity|].
  destruct (dal.valid_clauses cs); simpl; [|reflexivity].
  destruct (List.find (dal.matches cs) (dal.rows s)); reflexivity.
Qed.

Lemma enter_rows (c : dal.Call) (s : dal.Store) :
  dal.rows (snd (dal.enter c s)) = dal.rows s /\
  dal.next_id (snd (dal.enter c s)) = dal.next_id s /\
  dal.calls (snd (dal.enter c s)) = dal.calls s ++ [c].
Proof. unfold dal.enter. simpl. auto. Qed.

(** ** The helper, step by step *)

Lemma DigestToken_eq (c : ApiKeyHelper) (token : string) (w : World) :
  DigestToken c token w
  = ((hmac_sha256_hex (encryptionSecret c) token, None), w).
Proof. reflexivity. Qed.

Lemma letters_length (n : nat) (source : list Z) :
  (n <= List.length source)%nat ->
  String.length (utils.letters n source) = n.
Proof.
  intro H. unfold utils.letters.
  rewrite string_of_list_ascii_length, List.length_map, List.length_firstn.
  lia.
Qed.

Lemma generateApiKey_ok (c : ApiKeyHelper) (w : World) :
  (apiKeyLen <= List.length (entropy w))%nat ->
  generateApiKey c w
  = ((utils.letters apiKeyLen (entropy w),
      hmac_sha256_hex (encryptionSecret c)
                      (utils.letters apiKeyLen (entropy w)),
      None),
     mkWorld (db w) (List.skipn apiKeyLen (entropy w)) (clock w) (log w)).
Proof.
  intro H. unfold generateApiKey, bind, utils.RandLetterBytes.
  apply Nat.ltb_ge in H. rewrite H.
  rewrite DigestToken_eq. reflexivity.
Qed.

(** What the lookup by identifier answers, by cases on the answer of
    the layer. *)
Lemma getApiKeyById_eq (c : ApiKeyHelper) (tx : option dal.Dal) (id : N)
    (cs : list dal.Clause) (w : World) :
  getApiKeyById c tx id cs w =
  (match List.hd None (dal.faults (db w)) with
   | Some msg =>
       (None, Some (PersistenceError (dal.OtherError msg)
                                     "error getting api key from DB"))
   | None =>
       if dal.valid_clauses (dal.Where "id = ?" (dal.Uint id) :: cs) then
         match List.find (dal.matches (dal.Where "id = ?" (dal.Uint id) :: cs))
                         (dal.rows (db w)) with
         | Some x => (Some x, None)
         | None => (None, Some (NotFoundError dal.NotFoundError id))
         end
       else
         (None, Some (PersistenceError (dal.OtherError "invalid query")
                                       "error getting api key from DB"))
   end,
   mkWorld
     (snd (dal.enter
             (dal.CallFirst (dal.Where "id = ?" (dal.Uint id) :: cs)) (db w)))
     (entropy w) (clock w) (log w)).
Proof.
  unfold getApiKeyById, bind, on_db.
  change ([dal.Where "id = ?" (dal.Uint id)] ++ cs)
    with (dal.Where "id = ?" (dal.Uint id) :: cs).
  rewrite First_eq.
  destruct (List.hd None (dal.faults (db w))); [reflexivity|].
  destruct (dal.valid_clauses _); [|reflexivity].
  destruct (List.find _ _); reflexivity.
Qed.

Lemma getApiKeyById_not_nil_nil (c : ApiKeyHelper) (tx : option dal.Dal)
    (id : N) (cs : list dal.Clause) (w : World) :
  fst (getApiKeyById c tx id cs w) <> (None, None).
Proof.
  rewrite getApiKeyById_eq. simpl.
  destruct (List.hd None (dal.faults (db w))); [discriminate|].
  destruct (dal.valid_clauses _); [|discriminate].
  destruct (List.find _ _); discriminate.
Qed.

Lemma GetApiKey_eq (c : ApiKeyHelper) (tx : option dal.Dal)
    (cs : list dal.Clause) (w : World) :
  GetApiKey c tx cs w =
  (match List.hd None (dal.faults (db w)) with
   | Some msg => (Some zero_ApiKey, Some (dal.OtherError msg))
   | None =>
       if dal.valid_clauses cs then
         match List.find (dal.matches cs) (dal.rows (db w)) with
         | Some x => (Some x, None)
         | None => (Some zero_ApiKey, Some dal.NotFoundError)
         end
       else (Some zero_ApiKey, Some (dal.OtherError "invalid query"))
   end,
   mkWorld (snd (dal.enter (dal.CallFirst cs) (db w)))
           (entropy w) (clock w) (log w)).
Proof.
  unfold GetApiKey, bind, on_db. rewrite First_eq.
  destruct (List.hd None (dal.faults (db w))); [reflexivity|].
  destruct (dal.valid_clauses cs); [|reflexivity].
  destruct (List.find _ _); reflexivity.
Qed.

Lemma find_absent_id (id : N) (cs : list dal.Clause) (s : dal.Store) :
  dal.has_id id s = false ->
  List.find (dal.matches (dal.Where "id = ?" (dal.Uint id) :: cs)) (dal.rows s)
  = None.
Proof.
  unfold dal.has_id. induction (dal.rows s) as [|r l IH]; simpl.
  - reflexivity.
  - rewrite orb_false_iff. intros [Hr Hl].
    rewrite matches_cons_id, Hr. simpl. apply IH, Hl.
Qed.

Lemma Delete_ok (r : models_ApiKey) (cs : list dal.Clause) (s : dal.Store) :
  List.hd None (dal.faults s) = None ->
  dal.valid_clauses cs = true ->
  N.eqb (ID r) 0 && Nat.eqb (List.length cs) 0 = false ->
  dal.Delete r cs s =
  (None,
   dal.with_rows (snd (dal.enter (dal.CallDelete r cs) s))
     (List.filter (fun x => negb (dal.doomed r cs x)) (dal.rows s))
     (dal.next_id s)).
Proof.
  intros Hf Hv Hz. unfold dal.Delete, dal.enter.
  rewrite Hf, Hv. simpl. rewrite Hz. reflexivity.
Qed.

Lemma find_ext_eq {A : Type} (p q : A -> bool) (l : list A) :
  (forall x, p x = q x) -> List.find p l = List.find q l.
Proof.
  intro H. induction l as [|a l IH]; simpl; [reflexivity|].
  rewrite H, IH. reflexivity.
Qed.

Lemma In_ids (s : dal.Store) (x : models_ApiKey) :
  In x (dal.rows s) -> In (ID x) (dal.ids s).
Proof. intro H. unfold dal.ids. apply List.in_map, H. Qed.

(** The plugin-scoped revocation on a well-formed store whose next two
    calls do not fail: success; nothing changes when no row passes the
    filters; otherwise the first row that passes them is removed and
    every other row stays. *)
Lemma DeleteForPlugin_eq (c : ApiKeyHelper) (tx : dal.Dal)
    (pluginName extra : string) (w : World) :
  dal.wf (db w) = true ->
  dal.quiet 2 (db w) = true ->
  fst (DeleteForPlugin c tx pluginName extra w) = None /\
  match List.find (plugin_match pluginName extra) (dal.rows (db w)) with
  | None =>
      dal.rows (db (snd (DeleteForPlugin c tx pluginName extra w)))
      = dal.rows (db w) /\
      dal.calls (db (snd (DeleteForPlugin c tx pluginName extra w)))
      = dal.calls (db w) ++ [dal.CallFirst (plugin_clauses pluginName extra)]
  | Some x =>
      (exists l1 l2,
         dal.rows (db w) = l1 ++ x :: l2 /\
         List.forallb (fun y => negb (plugin_match pluginName extra y)) l1
         = true /\
         dal.rows (db (snd (DeleteForPlugin c tx pluginName extra w)))
         = l1 ++ l2) /\
      dal.calls (db (snd (DeleteForPlugin c tx pluginName extra w)))
      = dal.calls (db w) ++ [dal.CallFirst (plugin_clauses pluginName extra);
                             dal.CallDelete x []]
  end.
Proof.
  intros Hwf Hq.
  unfold DeleteForPlugin, bind, on_db. cbv zeta.
  change (if negb (String.eqb extra "")
          then (if negb (String.eqb pluginName "")
                then [] ++ [dal.Where "type = ?"
                              (dal.Str ("plugin:" ++ pluginName))]
                else []) ++ [dal.Where "extra = ?" (dal.Str extra)]
          else (if negb (String.eqb pluginName "")
                then [] ++ [dal.Where "type = ?"
                              (dal.Str ("plugin:" ++ pluginName))]
                else []))
    with (plugin_clauses pluginName extra).
  set (cs := plugin_clauses pluginName extra).
  rewrite First_eq.
  destruct (quiet_succ 1 (db w) (dal.CallFirst cs) Hq) as [Hf Hq1].
  rewrite Hf.
  assert (dal.valid_clauses cs = true) as Hv.
  { subst cs. unfold plugin_clauses.
    destruct (String.eqb pluginName ""), (String.eqb extra ""); reflexivity. }
  rewrite Hv.
  assert (List.find (dal.matches cs) (dal.rows (db w))
          = List.find (plugin_match pluginName extra) (dal.rows (db w)))
    as Hfind.
  { apply find_ext_eq. intro x. subst cs.
    unfold plugin_clauses, plugin_match, dal.matches.
    destruct (String.eqb pluginName ""), (String.eqb extra ""); simpl;
      rewrite ?andb_true_r; reflexivity. }
  rewrite Hfind.
  destruct (List.find (plugin_match pluginName extra) (dal.rows (db w)))
    as [x|] eqn:Efind.
  - destruct (find_split _ _ _ Efind) as [l1 [l2 [Hrows [Hx Hl1]]]].
    apply wf_iff in Hwf. destruct Hwf as [_ [Hids Hnd]].
    assert (N.eqb (ID x) 0 = false) as Hx0.
    { apply N.eqb_neq. intro E.
      assert (In x (dal.rows (db w))) as Hin
        by (rewrite Hrows; apply List.in_elt).
      apply In_ids, Hids in Hin. lia. }
    set (s1 := snd (dal.enter (dal.CallFirst cs) (db w))) in *.
    destruct (quiet_succ 0 s1 (dal.CallDelete x []) Hq1) as [Hf1 _].
    cbn [db].
    rewrite (Delete_ok x [] _ Hf1 eq_refl);
      [|simpl; rewrite Hx0; reflexivity].
    simpl. split; [reflexivity|]. split.
    + exists l1, l2. split; [exact Hrows|]. split; [exact Hl1|].
      rewrite Hrows.
      rewrite <- (filter_by_id l1 l2 x).
      * apply List.filter_ext. intro y. unfold dal.doomed.
        rewrite Hx0. simpl. now rewrite andb_true_r.
      * unfold dal.ids in Hnd. rewrite Hrows in Hnd. exact Hnd.
    + rewrite <- List.app_assoc. reflexivity.
  - simpl. repeat split; reflexivity.
Qed.

Lemma new_record_Name (user : option common_User) (name : string)
    (expiredAt : option Time) (allowedPath apiKeyType extra : string)
    (now : Time) (h : string) :
  Name (new_record user name expiredAt allowedPath apiKeyType extra now h)
  = name.
Proof. destruct user; reflexivity. Qed.

Lemma new_record_ApiKey (user : option common_User) (name : string)
    (expiredAt : option Time) (allowedPath apiKeyType extra : string)
    (now : Time) (h : string) :
  ApiKey (new_record user name expiredAt allowedPath apiKeyType extra now h)
  = h.
Proof. destruct user; reflexivity. Qed.

(** [Create] on a compilable pattern and a fresh name, with enough
    randomness and no storage fault. *)
Lemma Create_ok (regexp_Compile : string -> option Error)
    (c : ApiKeyHelper) (tx : dal.Dal)
    (user : option common_User) (name : string) (expiredAt : option Time)
    (allowedPath apiKeyType extra : string) (w : World) :
  regexp_Compile allowedPath = None ->
  (apiKeyLen <= List.length (entropy w))%nat ->
  List.hd None (dal.faults (db w)) = None ->
  dal.name_taken name (db w) = false ->
  Create regexp_Compile c tx user name expiredAt allowedPath apiKeyType
         extra w =
  let apiKey := utils.letters apiKeyLen (entropy w) in
  let sent :=
    new_record user name expiredAt allowedPath apiKeyType extra (clock w)
               (hmac_sha256_hex (encryptionSecret c) apiKey) in
  let stored := set_ID sent (dal.next_id (db w)) in
  ((Some (set_ApiKey stored apiKey), None),
   mkWorld
     (dal.mkStore (dal.rows (db w) ++ [stored])
                  (N.succ (dal.next_id (db w)))
                  (List.tl (dal.faults (db w)))
                  (dal.calls (db w) ++ [dal.CallCreate sent]))
     (List.skipn apiKeyLen (entropy w)) (clock w) (log w)).
Proof.
  intros Hre Hent Hf Hname.
  unfold Create. rewrite Hre. unfold bind.
  rewrite (generateApiKey_ok c w Hent).
  unfold time_Now, on_db. cbn [db entropy clock log].
  fold (new_record user name expiredAt allowedPath apiKeyType extra (clock w)
          (hmac_sha256_hex (encryptionSecret c)
             (utils.letters apiKeyLen (entropy w)))).
  unfold dal.Create, dal.enter. rewrite Hf.
  unfold dal.name_taken in *. cbn [dal.rows dal.next_id].
  rewrite new_record_Name, Hname. reflexivity.
Qed.

(** [Create] on a name that is taken. *)
Lemma Create_dup (regexp_Compile : string -> option Error)
    (c : ApiKeyHelper) (tx : dal.Dal)
    (user : option common_User) (name : string) (expiredAt : option Time)
    (allowedPath apiKeyType extra : string) (w : World) :
  regexp_Compile allowedPath = None ->
  (apiKeyLen <= List.length (entropy w))%nat ->
  List.hd None (dal.faults (db w)) = None ->
  dal.name_taken name (db w) = true ->
  fst (Create regexp_Compile c tx user name expiredAt allowedPath apiKeyType
              extra w)
  = (None, Some (DuplicateNameError name)) /\
  dal.rows (db (snd (Create regexp_Compile c tx user name expiredAt
                            allowedPath apiKeyType extra w)))
  = dal.rows (db w).
Proof.
  intros Hre Hent Hf Hname.
  unfold Create. rewrite Hre. unfold bind.
  rewrite (generateApiKey_ok c w Hent).
  unfold time_Now, on_db. cbn [db entropy clock log].
  fold (new_record user name expiredAt allowedPath apiKeyType extra (clock w)
          (hmac_sha256_hex (encryptionSecret c)
             (utils.letters apiKeyLen (entropy w)))).
  unfold dal.Create, dal.enter. rewrite Hf.
  unfold dal.name_taken in *. cbn [dal.rows dal.next_id].
  rewrite new_record_Name, Hname. simpl. split; reflexivity.
Qed.

Lemma find_app_last {A : Type} (p : A -> bool) (l : list A) (x : A) :
  List.forallb (fun y => negb (p y)) l = true ->
  p x = true ->
  List.find p (l ++ [x]) = Some x.
Proof.
  intros Hl Hx. induction l as [|a l IH]; simpl in *.
  - now rewrite Hx.
  - apply andb_true_iff in Hl. destruct Hl as [Ha Hl].
    apply negb_true_iff in Ha. rewrite Ha. apply IH, Hl.
Qed.

Lemma quiet_two (s : dal.Store) :
  dal.quiet 2 s = true ->
  List.hd None (dal.faults s) = None /\
  List.hd None (List.tl (dal.faults s)) = None.
Proof.
  intro H.
  destruct (quiet_succ 1 s (dal.CallFirst []) H) as [H1 H2].
  destruct (quiet_succ 0 _ (dal.CallFirst []) H2) as [H3 _].
  split; assumption.
Qed.

Lemma older_rows_do_not_match (s : dal.Store) :
  dal.wf s = true ->
  List.forallb
    (fun y => negb (dal.matches [dal.Where "id = ?" (dal.Uint (dal.next_id s))]
                                y))
    (dal.rows s) = true.
Proof.
  intro Hwf. apply wf_iff in Hwf. destruct Hwf as [_ [Hids _]].
  apply List.forallb_forall. intros y Hy.
  rewrite matches_id. apply negb_true_iff, N.eqb_neq.
  apply In_ids, Hids in Hy. lia.
Qed.

Lemma name_taken_last (name : string) (l : list models_ApiKey)
    (r : models_ApiKey) :
  Name r = name ->
  List.existsb (fun x => String.eqb (Name x) name) (l ++ [r]) = true.
Proof.
  intro H. rewrite List.existsb_app. simpl.
  rewrite H, String.eqb_refl. now rewrite orb_true_r.
Qed.

Lemma rotated_record_ID (user : option common_User) (old : models_ApiKey)
    (now : Time) (h : string) :
  ID (rotated_record user old now h) = ID old.
Proof. destruct user; reflexivity. Qed.

Lemma rotated_record_ApiKey (user : option common_User) (old : models_ApiKey)
    (now : Time) (h : string) :
  ApiKey (rotated_record user old now h) = h.
Proof. destruct user; reflexivity. Qed.

(** Updating by identifier in a table without duplicate identifiers
    replaces one row and keeps the others in place. *)
Lemma map_replace_by_id (l1 l2 : list models_ApiKey) (x r : models_ApiKey) :
  NoDup (List.map ID (l1 ++ x :: l2)) ->
  ID r = ID x ->
  List.map (fun y => if N.eqb (ID y) (ID r) then r else y) (l1 ++ x :: l2)
  = l1 ++ r :: l2.
Proof.
  intros Hnd Hr.
  rewrite List.map_app in Hnd. simpl in Hnd.
  assert (~ In (ID x) (List.map ID l1 ++ List.map ID l2)) as Hx
    by (apply NoDup_remove_2; exact Hnd).
  assert (forall l, (forall y, In y l -> ID y <> ID x) ->
                    List.map (fun y => if N.eqb (ID y) (ID r) then r else y) l
                    = l) as Hkeep.
  { induction l as [|a l IH]; simpl; intro H; [reflexivity|].
    rewrite Hr. destruct (N.eqb_spec (ID a) (ID x)) as [E|E].
    - exfalso. apply (H a); auto.
    - rewrite Hr in IH. rewrite IH; auto. }
  rewrite List.map_app. simpl.
  replace (N.eqb (ID x) (ID r)) with true
    by (symmetry; apply N.eqb_eq; symmetry; exact Hr).
  rewrite !Hkeep; [reflexivity | |];
    intros y Hy E; apply Hx; apply List.in_or_app; [right | left];
    rewrite <- E; apply List.in_map; exact Hy.
Qed.

(** [Put] on the identifier of a stored record, with enough randomness
    and no storage fault. *)
Lemma Put_found (c : ApiKeyHelper) (user : option common_User) (id : N)
    (w : World) (old : models_ApiKey) :
  List.find (fun r => N.eqb (ID r) id) (dal.rows (db w)) = Some old ->
  dal.quiet 2 (db w) = true ->
  (apiKeyLen <= List.length (entropy w))%nat ->
  Put c user id w =
  let apiKeyStr := utils.letters apiKeyLen (entropy w) in
  let sent :=
    rotated_record user old (clock w)
                   (hmac_sha256_hex (encryptionSecret c) apiKeyStr) in
  ((Some (set_ApiKey sent apiKeyStr), None),
   mkWorld
     (dal.mkStore
        (List.map (fun x => if N.eqb (ID x) (ID sent) then sent else x)
                  (dal.rows (db w)))
        (dal.next_id (db w))
        (List.tl (List.tl (dal.faults (db w))))
        (dal.calls (db w) ++
         [dal.CallFirst [dal.Where "id = ?" (dal.Uint id)];
          dal.CallUpdate sent]))
     (List.skipn apiKeyLen (entropy w)) (clock w) (log w)).
Proof.
  intros Hfind Hq Hent.
  destruct (quiet_two _ Hq) as [Hf Hf'].
  unfold Put, bind. rewrite getApiKeyById_eq. rewrite Hf.
  change (dal.valid_clauses [dal.Where "id = ?" (dal.Uint id)]) with true.
  cbv iota.
  rewrite (find_ext_eq _ (fun r => N.eqb (ID r) id) _ (matches_id id)).
  rewrite Hfind.
  rewrite generateApiKey_ok by exact Hent.
  unfold time_Now, on_db. cbn [db entropy clock log].
  fold (rotated_record user old (clock w)
          (hmac_sha256_hex (encryptionSecret c)
             (utils.letters apiKeyLen (entropy w)))).
  unfold dal.Update, dal.enter. cbn [dal.faults dal.rows dal.next_id dal.calls snd].
  rewrite Hf'. cbv zeta. unfold dal.with_rows.
  cbn [dal.faults dal.rows dal.next_id dal.calls].
  rewrite <- List.app_assoc. reflexivity.
Qed.

(** ** Well-formed stores stay well-formed *)

Example emptyStore_wf : dal.wf sample.emptyStore = true.
Proof. reflexivity. Qed.

Lemma enter_wf (c : dal.Call) (s : dal.Store) :
  dal.wf (snd (dal.enter c s)) = dal.wf s.
Proof. reflexivity. Qed.

Lemma dal_Create_wf (r : models_ApiKey) (s : dal.Store) :
  dal.wf s = true -> dal.wf (snd (dal.Create r s)) = true.
Proof.
  intro Hwf. unfold dal.Create.
  destruct (dal.enter (dal.CallCreate r) s) as [f s1] eqn:Es.
  assert (dal.wf s1 = true) as Hwf1.
  { replace s1 with (snd (dal.enter (dal.CallCreate r) s))
      by (rewrite Es; reflexivity).
    rewrite enter_wf. exact Hwf. }
  destruct f as [msg|]; [exact Hwf1|].
  destruct (dal.name_taken (Name r) s1); [exact Hwf1|].
  cbn [snd]. apply wf_iff in Hwf1. destruct Hwf1 as [H0 [Hids Hnd]].
  apply wf_iff. unfold dal.ids, dal.with_rows in *. cbn [dal.rows dal.next_id].
  rewrite List.map_app. cbn [List.map ID set_ID].
  split; [lia|]. split.
  - intros i Hi. apply List.in_app_or in Hi. destruct Hi as [Hi|[Hi|[]]].
    + specialize (Hids i Hi). lia.
    + subst i. lia.
  - apply NoDup_app; [exact Hnd | repeat constructor; intros [] |].
    intros a Ha [Hb|[]]. subst a. specialize (Hids _ Ha). lia.
Qed.

Lemma dal_Update_wf (r : models_ApiKey) (s : dal.Store) :
  dal.wf s = true -> dal.wf (snd (dal.Update r s)) = true.
Proof.
  intro Hwf. unfold dal.Update, dal.enter.
  destruct (List.hd None (dal.faults s)); cbn [snd]; [exact Hwf|].
  unfold dal.wf, dal.ids, dal.with_rows in *. cbn [dal.rows dal.next_id].
  rewrite List.map_map.
  rewrite (List.map_ext
             (fun x => ID (if N.eqb (ID x) (ID r) then r else x)) ID);
    [exact Hwf|].
  intro x. destruct (N.eqb_spec (ID x) (ID r)); congruence.
Qed.

Lemma filter_ids_wf (p : models_ApiKey -> bool) (s s' : dal.Store) :
  dal.rows s' = List.filter p (dal.rows s) ->
  dal.next_id s' = dal.next_id s ->
  dal.wf s = true -> dal.wf s' = true.
Proof.
  intros Hrows Hnext Hwf.
  apply wf_iff in Hwf. destruct Hwf as [H0 [Hids Hnd]].
  apply wf_iff. unfold dal.ids in *. rewrite Hrows, Hnext.
  split; [exact H0|]. split.
  - intros i Hi. apply Hids. apply List.in_map_iff in Hi.
    destruct Hi as [x [Hx Hin]]. apply List.filter_In in Hin.
    apply List.in_map_iff. exists x. tauto.
  - clear Hids Hrows Hnext. induction (dal.rows s) as [|a l IH]; simpl.
    + constructor.
    + simpl in Hnd. inversion Hnd as [|? ? Hni Hnd']; subst.
      destruct (p a); [|apply IH, Hnd'].
      simpl. constructor; [|apply IH, Hnd'].
      intro Hin. apply Hni. apply List.in_map_iff in Hin.
      destruct Hin as [x [Hx Hin]]. apply List.filter_In in Hin.
      apply List.in_map_iff. exists x. tauto.
Qed.

Lemma dal_Delete_wf (r : models_ApiKey) (cs : list dal.Clause)
    (s : dal.Store) :
  dal.wf s = true -> dal.wf (snd (dal.Delete r cs s)) = true.
Proof.
  intro Hwf. unfold dal.Delete, dal.enter.
  destruct (List.hd None (dal.faults s)); cbn [snd]; [exact Hwf|].
  destruct (negb (dal.valid_clauses cs)); cbn [snd]; [exact Hwf|].
  destruct (N.eqb (ID r) 0 && Nat.eqb (List.length cs) 0); cbn [snd];
    [exact Hwf|].
  eapply filter_ids_wf; [| |exact Hwf]; reflexivity.
Qed.

Lemma dal_First_wf (dst : models_ApiKey) (cs : list dal.Clause)
    (s : dal.Store) :
  dal.wf s = true -> dal.wf (snd (dal.First dst cs s)) = true.
Proof. intro Hwf. rewrite First_eq. exact Hwf. Qed.

Lemma generateApiKey_db (c : ApiKeyHelper) (w : World) :
  db (snd (generateApiKey c w)) = db w.
Proof.
  unfold generateApiKey, bind, utils.RandLetterBytes.
  destruct (List.length (entropy w) <? apiKeyLen)%nat; reflexivity.
Qed.

Lemma getApiKeyById_wf (c : ApiKeyHelper) (tx : option dal.Dal) (id : N)
    (cs : list dal.Clause) (w : World) :
  dal.wf (db w) = true ->
  dal.wf (db (snd (getApiKeyById c tx id cs w))) = true.
Proof. intro H. rewrite getApiKeyById_eq. exact H. Qed.

Lemma GetApiKey_wf (c : ApiKeyHelper) (tx : option dal.Dal)
    (cs : list dal.Clause) (w : World) :
  dal.wf (db w) = true ->
  dal.wf (db (snd (GetApiKey c tx cs w))) = true.
Proof. intro H. rewrite GetApiKey_eq. exact H. Qed.

Lemma Create_wf (regexp_Compile : string -> option Error)
    (c : ApiKeyHelper) (tx : dal.Dal)
    (user : option common_User) (name : string) (expiredAt : option Time)
    (allowedPath apiKeyType extra : string) (w : World) :
  dal.wf (db w) = true ->
  dal.wf (db (snd (Create regexp_Compile c tx user name expiredAt
                          allowedPath apiKeyType extra w))) = true.
Proof.
  intro Hwf. unfold Create.
  destruct (regexp_Compile allowedPath); [exact Hwf|].
  unfold bind.
  pose proof (generateApiKey_db c w) as Hg.
  destruct (generateApiKey c w) as [[[apiKey hashed] err] w1].
  cbn [snd] in Hg.
  destruct err; [cbn [snd logger_Error db ret]; rewrite Hg; exact Hwf|].
  unfold time_Now, on_db.
  match goal with
  | |- context [dal.Create ?r (db w1)] =>
      pose proof (dal_Create_wf r (db w1)) as Hc;
      destruct (dal.Create r (db w1)) as [[r' err] s']
  end.
  rewrite Hg in Hc. specialize (Hc Hwf). cbn [snd] in Hc.
  destruct err as [e|]; [|exact Hc].
  cbn [logger_Error].
  destruct (dal.IsDuplicationError (Some e)); exact Hc.
Qed.

Lemma Put_wf (c : ApiKeyHelper) (user : option common_User) (id : N)
    (w : World) :
  dal.wf (db w) = true -> dal.wf (db (snd (Put c user id w))) = true.
Proof.
  intro Hwf. unfold Put, bind.
  pose proof (getApiKeyById_wf c (Some GetDal) id [] w Hwf) as H1.
  destruct (getApiKeyById c (Some GetDal) id [] w) as [[found err] w1].
  cbn [snd] in H1.
  destruct err; [exact H1|].
  pose proof (generateApiKey_db c w1) as Hg.
  destruct (generateApiKey c w1) as [[[apiKeyStr hashed] err] w2].
  cbn [snd] in Hg.
  destruct err; [cbn [snd logger_Error db ret]; rewrite Hg; exact H1|].
  destruct found as [apiKey|]; [|cbn [snd ret]; rewrite Hg; exact H1].
  unfold time_Now, on_db.
  match goal with
  | |- context [dal.Update ?r (db w2)] =>
      pose proof (dal_Update_wf r (db w2)) as Hu;
      destruct (dal.Update r (db w2)) as [err s']
  end.
  rewrite Hg in Hu. specialize (Hu H1). cbn [snd] in Hu.
  destruct err; exact Hu.
Qed.

Lemma Delete_wf (c : ApiKeyHelper) (id : N) (w : World) :
  dal.wf (db w) = true -> dal.wf (db (snd (Delete c id w))) = true.
Proof.
  intro Hwf. unfold Delete, bind.
  pose proof (getApiKeyById_wf c (Some GetDal) id [] w Hwf) as H1.
  destruct (getApiKeyById c (Some GetDal) id [] w) as [[found err] w1].
  cbn [snd] in H1.
  destruct err; [exact H1|].
  unfold on_db.
  match goal with
  | |- context [dal.Delete ?r ?cs (db w1)] =>
      pose proof (dal_Delete_wf r cs (db w1) H1) as Hd;
      destruct (dal.Delete r cs (db w1)) as [err s']
  end.
  cbn [snd] in Hd. destruct err; exact Hd.
Qed.

Lemma DeleteForPlugin_wf (c : ApiKeyHelper) (tx : dal.Dal)
    (pluginName extra : string) (w : World) :
  dal.wf (db w) = true ->
  dal.wf (db (snd (DeleteForPlugin c tx pluginName extra w))) = true.
Proof.
  intro Hwf. unfold DeleteForPlugin, bind, on_db. cbv zeta.
  match goal with
  | |- context [dal.First ?r ?cs (db w)] =>
      pose proof (dal_First_wf r cs (db w) Hwf) as H1;
      destruct (dal.First r cs (db w)) as [[apiKey err] s1]
  end.
  cbn [snd] in H1.
  destruct err as [e|].
  - cbn [logger_Error]. destruct (dal.IsErrorNotFound (errors.Unwrap e));
      exact H1.
  - cbn [db].
    pose proof (dal_Delete_wf apiKey [] s1 H1) as Hd.
    destruct (dal.Delete apiKey [] s1) as [err s2].
    cbn [snd] in Hd. destruct err; exact Hd.
Qed.

(** Every world the helper can bring about has a well-formed table. *)
Lemma reachable_wf (regexp_Compile : string -> option Error) (w : World) :
  reachable regexp_Compile w -> dal.wf (db w) = true.
Proof.
  induction 1 as [w Hrows Hnext | w w' _ IH Hstep].
  - unfold dal.wf, dal.ids. rewrite Hrows, Hnext. reflexivity.
  - destruct Hstep.
    + apply Create_wf, IH.
    + apply Create_wf, IH.
    + apply Put_wf, IH.
    + apply Delete_wf, IH.
    + apply DeleteForPlugin_wf, IH.
    + apply getApiKeyById_wf, IH.
    + apply GetApiKey_wf, IH.
    + unfold dal.wf, dal.ids in *.
      match goal with
      | Hr : dal.rows _ = _, Hn : dal.next_id _ = _ |- _ => rewrite Hr, Hn
      end.
      exact IH.
Qed.

(** ** Construction *)

Lemma NewApiKeyHelper_secret (strings_TrimSpace : string -> string)
    (cfg0 : string -> string) (c : ApiKeyHelper) :
  NewApiKeyHelper strings_TrimSpace cfg0 = Some c ->
  encryptionSecret c = strings_TrimSpace (cfg0 EncodeKeyEnvStr) /\
  encryptionSecret c <> "".
Proof.
  unfold NewApiKeyHelper.
  destruct (String.eqb_spec (strings_TrimSpace (cfg0 EncodeKeyEnvStr)) "")
    as [E|E]; [discriminate|].
  intro H. inversion H; subst. simpl. auto.
Qed.

Lemma NewApiKeyHelper_panics (strings_TrimSpace : string -> string)
    (cfg0 : string -> string) :
  strings_TrimSpace (cfg0 EncodeKeyEnvStr) = "" ->
  NewApiKeyHelper strings_TrimSpace cfg0 = None.
Proof. unfold NewApiKeyHelper. intros ->. reflexivity. Qed.

(** The error of the persistence layer for a fault is a failure of the
    storage collaborator wrapped in the default class, as the helper's
    own persistence errors are. *)
Remark OtherError_is_PersistenceError (msg : string) :
  dal.OtherError msg = PersistenceError (errors.Plain msg) "database error".
Proof. reflexivity. Qed.

(** ** Bytes, hexadecimal and the keyed hash *)











Lemma valid_clauses_cons_id (id : N) (cs : list dal.Clause) :
  dal.valid_clauses (dal.Where "id = ?" (dal.Uint id) :: cs)
  = dal.valid_clauses cs.
Proof.
  unfold dal.valid_clauses. simpl.
  destruct (dal.eval_clauses cs zero_ApiKey); reflexivity.
Qed.

(** The digest is a function of the secret and the token alone: two
    calls by managers with the same secret, in whatever state of the
    world, return the same digest. *)
Lemma DigestToken_deterministic (c1 c2 : ApiKeyHelper) (x : string)
    (w1 w2 : World) :
  encryptionSecret c1 = encryptionSecret c2 ->
  fst (DigestToken c1 x w1) = fst (DigestToken c2 x w2).
Proof. intro H. rewrite !DigestToken_eq. cbn [fst]. now rewrite H. Qed.

(* ================================================================== *)
(** * The claims *)

Section Claims.

Variable regexp_Compile : string -> option Error.

(** C1 (the code departs from the claim).  [CreateForPlugin] passes the
    tag ["plugin:" ++ pluginName] where [Create] expects the allowed
    path, and [allowedPath] where [Create] expects the type.  So, when
    the tag compiles as a pattern (the name being fresh, with enough
    randomness and no storage fault), the record it persists and the
    one it returns have [allowedPath] in the type field and the tag in
    the allowed-path field; the expiry is absent.  The supplied
    [allowedPath] is never compiled. *)
Theorem CreateForPlugin_swaps_type_and_path (c : ApiKeyHelper) (tx : dal.Dal)
    (user : option common_User) (name pluginName allowedPath extra : string)
    (w : World) :
  regexp_Compile ("plugin:" ++ pluginName) = None ->
  dal.name_taken name (db w) = false ->
  (apiKeyLen <= List.length (entropy w))%nat ->
  dal.quiet 1 (db w) = true ->
  CreateForPlugin regexp_Compile c tx user name pluginName allowedPath extra w
  = Create regexp_Compile c tx user name None ("plugin:" ++ pluginName)
           allowedPath extra w /\
  exists issued stored w1,
    CreateForPlugin regexp_Compile c tx user name pluginName allowedPath
                    extra w = ((Some issued, None), w1) /\
    dal.rows (db w1) = dal.rows (db w) ++ [stored] /\
    Type_ stored = allowedPath /\
    AllowedPath stored = ("plugin:" ++ pluginName)%string /\
    ExpiredAt stored = None /\
    Type_ issued = allowedPath /\
    AllowedPath issued = ("plugin:" ++ pluginName)%string /\
    ExpiredAt issued = None.
Proof.
  intros Hre Hname Hent Hq.
  split; [reflexivity|].
  destruct (quiet_succ 0 _ (dal.CallFirst []) Hq) as [Hf _].
  unfold CreateForPlugin.
  rewrite (Create_ok regexp_Compile c tx user name None
             ("plugin:" ++ pluginName) allowedPath extra w Hre Hent Hf Hname).
  cbv zeta. eexists. eexists. eexists.
  split; [reflexivity|]. split; [reflexivity|].
  destruct user; repeat split; reflexivity.
Qed.

(** C2. For every valid input (compilable [allowedPath], fresh name), on
    a well-formed store, with enough randomness and no storage fault,
    [Create] succeeds, and the lookup of the new record's identifier
    right after it returns a stored record whose digest field is
    [DigestToken] of the plaintext that [Create] returned in the digest
    field of its result; that plaintext is not the stored digest. *)
Theorem Create_then_Lookup (c : ApiKeyHelper) (tx : dal.Dal)
    (user : option common_User) (name : string) (expiredAt : option Time)
    (allowedPath apiKeyType extra : string) (w : World) :
  regexp_Compile allowedPath = None ->
  dal.name_taken name (db w) = false ->
  (apiKeyLen <= List.length (entropy w))%nat ->
  dal.wf (db w) = true ->
  dal.quiet 2 (db w) = true ->
  exists issued stored w1 w2,
    Create regexp_Compile c tx user name expiredAt allowedPath apiKeyType
           extra w = ((Some issued, None), w1) /\
    getApiKeyById c (Some tx) (ID issued) [] w1 = ((Some stored, None), w2) /\
    fst (DigestToken c (ApiKey issued) w2) = (ApiKey stored, None) /\
    ApiKey issued <> ApiKey stored /\
    stored = set_ApiKey issued (ApiKey stored).
Proof.
  intros Hre Hname Hent Hwf Hq.
  destruct (quiet_two _ Hq) as [Hf Hf'].
  rewrite (Create_ok regexp_Compile c tx user name expiredAt allowedPath
             apiKeyType extra w Hre Hent Hf Hname).
  cbv zeta.
  set (apiKey := utils.letters apiKeyLen (entropy w)).
  set (sent := new_record user name expiredAt allowedPath apiKeyType extra
                 (clock w) (hmac_sha256_hex (encryptionSecret c) apiKey)).
  set (stored := set_ID sent (dal.next_id (db w))).
  eexists. exists stored. eexists. eexists.
  split; [reflexivity|].
  rewrite getApiKeyById_eq. cbn [db dal.faults dal.rows ID set_ApiKey].
  rewrite Hf'.
  change (dal.valid_clauses [dal.Where "id = ?" (dal.Uint (ID stored))])
    with true.
  cbv iota.
  rewrite find_app_last.
  - split; [reflexivity|].
    rewrite DigestToken_eq. cbn [fst ApiKey set_ApiKey set_ID].
    assert (ApiKey stored = hmac_sha256_hex (encryptionSecret c) apiKey)
      as Hstored
      by (unfold stored, sent; cbn [ApiKey set_ID];
          apply new_record_ApiKey).
    rewrite Hstored.
    split; [reflexivity|]. split.
    + intro E. apply (f_equal String.length) in E.
      rewrite hmac_sha256_hex_length in E.
      unfold apiKey in E. rewrite (letters_length _ _ Hent) in E.
      discriminate.
    + rewrite <- Hstored. reflexivity.
  - exact (older_rows_do_not_match _ Hwf).
  - rewrite matches_id. apply N.eqb_refl.
Qed.


(** C4. For every [allowedPath] that does not compile as a regular
    expression, [Create] fails with the invalid-pattern error (the
    compile error wrapped with the pattern) and writes nothing: the
    persistence layer receives no call, the store is the same, and no
    secret is drawn. *)
Theorem Create_rejects_invalid_pattern (c : ApiKeyHelper) (tx : dal.Dal)
    (user : option common_User) (name : string) (expiredAt : option Time)
    (allowedPath apiKeyType extra : string) (w : World) (e : Error) :
  regexp_Compile allowedPath = Some e ->
  fst (Create regexp_Compile c tx user name expiredAt allowedPath
              apiKeyType extra w)
  = (None, Some (InvalidPatternError e allowedPath)) /\
  db (snd (Create regexp_Compile c tx user name expiredAt allowedPath
                  apiKeyType extra w)) = db w /\
  entropy (snd (Create regexp_Compile c tx user name expiredAt allowedPath
                       apiKeyType extra w)) = entropy w.
Proof.
  intro H. unfold Create. rewrite H. simpl. auto.
Qed.

(** C5. For every name, creating two credentials with that same name
    (each with a compilable [allowedPath], enough randomness and no
    storage fault, the name being fresh before the first call) yields
    success for the first call and, for the second, the duplicate-name
    error carrying the name; the second call adds no row. *)
Theorem Create_twice_same_name (c : ApiKeyHelper) (tx tx' : dal.Dal)
    (user user' : option common_User) (name : string)
    (expiredAt expiredAt' : option Time)
    (allowedPath apiKeyType extra allowedPath' apiKeyType' extra' : string)
    (w : World) :
  regexp_Compile allowedPath = None ->
  regexp_Compile allowedPath' = None ->
  dal.name_taken name (db w) = false ->
  (2 * apiKeyLen <= List.length (entropy w))%nat ->
  dal.quiet 2 (db w) = true ->
  exists issued w1,
    Create regexp_Compile c tx user name expiredAt allowedPath apiKeyType
           extra w = ((Some issued, None), w1) /\
    Name issued = name /\
    fst (Create regexp_Compile c tx' user' name expiredAt' allowedPath'
                apiKeyType' extra' w1)
    = (None, Some (DuplicateNameError name)) /\
    dal.rows (db (snd (Create regexp_Compile c tx' user' name expiredAt'
                              allowedPath' apiKeyType' extra' w1)))
    = dal.rows (db w1).
Proof.
  intros Hre Hre' Hname Hent Hq.
  destruct (quiet_two _ Hq) as [Hf Hf'].
  assert (apiKeyLen <= List.length (entropy w))%nat as Hent1 by lia.
  rewrite (Create_ok regexp_Compile c tx user name expiredAt allowedPath
             apiKeyType extra w Hre Hent1 Hf Hname).
  cbv zeta. eexists. eexists. split; [reflexivity|].
  split; [cbn [Name set_ApiKey set_ID]; apply new_record_Name|].
  apply Create_dup.
  - exact Hre'.
  - cbn [entropy]. rewrite List.length_skipn. lia.
  - cbn [db dal.faults]. exact Hf'.
  - unfold dal.name_taken. cbn [db dal.rows].
    apply name_taken_last. cbn [Name set_ID]. apply new_record_Name.
Qed.

(** C6 (amended).  For every identifier [id], on a well-formed store,
    with enough randomness and no storage fault: [Put] (rotate) fails
    with the not-found error, the table unchanged, when no record with
    [id] exists; when one exists, it replaces that record, in place, by
    the record with the digest of a freshly drawn plaintext, the update
    time set to the clock and the updater set to the actor when one is
    present, every other row staying as it is; and it returns that
    record with the plaintext in the digest field, so that
    [DigestToken] of the returned plaintext is the newly stored digest.
    The new digest is not promised to differ from the old one. *)
Theorem Put_rotates (c : ApiKeyHelper) (user : option common_User) (id : N)
    (w : World) :
  dal.wf (db w) = true ->
  dal.quiet 2 (db w) = true ->
  (apiKeyLen <= List.length (entropy w))%nat ->
  match List.find (fun r => N.eqb (ID r) id) (dal.rows (db w)) with
  | None =>
      fst (Put c user id w) = (None, Some (NotFoundError dal.NotFoundError id))
      /\ dal.rows (db (snd (Put c user id w))) = dal.rows (db w)
  | Some old =>
      exists l1 l2 plaintext stored w',
        dal.rows (db w) = l1 ++ old :: l2 /\
        Put c user id w = ((Some (set_ApiKey stored plaintext), None), w') /\
        dal.rows (db w') = l1 ++ stored :: l2 /\
        plaintext = utils.letters apiKeyLen (entropy w) /\
        stored = rotated_record user old (clock w) (ApiKey stored) /\
        fst (DigestToken c plaintext w') = (ApiKey stored, None) /\
        plaintext <> ApiKey stored
  end.
Proof.
  intros Hwf Hq Hent.
  destruct (List.find (fun r => N.eqb (ID r) id) (dal.rows (db w)))
    as [old|] eqn:Efind.
  - rewrite (Put_found c user id w old Efind Hq Hent). cbv zeta.
    set (plaintext := utils.letters apiKeyLen (entropy w)).
    set (h := hmac_sha256_hex (encryptionSecret c) plaintext).
    set (stored := rotated_record user old (clock w) h).
    destruct (find_split _ _ _ Efind) as [l1 [l2 [Hrows [_ _]]]].
    assert (ApiKey stored = h) as Hkey by apply rotated_record_ApiKey.
    exists l1, l2, plaintext, stored. eexists.
    split; [exact Hrows|]. split; [reflexivity|].
    cbn [db dal.rows]. split.
    { rewrite Hrows. apply map_replace_by_id.
      - apply wf_iff in Hwf. destruct Hwf as [_ [_ Hnd]].
        unfold dal.ids in Hnd. rewrite Hrows in Hnd. exact Hnd.
      - apply rotated_record_ID. }
    split; [reflexivity|]. rewrite Hkey.
    split; [reflexivity|]. rewrite DigestToken_eq.
    split; [reflexivity|].
    intro E. apply (f_equal String.length) in E.
    unfold h in E. rewrite hmac_sha256_hex_length in E.
    unfold plaintext in E. rewrite (letters_length _ _ Hent) in E.
    discriminate.
  - destruct (quiet_two _ Hq) as [Hf _].
    unfold Put, bind. rewrite getApiKeyById_eq. rewrite Hf.
    change (dal.valid_clauses [dal.Where "id = ?" (dal.Uint id)]) with true.
    cbv iota.
    rewrite (find_ext_eq _ (fun r => N.eqb (ID r) id) _ (matches_id id)).
    rewrite Efind. simpl. split; reflexivity.
Qed.

(** C7. For every identifier and every filter set, the read-only
    lookups leave the table as it is and return either a stored record,
    as it is stored (its digest field is the stored digest, never a
    plaintext), or the not-found error when no stored record matches,
    or the error of a storage fault.  Which of the three is settled by
    the store: each lookup issues one query; when the persistence layer
    answers it, [getApiKeyById] (lookup by identifier) returns the
    first stored record that has the identifier and passes the filters
    when there is one, and the not-found error otherwise, and
    [GetApiKey] (lookup by filters) returns the first stored record
    that passes the filters when there is one, and the not-found error
    otherwise; an error other than not-found is returned only when the
    layer reports a fault or rejects the filters.  [getApiKeyById]
    wraps the error of the persistence layer; [GetApiKey] hands the
    layer's error on, next to an empty record. *)
Theorem lookups_return_stored_record_or_error (c : ApiKeyHelper)
    (tx : option dal.Dal) (id : N) (cs : list dal.Clause) (w : World) :
  ((dal.rows (db (snd (getApiKeyById c tx id cs w))) = dal.rows (db w) /\
   match fst (getApiKeyById c tx id cs w) with
   | (Some r, None) =>
       In r (dal.rows (db w)) /\ ID r = id /\ dal.matches cs r = true
   | (None, Some e) =>
       (e = NotFoundError dal.NotFoundError id /\
        forall r, In r (dal.rows (db w)) -> ID r = id ->
                  dal.matches cs r = false)
       \/
       (exists msg,
          e = PersistenceError (dal.OtherError msg)
                               "error getting api key from DB")
   | _ => False
   end) /\
  (dal.rows (db (snd (GetApiKey c tx cs w))) = dal.rows (db w) /\
   match fst (GetApiKey c tx cs w) with
   | (Some r, None) => In r (dal.rows (db w)) /\ dal.matches cs r = true
   | (Some r, Some e) =>
       r = zero_ApiKey /\
       ((e = dal.NotFoundError /\
         forall r', In r' (dal.rows (db w)) -> dal.matches cs r' = false)
        \/ (exists msg, e = dal.OtherError msg))
   | _ => False
   end)) /\
  (dal.calls (db (snd (getApiKeyById c tx id cs w)))
   = dal.calls (db w)
     ++ [dal.CallFirst (dal.Where "id = ?" (dal.Uint id) :: cs)] /\
   dal.calls (db (snd (GetApiKey c tx cs w)))
   = dal.calls (db w) ++ [dal.CallFirst cs]) /\
  match List.hd None (dal.faults (db w)) with
  | Some msg =>
      fst (getApiKeyById c tx id cs w)
      = (None, Some (PersistenceError (dal.OtherError msg)
                                      "error getting api key from DB")) /\
      fst (GetApiKey c tx cs w)
      = (Some zero_ApiKey, Some (dal.OtherError msg))
  | None =>
      if dal.valid_clauses cs then
        match List.find (fun r => N.eqb (ID r) id && dal.matches cs r)
                        (dal.rows (db w)) with
        | Some r => fst (getApiKeyById c tx id cs w) = (Some r, None)
        | None =>
            fst (getApiKeyById c tx id cs w)
            = (None, Some (NotFoundError dal.NotFoundError id))
        end /\
        match List.find (dal.matches cs) (dal.rows (db w)) with
        | Some r => fst (GetApiKey c tx cs w) = (Some r, None)
        | None =>
            fst (GetApiKey c tx cs w)
            = (Some zero_ApiKey, Some dal.NotFoundError)
        end
      else
        fst (getApiKeyById c tx id cs w)
        = (None, Some (PersistenceError (dal.OtherError "invalid query")
                                        "error getting api key from DB")) /\
        fst (GetApiKey c tx cs w)
        = (Some zero_ApiKey, Some (dal.OtherError "invalid query"))
  end.
Proof.
  split; [|split].
  {
    split.
    - rewrite getApiKeyById_eq. cbn [fst snd db].
      split; [apply enter_rows|].
      destruct (List.hd None (dal.faults (db w))) as [msg|].
      { right. exists msg. reflexivity. }
      destruct (dal.valid_clauses _).
      2:{ right. exists "invalid query". reflexivity. }
      destruct (List.find _ _) as [x|] eqn:Efind.
      + apply List.find_some in Efind. destruct Efind as [Hin Hm].
        rewrite matches_cons_id in Hm. apply andb_true_iff in Hm.
        destruct Hm as [Hid Hm]. apply N.eqb_eq in Hid. auto.
      + left. split; [reflexivity|]. intros r Hin Hid.
        pose proof (List.find_none _ _ Efind r Hin) as Hm.
        rewrite matches_cons_id in Hm. subst id.
        rewrite N.eqb_refl in Hm. exact Hm.
    - rewrite GetApiKey_eq. cbn [fst snd db].
      split; [apply enter_rows|].
      destruct (List.hd None (dal.faults (db w))) as [msg|].
      { split; [reflexivity|]. right. exists msg. reflexivity. }
      destruct (dal.valid_clauses cs).
      2:{ split; [reflexivity|]. right. exists "invalid query". reflexivity. }
      destruct (List.find _ _) as [x|] eqn:Efind.
      + apply List.find_some in Efind. exact Efind.
      + split; [reflexivity|]. left. split; [reflexivity|].
        intros r' Hin. exact (List.find_none _ _ Efind r' Hin).
  }
  - rewrite getApiKeyById_eq, GetApiKey_eq. cbn [snd db].
    split; apply enter_rows.
  - rewrite getApiKeyById_eq, GetApiKey_eq. cbn [fst].
    rewrite valid_clauses_cons_id.
    rewrite (find_ext_eq _ (fun r => N.eqb (ID r) id && dal.matches cs r) _
               (matches_cons_id id cs)).
    destruct (List.hd None (dal.faults (db w))); [split; reflexivity|].
    destruct (dal.valid_clauses cs); [|split; reflexivity].
    split.
    + destruct (List.find (fun r => N.eqb (ID r) id && dal.matches cs r)
                          (dal.rows (db w))); reflexivity.
    + destruct (List.find (dal.matches cs) (dal.rows (db w))); reflexivity.
Qed.

(** C8. For every identifier [id] such that no record with [id] exists,
    [Delete(id)] fails with the not-found error and leaves the table as
    it was: the only call the persistence layer receives is the lookup,
    no delete is issued.  (The lookup itself is assumed not to hit a
    storage fault.) *)
Theorem Delete_missing_id (c : ApiKeyHelper) (id : N) (w : World) :
  dal.has_id id (db w) = false ->
  dal.quiet 1 (db w) = true ->
  fst (Delete c id w) = Some (NotFoundError dal.NotFoundError id) /\
  dal.rows (db (snd (Delete c id w))) = dal.rows (db w) /\
  dal.next_id (db (snd (Delete c id w))) = dal.next_id (db w) /\
  dal.calls (db (snd (Delete c id w)))
  = dal.calls (db w) ++ [dal.CallFirst [dal.Where "id = ?" (dal.Uint id)]].
Proof.
  intros Habsent Hq.
  unfold Delete, bind. rewrite getApiKeyById_eq.
  destruct (quiet_succ 0 (db w)
              (dal.CallFirst [dal.Where "id = ?" (dal.Uint id)]) Hq)
    as [Hf _].
  rewrite Hf.
  change (dal.valid_clauses [dal.Where "id = ?" (dal.Uint id)]) with true.
  cbv iota. rewrite (find_absent_id id [] (db w) Habsent).
  simpl. repeat split; reflexivity.
Qed.

(** C9. For every non-empty combination of type and extra filters, on a
    well-formed store whose calls do not fail, [DeleteForPlugin] returns
    success; the table is unchanged when no record matches; when one or
    more records match, exactly the first match is removed and every
    other record, matching or not, stays in place. *)
Theorem DeleteForPlugin_revokes_first_match (c : ApiKeyHelper) (tx : dal.Dal)
    (pluginName extra : string) (w : World) :
  pluginName <> "" \/ extra <> "" ->
  dal.wf (db w) = true ->
  dal.quiet 2 (db w) = true ->
  fst (DeleteForPlugin c tx pluginName extra w) = None /\
  match List.find (plugin_match pluginName extra) (dal.rows (db w)) with
  | None =>
      dal.rows (db (snd (DeleteForPlugin c tx pluginName extra w)))
      = dal.rows (db w)
  | Some x =>
      exists l1 l2,
        dal.rows (db w) = l1 ++ x :: l2 /\
        List.forallb (fun y => negb (plugin_match pluginName extra y)) l1
        = true /\
        plugin_match pluginName extra x = true /\
        dal.rows (db (snd (DeleteForPlugin c tx pluginName extra w)))
        = l1 ++ l2
  end.
Proof.
  intros _ Hwf Hq.
  destruct (DeleteForPlugin_eq c tx pluginName extra w Hwf Hq) as [Hres H].
  split; [exact Hres|].
  destruct (List.find (plugin_match pluginName extra) (dal.rows (db w)))
    as [x|] eqn:Efind.
  - destruct H as [[l1 [l2 [Hrows [Hl1 Hrows']]]] _].
    exists l1, l2. repeat split; try assumption.
    apply List.find_some in Efind. apply Efind.
  - apply H.
Qed.

(** C10. When both the [pluginName] and the [extra] argument of
    [DeleteForPlugin] are empty strings, the lookup is issued with no
    filter clause at all, and on a non-empty (well-formed) store the
    call deletes the first record of the whole table. *)
Theorem DeleteForPlugin_without_filters (c : ApiKeyHelper) (tx : dal.Dal)
    (w : World) (r : models_ApiKey) (rest : list models_ApiKey) :
  dal.rows (db w) = r :: rest ->
  dal.wf (db w) = true ->
  dal.quiet 2 (db w) = true ->
  fst (DeleteForPlugin c tx "" "" w) = None /\
  dal.rows (db (snd (DeleteForPlugin c tx "" "" w))) = rest /\
  dal.calls (db (snd (DeleteForPlugin c tx "" "" w)))
  = dal.calls (db w) ++ [dal.CallFirst []; dal.CallDelete r []].
Proof.
  intros Hrows Hwf Hq.
  destruct (DeleteForPlugin_eq c tx "" "" w Hwf Hq) as [Hres H].
  split; [exact Hres|].
  rewrite Hrows in H. simpl in H.
  destruct H as [[l1 [l2 [Hsplit [Hl1 Hrows']]]] Hcalls].
  split; [|exact Hcalls].
  rewrite Hrows'.
  destruct l1 as [|y l1]; simpl in *.
  - now inversion Hsplit.
  - discriminate.
Qed.

End Claims.

(* ================================================================== *)
(** * The claims on examples *)

Lemma CreateForPlugin_swaps_type_and_path_witness :
  sample.Compile ("plugin:" ++ "webhook") = None /\
  dal.name_taken "hook" (db examples.fresh) = false /\
  (apiKeyLen <= List.length (entropy examples.fresh))%nat /\
  dal.quiet 1 (db examples.fresh) = true /\
  (CreateForPlugin sample.Compile examples.helper dal.Conn None
                   "hook" "webhook" "/plugins/webhook/7/.*" "7"
                   examples.fresh
   = Create sample.Compile examples.helper dal.Conn None "hook" None
            ("plugin:" ++ "webhook") "/plugins/webhook/7/.*" "7"
            examples.fresh /\
   exists issued stored w1,
     CreateForPlugin sample.Compile examples.helper dal.Conn None
                     "hook" "webhook" "/plugins/webhook/7/.*" "7"
                     examples.fresh = ((Some issued, None), w1) /\
     dal.rows (db w1) = dal.rows (db examples.fresh) ++ [stored] /\
     Type_ stored = "/plugins/webhook/7/.*" /\
     AllowedPath stored = ("plugin:" ++ "webhook")%string /\
     ExpiredAt stored = None /\
     Type_ issued = "/plugins/webhook/7/.*" /\
     AllowedPath issued = ("plugin:" ++ "webhook")%string /\
     ExpiredAt issued = None).
Proof.
  assert (sample.Compile ("plugin:" ++ "webhook") = None) as h1
    by reflexivity.
  assert (dal.name_taken "hook" (db examples.fresh) = false) as h2
    by reflexivity.
  assert (apiKeyLen <= List.length (entropy examples.fresh))%nat as h3
    by (apply Nat.leb_le; vm_compute; reflexivity).
  assert (dal.quiet 1 (db examples.fresh) = true) as h4 by reflexivity.
  exact (conj h1 (conj h2 (conj h3 (conj h4
           (CreateForPlugin_swaps_type_and_path sample.Compile
              examples.helper dal.Conn None "hook" "webhook"
              "/plugins/webhook/7/.*" "7" examples.fresh h1 h2 h3 h4))))).
Defined.

(** C1, seen from the revocation: the key issued for the plugin
    [webhook] is stored with the allowed path in its type field, so the
    plugin-scoped revocation for [webhook] does not find it. *)
Example CreateForPlugin_key_escapes_DeleteForPlugin :
  List.map Type_ (dal.rows (db examples.plugin_key))
  = ["/plugins/webhook/7/.*"] /\
  List.map AllowedPath (dal.rows (db examples.plugin_key))
  = ["plugin:webhook"] /\
  fst (DeleteForPlugin examples.helper dal.Conn "webhook" "7"
                       examples.plugin_key) = None /\
  dal.rows (db (snd (DeleteForPlugin examples.helper dal.Conn "webhook" "7"
                                     examples.plugin_key)))
  = dal.rows (db examples.plugin_key).
Proof. vm_compute. repeat split; reflexivity. Qed.

(** C1: a pattern that does not compile is accepted as the allowed path
    of a plugin key, because it is the tag that gets compiled. *)
Example CreateForPlugin_accepts_invalid_pattern :
  sample.Compile "(" <> None /\
  List.map Type_
    (dal.rows
       (db (snd (CreateForPlugin sample.Compile examples.helper dal.Conn
                                 None "hook" "webhook" "(" "7"
                                 examples.fresh))))
  = ["("].
Proof. split; [discriminate|]. vm_compute. reflexivity. Qed.

Lemma Create_then_Lookup_witness :
  sample.Compile "/api/.*" = None /\
  dal.name_taken "deploy" (db examples.one_key) = false /\
  (apiKeyLen <= List.length (entropy examples.one_key))%nat /\
  dal.wf (db examples.one_key) = true /\
  dal.quiet 2 (db examples.one_key) = true /\
  exists issued stored w1 w2,
    Create sample.Compile examples.helper dal.Conn (Some examples.alice)
           "deploy" (Some 2000) "/api/.*" "user" "" examples.one_key
    = ((Some issued, None), w1) /\
    getApiKeyById examples.helper (Some dal.Conn) (ID issued) [] w1
    = ((Some stored, None), w2) /\
    fst (DigestToken examples.helper (ApiKey issued) w2)
    = (ApiKey stored, None) /\
    ApiKey issued <> ApiKey stored /\
    stored = set_ApiKey issued (ApiKey stored).
Proof.
  assert (sample.Compile "/api/.*" = None) as h1 by reflexivity.
  assert (dal.name_taken "deploy" (db examples.one_key) = false) as h2
    by (vm_compute; reflexivity).
  assert (apiKeyLen <= List.length (entropy examples.one_key))%nat as h3
    by (apply Nat.leb_le; vm_compute; reflexivity).
  assert (dal.wf (db examples.one_key) = true) as h4
    by (vm_compute; reflexivity).
  assert (dal.quiet 2 (db examples.one_key) = true) as h5
    by (vm_compute; reflexivity).
  exact (conj h1 (conj h2 (conj h3 (conj h4 (conj h5
           (Create_then_Lookup sample.Compile examples.helper dal.Conn
              (Some examples.alice) "deploy" (Some 2000) "/api/.*" "user" ""
              examples.one_key h1 h2 h3 h4 h5)))))).
Defined.



(** The lookups, run on the table with one key: the identifier of the
    key finds it, with its stored digest; another identifier finds
    nothing. *)
Example lookup_finds_the_stored_key :
  fst (getApiKeyById examples.helper None 1 [] examples.one_key)
  = (List.nth_error (dal.rows (db examples.one_key)) 0, None) /\
  fst (GetApiKey examples.helper None [dal.Where "id = ?" (dal.Uint 1)]
                 examples.one_key)
  = (List.nth_error (dal.rows (db examples.one_key)) 0, None) /\
  fst (getApiKeyById examples.helper None 9 [] examples.one_key)
  = (None, Some (NotFoundError dal.NotFoundError 9)).
Proof. vm_compute. repeat split; reflexivity. Qed.

(** The digest does depend on the secret: an instance. *)
Example DigestToken_differs_for_a_and_b :
  fst (DigestToken (helper_with "a") "token" examples.idle)
  <> fst (DigestToken (helper_with "b") "token" examples.idle).
Proof. vm_compute. discriminate. Qed.

Lemma Create_rejects_invalid_pattern_witness :
  sample.Compile "/api/(v1"
  = Some (errors.Plain
            "error parsing regexp: unbalanced parentheses: /api/(v1") /\
  fst (Create sample.Compile examples.helper dal.Conn (Some examples.alice)
              "deploy" None "/api/(v1" "user" "" examples.one_key)
  = (None,
     Some (InvalidPatternError
             (errors.Plain
                "error parsing regexp: unbalanced parentheses: /api/(v1")
             "/api/(v1")) /\
  db (snd (Create sample.Compile examples.helper dal.Conn
                  (Some examples.alice) "deploy" None "/api/(v1" "user" ""
                  examples.one_key))
  = db examples.one_key /\
  entropy (snd (Create sample.Compile examples.helper dal.Conn
                       (Some examples.alice) "deploy" None "/api/(v1" "user"
                       "" examples.one_key))
  = entropy examples.one_key.
Proof.
  assert (sample.Compile "/api/(v1"
          = Some (errors.Plain
                    "error parsing regexp: unbalanced parentheses: /api/(v1"))
    as h1 by reflexivity.
  exact (conj h1
           (Create_rejects_invalid_pattern sample.Compile examples.helper
              dal.Conn (Some examples.alice) "deploy" None "/api/(v1" "user"
              "" examples.one_key _ h1)).
Defined.

Lemma Create_twice_same_name_witness :
  sample.Compile "/api/.*" = None /\
  sample.Compile ".*" = None /\
  dal.name_taken "ci" (db examples.fresh) = false /\
  (2 * apiKeyLen <= List.length (entropy examples.fresh))%nat /\
  dal.quiet 2 (db examples.fresh) = true /\
  exists issued w1,
    Create sample.Compile examples.helper dal.Conn (Some examples.alice)
           "ci" None "/api/.*" "user" "" examples.fresh
    = ((Some issued, None), w1) /\
    Name issued = "ci" /\
    fst (Create sample.Compile examples.helper dal.Conn None
                "ci" (Some 5000) ".*" "plugin:webhook" "7" w1)
    = (None, Some (DuplicateNameError "ci")) /\
    dal.rows (db (snd (Create sample.Compile examples.helper dal.Conn None
                              "ci" (Some 5000) ".*" "plugin:webhook" "7"
                              w1)))
    = dal.rows (db w1).
Proof.
  assert (sample.Compile "/api/.*" = None) as h1 by reflexivity.
  assert (sample.Compile ".*" = None) as h2 by reflexivity.
  assert (dal.name_taken "ci" (db examples.fresh) = false) as h3
    by reflexivity.
  assert (2 * apiKeyLen <= List.length (entropy examples.fresh))%nat as h4
    by (apply Nat.leb_le; vm_compute; reflexivity).
  assert (dal.quiet 2 (db examples.fresh) = true) as h5 by reflexivity.
  exact (conj h1 (conj h2 (conj h3 (conj h4 (conj h5
           (Create_twice_same_name sample.Compile examples.helper
              dal.Conn dal.Conn (Some examples.alice) None "ci" None
              (Some 5000) "/api/.*" "user" "" ".*" "plugin:webhook" "7"
              examples.fresh h1 h2 h3 h4 h5)))))).
Defined.

(** C6 as stated fails: when the random source delivers the same values
    again, the rotation of the stored key succeeds and stores the digest
    that was there. *)
Lemma Put_may_keep_the_digest :
  List.map ID (dal.rows (db examples.repeating_one_key)) = [1%N] /\
  snd (fst (Put examples.helper None 1 examples.repeating_one_key)) = None /\
  List.map ApiKey
    (dal.rows (db (snd (Put examples.helper None 1
                            examples.repeating_one_key))))
  = List.map ApiKey (dal.rows (db examples.repeating_one_key)).
Proof. vm_compute. repeat split; reflexivity. Qed.

Lemma Put_rotates_witness :
  dal.wf (db examples.one_key) = true /\
  dal.quiet 2 (db examples.one_key) = true /\
  (apiKeyLen <= List.length (entropy examples.one_key))%nat /\
  match List.find (fun r => N.eqb (ID r) 1) (dal.rows (db examples.one_key))
  with
  | None =>
      fst (Put examples.helper None 1 examples.one_key)
      = (None, Some (NotFoundError dal.NotFoundError 1))
      /\ dal.rows (db (snd (Put examples.helper None 1 examples.one_key)))
         = dal.rows (db examples.one_key)
  | Some old =>
      exists l1 l2 plaintext stored w',
        dal.rows (db examples.one_key) = l1 ++ old :: l2 /\
        Put examples.helper None 1 examples.one_key
        = ((Some (set_ApiKey stored plaintext), None), w') /\
        dal.rows (db w') = l1 ++ stored :: l2 /\
        plaintext = utils.letters apiKeyLen (entropy examples.one_key) /\
        stored = rotated_record None old (clock examples.one_key)
                                (ApiKey stored) /\
        fst (DigestToken examples.helper plaintext w')
        = (ApiKey stored, None) /\
        plaintext <> ApiKey stored
  end /\
  match List.find (fun r => N.eqb (ID r) 9) (dal.rows (db examples.one_key))
  with
  | None =>
      fst (Put examples.helper (Some examples.alice) 9 examples.one_key)
      = (None, Some (NotFoundError dal.NotFoundError 9))
      /\ dal.rows (db (snd (Put examples.helper (Some examples.alice) 9
                                examples.one_key)))
         = dal.rows (db examples.one_key)
  | Some old =>
      exists l1 l2 plaintext stored w',
        dal.rows (db examples.one_key) = l1 ++ old :: l2 /\
        Put examples.helper (Some examples.alice) 9 examples.one_key
        = ((Some (set_ApiKey stored plaintext), None), w') /\
        dal.rows (db w') = l1 ++ stored :: l2 /\
        plaintext = utils.letters apiKeyLen (entropy examples.one_key) /\
        stored = rotated_record (Some examples.alice) old
                                (clock examples.one_key) (ApiKey stored) /\
        fst (DigestToken examples.helper plaintext w')
        = (ApiKey stored, None) /\
        plaintext <> ApiKey stored
  end.
Proof.
  assert (dal.wf (db examples.one_key) = true) as h1
    by (vm_compute; reflexivity).
  assert (dal.quiet 2 (db examples.one_key) = true) as h2
    by (vm_compute; reflexivity).
  assert (apiKeyLen <= List.length (entropy examples.one_key))%nat as h3
    by (apply Nat.leb_le; vm_compute; reflexivity).
  exact (conj h1 (conj h2 (conj h3 (conj
           (Put_rotates examples.helper None 1 examples.one_key h1 h2 h3)
           (Put_rotates examples.helper (Some examples.alice) 9
              examples.one_key h1 h2 h3))))).
Defined.

(** The rotation of the one stored key, run: the identifier is found
    and the stored digest changes. *)
Example rotation_changes_the_stored_digest :
  List.map ID (dal.rows (db examples.one_key)) = [1%N] /\
  snd (fst (Put examples.helper None 1 examples.one_key)) = None /\
  List.map ApiKey
    (dal.rows (db (snd (Put examples.helper None 1 examples.one_key))))
  <> List.map ApiKey (dal.rows (db examples.one_key)).
Proof.
  vm_compute. split; [reflexivity|]. split; [reflexivity|]. discriminate.
Qed.

Lemma Delete_missing_id_witness :
  dal.has_id 9 (db examples.three_keys) = false /\
  dal.quiet 1 (db examples.three_keys) = true /\
  fst (Delete examples.helper 9 examples.three_keys)
  = Some (NotFoundError dal.NotFoundError 9) /\
  dal.rows (db (snd (Delete examples.helper 9 examples.three_keys)))
  = dal.rows (db examples.three_keys) /\
  dal.next_id (db (snd (Delete examples.helper 9 examples.three_keys)))
  = dal.next_id (db examples.three_keys) /\
  dal.calls (db (snd (Delete examples.helper 9 examples.three_keys)))
  = dal.calls (db examples.three_keys)
    ++ [dal.CallFirst [dal.Where "id = ?" (dal.Uint 9)]].
Proof.
  assert (dal.has_id 9 (db examples.three_keys) = false) as h1
    by (vm_compute; reflexivity).
  assert (dal.quiet 1 (db examples.three_keys) = true) as h2
    by (vm_compute; reflexivity).
  exact (conj h1 (conj h2
           (Delete_missing_id examples.helper 9 examples.three_keys h1 h2))).
Defined.

Lemma DeleteForPlugin_revokes_first_match_witness :
  ("webhook" <> "" \/ "7" <> "") /\
  dal.wf (db examples.three_keys) = true /\
  dal.quiet 2 (db examples.three_keys) = true /\
  fst (DeleteForPlugin examples.helper dal.Conn "webhook" "7"
                       examples.three_keys) = None /\
  match List.find (plugin_match "webhook" "7")
                  (dal.rows (db examples.three_keys)) with
  | None =>
      dal.rows (db (snd (DeleteForPlugin examples.helper dal.Conn
                                         "webhook" "7" examples.three_keys)))
      = dal.rows (db examples.three_keys)
  | Some x =>
      exists l1 l2,
        dal.rows (db examples.three_keys) = l1 ++ x :: l2 /\
        List.forallb (fun y => negb (plugin_match "webhook" "7" y)) l1
        = true /\
        plugin_match "webhook" "7" x = true /\
        dal.rows (db (snd (DeleteForPlugin examples.helper dal.Conn
                                           "webhook" "7"
                                           examples.three_keys)))
        = l1 ++ l2
  end.
Proof.
  assert ("webhook" <> "" \/ "7" <> "") as h1 by (left; discriminate).
  assert (dal.wf (db examples.three_keys) = true) as h2
    by (vm_compute; reflexivity).
  assert (dal.quiet 2 (db examples.three_keys) = true) as h3
    by (vm_compute; reflexivity).
  exact (conj h1 (conj h2 (conj h3
           (DeleteForPlugin_revokes_first_match examples.helper dal.Conn
              "webhook" "7" examples.three_keys h1 h2 h3)))).
Defined.

(** The plugin-scoped revocation, run on the table with two matching
    keys: the first of them goes, the second stays. *)
Example DeleteForPlugin_revokes_one_of_two :
  List.map Name (dal.rows (db examples.three_keys))
  = ["ci"; "hook-a"; "hook-b"] /\
  List.map Name
    (dal.rows (db (snd (DeleteForPlugin examples.helper dal.Conn
                                        "webhook" "7" examples.three_keys))))
  = ["ci"; "hook-b"].
Proof. vm_compute. split; reflexivity. Qed.

Lemma DeleteForPlugin_without_filters_witness :
  dal.rows (db examples.three_keys)
  = List.hd zero_ApiKey (dal.rows (db examples.three_keys))
    :: List.tl (dal.rows (db examples.three_keys)) /\
  dal.wf (db examples.three_keys) = true /\
  dal.quiet 2 (db examples.three_keys) = true /\
  fst (DeleteForPlugin examples.helper dal.Conn "" "" examples.three_keys)
  = None /\
  dal.rows (db (snd (DeleteForPlugin examples.helper dal.Conn "" ""
                                     examples.three_keys)))
  = List.tl (dal.rows (db examples.three_keys)) /\
  dal.calls (db (snd (DeleteForPlugin examples.helper dal.Conn "" ""
                                      examples.three_keys)))
  = dal.calls (db examples.three_keys)
    ++ [dal.CallFirst [];
        dal.CallDelete
          (List.hd zero_ApiKey (dal.rows (db examples.three_keys))) []].
Proof.
  assert (dal.rows (db examples.three_keys)
          = List.hd zero_ApiKey (dal.rows (db examples.three_keys))
            :: List.tl (dal.rows (db examples.three_keys))) as h1
    by (vm_compute; reflexivity).
  assert (dal.wf (db examples.three_keys) = true) as h2
    by (vm_compute; reflexivity).
  assert (dal.quiet 2 (db examples.three_keys) = true) as h3
    by (vm_compute; reflexivity).
  exact (conj h1 (conj h2 (conj h3
           (DeleteForPlugin_without_filters examples.helper dal.Conn
              examples.three_keys _ _ h1 h2 h3)))).
Defined.

(** Without filters the revocation removes the user key, the first row
    of the table. *)
Example unfiltered_revocation_deletes_user_key :
  List.map Name
    (dal.rows (db (snd (DeleteForPlugin examples.helper dal.Conn "" ""
                                        examples.three_keys))))
  = ["hook-a"; "hook-b"].
Proof. vm_compute. reflexivity. Qed.

(* ================================================================== *)
(** * Further properties of the helper *)

(** ** Every path of every method *)

Lemma generateApiKey_eq (c : ApiKeyHelper) (w : World) :
  generateApiKey c w =
  if (List.length (entropy w) <? apiKeyLen)%nat then
    (("", "", Some (RandomSourceError (errors.Plain "random source failed"))),
     w)
  else
    ((utils.letters apiKeyLen (entropy w),
      hmac_sha256_hex (encryptionSecret c)
                      (utils.letters apiKeyLen (entropy w)),
      None),
     mkWorld (db w) (List.skipn apiKeyLen (entropy w)) (clock w) (log w)).
Proof.
  unfold generateApiKey, bind, utils.RandLetterBytes.
  destruct (List.length (entropy w) <? apiKeyLen)%nat; reflexivity.
Qed.

(** [Create], path by path: the pattern does not compile; the random
    source fails; the persistence layer reports a fault; the name is
    taken; success. *)
Lemma Create_eq (regexp_Compile : string -> option Error)
    (c : ApiKeyHelper) (tx : dal.Dal)
    (user : option common_User) (name : string) (expiredAt : option Time)
    (allowedPath apiKeyType extra : string) (w : World) :
  Create regexp_Compile c tx user name expiredAt allowedPath apiKeyType
         extra w =
  match regexp_Compile allowedPath with
  | Some err =>
      ((None, Some (InvalidPatternError err allowedPath)),
       mkWorld (db w) (entropy w) (clock w)
               (log w ++ [(err, "Compile allowed path")]))
  | None =>
      if (List.length (entropy w) <? apiKeyLen)%nat then
        ((None,
          Some (RandomSourceError (errors.Plain "random source failed"))),
         mkWorld (db w) (entropy w) (clock w)
           (log w ++
            [(RandomSourceError (errors.Plain "random source failed"),
              "generateApiKey")]))
      else
        let apiKey := utils.letters apiKeyLen (entropy w) in
        let sent :=
          new_record user name expiredAt allowedPath apiKeyType extra
                     (clock w)
                     (hmac_sha256_hex (encryptionSecret c) apiKey) in
        let s1 := snd (dal.enter (dal.CallCreate sent) (db w)) in
        let rest := List.skipn apiKeyLen (entropy w) in
        match List.hd None (dal.faults (db w)) with
        | Some msg =>
            ((None,
              Some (PersistenceError (dal.OtherError msg)
                                     "error creating DB api key")),
             mkWorld s1 rest (clock w)
               (log w ++ [(dal.OtherError msg, "create api key record")]))
        | None =>
            if dal.name_taken name (db w) then
              ((None, Some (DuplicateNameError name)),
               mkWorld s1 rest (clock w)
                 (log w ++
                  [(dal.DuplicateKeyError, "create api key record")]))
            else
              let stored := set_ID sent (dal.next_id (db w)) in
              ((Some (set_ApiKey stored apiKey), None),
               mkWorld
                 (dal.with_rows s1 (dal.rows (db w) ++ [stored])
                                (N.succ (dal.next_id (db w))))
                 rest (clock w) (log w))
        end
  end.
Proof.
  unfold Create.
  destruct (regexp_Compile allowedPath) as [err|]; [reflexivity|].
  unfold bind. rewrite generateApiKey_eq.
  destruct (List.length (entropy w) <? apiKeyLen)%nat; [reflexivity|].
  unfold time_Now, on_db. cbn [db entropy clock log].
  fold (new_record user name expiredAt allowedPath apiKeyType extra (clock w)
          (hmac_sha256_hex (encryptionSecret c)
             (utils.letters apiKeyLen (entropy w)))).
  unfold dal.Create, dal.enter.
  destruct (List.hd None (dal.faults (db w))) as [msg|]; [reflexivity|].
  unfold dal.name_taken. cbn [dal.rows dal.next_id].
  rewrite new_record_Name.
  destruct (List.existsb _ _); reflexivity.
Qed.

(** [Put], path by path: the lookup hits a fault; no record has the
    identifier; the random source fails; the update hits a fault;
    success. *)
Lemma Put_eq (c : ApiKeyHelper) (user : option common_User) (id : N)
    (w : World) :
  Put c user id w =
  let s1 :=
    snd (dal.enter (dal.CallFirst [dal.Where "id = ?" (dal.Uint id)])
                   (db w)) in
  match List.hd None (dal.faults (db w)) with
  | Some msg =>
      ((None,
        Some (PersistenceError (dal.OtherError msg)
                               "error getting api key from DB")),
       mkWorld s1 (entropy w) (clock w)
         (log w ++
          [(PersistenceError (dal.OtherError msg)
                             "error getting api key from DB",
            ("get api key by id: " ++ fmt.decimal id)%string)]))
  | None =>
      match List.find (fun r => N.eqb (ID r) id) (dal.rows (db w)) with
      | None =>
          ((None, Some (NotFoundError dal.NotFoundError id)),
           mkWorld s1 (entropy w) (clock w)
             (log w ++
              [(NotFoundError dal.NotFoundError id,
                ("get api key by id: " ++ fmt.decimal id)%string)]))
      | Some old =>
          if (List.length (entropy w) <? apiKeyLen)%nat then
            ((None,
              Some (RandomSourceError (errors.Plain "random source failed"))),
             mkWorld s1 (entropy w) (clock w)
               (log w ++
                [(RandomSourceError (errors.Plain "random source failed"),
                  "generateApiKey")]))
          else
            let apiKeyStr := utils.letters apiKeyLen (entropy w) in
            let sent :=
              rotated_record user old (clock w)
                (hmac_sha256_hex (encryptionSecret c) apiKeyStr) in
            let s2 := snd (dal.enter (dal.CallUpdate sent) s1) in
            let rest := List.skipn apiKeyLen (entropy w) in
            match List.hd None (List.tl (dal.faults (db w))) with
            | Some msg =>
                ((None,
                  Some (PersistenceError (dal.OtherError msg)
                                         "error deleting api key")),
                 mkWorld s2 rest (clock w)
                   (log w ++
                    [(dal.OtherError msg,
                      ("update api key, id: " ++ fmt.decimal id)%string)]))
            | None =>
                ((Some (set_ApiKey sent apiKeyStr), None),
                 mkWorld
                   (dal.with_rows s2
                      (List.map
                         (fun x => if N.eqb (ID x) (ID sent) then sent else x)
                         (dal.rows (db w)))
                      (dal.next_id (db w)))
                   rest (clock w) (log w))
            end
      end
  end.
Proof.
  unfold Put, bind. rewrite getApiKeyById_eq.
  destruct (List.hd None (dal.faults (db w))) as [msg|]; [reflexivity|].
  change (dal.valid_clauses [dal.Where "id = ?" (dal.Uint id)]) with true.
  cbv iota.
  rewrite (find_ext_eq _ (fun r => N.eqb (ID r) id) _ (matches_id id)).
  destruct (List.find _ _) as [old|]; [|reflexivity].
  rewrite generateApiKey_eq. cbn [entropy].
  destruct (List.length (entropy w) <? apiKeyLen)%nat; [reflexivity|].
  unfold time_Now, on_db. cbn [db entropy clock log].
  fold (rotated_record user old (clock w)
          (hmac_sha256_hex (encryptionSecret c)
             (utils.letters apiKeyLen (entropy w)))).
  unfold dal.Update, dal.enter.
  cbn [dal.faults dal.rows dal.next_id dal.calls snd].
  destruct (List.hd None (List.tl (dal.faults (db w)))) as [msg|];
    reflexivity.
Qed.

(** [Delete], path by path: the lookup hits a fault; no record has the
    identifier; the delete hits a fault; success. *)
Lemma Delete_eq (c : ApiKeyHelper) (id : N) (w : World) :
  Delete c id w =
  let q := [dal.Where "id = ?" (dal.Uint id)] in
  let s1 := snd (dal.enter (dal.CallFirst q) (db w)) in
  match List.hd None (dal.faults (db w)) with
  | Some msg =>
      (Some (PersistenceError (dal.OtherError msg)
                              "error getting api key from DB"),
       mkWorld s1 (entropy w) (clock w)
         (log w ++
          [(PersistenceError (dal.OtherError msg)
                             "error getting api key from DB",
            ("get api key by id: " ++ fmt.decimal id)%string)]))
  | None =>
      match List.find (fun r => N.eqb (ID r) id) (dal.rows (db w)) with
      | None =>
          (Some (NotFoundError dal.NotFoundError id),
           mkWorld s1 (entropy w) (clock w)
             (log w ++
              [(NotFoundError dal.NotFoundError id,
                ("get api key by id: " ++ fmt.decimal id)%string)]))
      | Some _ =>
          let s2 := snd (dal.enter (dal.CallDelete zero_ApiKey q) s1) in
          match List.hd None (List.tl (dal.faults (db w))) with
          | Some msg =>
              (Some (PersistenceError (dal.OtherError msg)
                                      "error deleting api key"),
               mkWorld s2 (entropy w) (clock w)
                 (log w ++
                  [(dal.OtherError msg,
                    ("delete api key, id: " ++ fmt.decimal id)%string)]))
          | None =>
              (None,
               mkWorld
                 (dal.with_rows s2
                    (List.filter (fun x => negb (N.eqb (ID x) id))
                                 (dal.rows (db w)))
                    (dal.next_id (db w)))
                 (entropy w) (clock w) (log w))
          end
      end
  end.
Proof.
  unfold Delete, bind. rewrite getApiKeyById_eq.
  destruct (List.hd None (dal.faults (db w))) as [msg|]; [reflexivity|].
  change (dal.valid_clauses [dal.Where "id = ?" (dal.Uint id)]) with true.
  cbv iota.
  rewrite (find_ext_eq _ (fun r => N.eqb (ID r) id) _ (matches_id id)).
  destruct (List.find _ _) as [old|]; [|reflexivity].
  unfold on_db, dal.Delete, dal.enter.
  cbn [db dal.faults dal.rows dal.next_id dal.calls snd].
  destruct (List.hd None (List.tl (dal.faults (db w)))) as [msg|];
    [reflexivity|].
  change (negb (dal.valid_clauses [dal.Where "id = ?" (dal.Uint id)]))
    with false.
  cbn [ID zero_ApiKey N.eqb andb List.length Nat.eqb]. cbv iota.
  unfold dal.with_rows. cbn [dal.faults dal.rows dal.next_id dal.calls snd fst].
  rewrite (List.filter_ext
             (fun x => negb (dal.doomed zero_ApiKey
                               [dal.Where "id = ?" (dal.Uint id)] x))
             (fun x => negb (N.eqb (ID x) id))).
  - reflexivity.
  - intro x. unfold dal.doomed. rewrite matches_id. reflexivity.
Qed.

(** [DeleteForPlugin], path by path: the lookup hits a fault; no record
    passes the filters (logged, and a success); the delete hits a
    fault; the record found has no identifier; success. *)
Lemma DeleteForPlugin_paths (c : ApiKeyHelper) (tx : dal.Dal)
    (pluginName extra : string) (w : World) :
  DeleteForPlugin c tx pluginName extra w =
  let cs := plugin_clauses pluginName extra in
  let s1 := snd (dal.enter (dal.CallFirst cs) (db w)) in
  match List.hd None (dal.faults (db w)) with
  | Some msg =>
      (Some (dal.OtherError msg),
       mkWorld s1 (entropy w) (clock w)
         (log w ++ [(dal.OtherError msg, "query api key record")]))
  | None =>
      match List.find (plugin_match pluginName extra) (dal.rows (db w)) with
      | None =>
          (None,
           mkWorld s1 (entropy w) (clock w)
             (log w ++ [(dal.NotFoundError, "query api key record")]))
      | Some x =>
          let s2 := snd (dal.enter (dal.CallDelete x []) s1) in
          match List.hd None (List.tl (dal.faults (db w))) with
          | Some msg =>
              (Some (dal.OtherError msg),
               mkWorld s2 (entropy w) (clock w)
                 (log w ++ [(dal.OtherError msg, "delete api key record")]))
          | None =>
              if N.eqb (ID x) 0 then
                (Some (dal.OtherError "missing WHERE clause"),
                 mkWorld s2 (entropy w) (clock w)
                   (log w ++ [(dal.OtherError "missing WHERE clause",
                               "delete api key record")]))
              else
                (None,
                 mkWorld
                   (dal.with_rows s2
                      (List.filter (fun y => negb (N.eqb (ID y) (ID x)))
                                   (dal.rows (db w)))
                      (dal.next_id (db w)))
                   (entropy w) (clock w) (log w))
          end
      end
  end.
Proof.
  unfold DeleteForPlugin, bind, on_db. cbv zeta.
  change (if negb (String.eqb extra "")
          then (if negb (String.eqb pluginName "")
                then [] ++ [dal.Where "type = ?"
                              (dal.Str ("plugin:" ++ pluginName))]
                else []) ++ [dal.Where "extra = ?" (dal.Str extra)]
          else (if negb (String.eqb pluginName "")
                then [] ++ [dal.Where "type = ?"
                              (dal.Str ("plugin:" ++ pluginName))]
                else []))
    with (plugin_clauses pluginName extra).
  set (cs := plugin_clauses pluginName extra).
  rewrite First_eq.
  destruct (List.hd None (dal.faults (db w))) as [msg|]; [reflexivity|].
  assert (dal.valid_clauses cs = true) as Hv.
  { subst cs. unfold plugin_clauses.
    destruct (String.eqb pluginName ""), (String.eqb extra ""); reflexivity. }
  rewrite Hv.
  assert (List.find (dal.matches cs) (dal.rows (db w))
          = List.find (plugin_match pluginName extra) (dal.rows (db w)))
    as Hfind.
  { apply find_ext_eq. intro x. subst cs.
    unfold plugin_clauses, plugin_match, dal.matches.
    destruct (String.eqb pluginName ""), (String.eqb extra ""); simpl;
      rewrite ?andb_true_r; reflexivity. }
  rewrite Hfind.
  destruct (List.find (plugin_match pluginName extra) (dal.rows (db w)))
    as [x|]; [|reflexivity].
  cbn [db]. unfold dal.Delete, dal.enter.
  cbn [dal.faults dal.rows dal.next_id dal.calls snd].
  destruct (List.hd None (List.tl (dal.faults (db w)))) as [msg|];
    [reflexivity|].
  change (negb (dal.valid_clauses [])) with false. cbv iota.
  cbn [List.length Nat.eqb]. rewrite andb_true_r.
  destruct (N.eqb (ID x) 0) eqn:Hx0; [reflexivity|].
  unfold dal.with_rows.
  rewrite (List.filter_ext
             (fun y => negb (dal.doomed x [] y))
             (fun y => negb (N.eqb (ID y) (ID x)))).
  - reflexivity.
  - intro y. unfold dal.doomed. rewrite Hx0. simpl.
    now rewrite andb_true_r.
Qed.

(** ** Auxiliary facts *)

Lemma has_id_find (id : N) (s : dal.Store) :
  dal.has_id id s = true ->
  exists x, List.find (fun r => N.eqb (ID r) id) (dal.rows s) = Some x.
Proof.
  unfold dal.has_id. induction (dal.rows s) as [|r l IH]; simpl.
  - discriminate.
  - destruct (N.eqb (ID r) id); [intros _; eexists; reflexivity|].
    simpl. exact IH.
Qed.

Lemma find_id_none (id : N) (l : list models_ApiKey) :
  (forall x, In x l -> ID x <> id) ->
  List.find (fun r => N.eqb (ID r) id) l = None.
Proof.
  induction l as [|a l IH]; simpl; intro H; [reflexivity|].
  destruct (N.eqb_spec (ID a) id) as [E|E].
  - exfalso. apply (H a); auto.
  - apply IH. intros x Hx. apply H. auto.
Qed.

(** In a table without duplicate identifiers the lookup by identifier
    finds the row wherever it is. *)
Lemma find_id_middle (l1 l2 : list models_ApiKey) (x : models_ApiKey) :
  NoDup (List.map ID (l1 ++ x :: l2)) ->
  List.find (fun r => N.eqb (ID r) (ID x)) (l1 ++ x :: l2) = Some x.
Proof.
  intro Hnd. rewrite List.map_app in Hnd. simpl in Hnd.
  assert (~ In (ID x) (List.map ID l1 ++ List.map ID l2)) as Hx
    by (apply NoDup_remove_2; exact Hnd).
  induction l1 as [|a l1 IH]; simpl.
  - now rewrite N.eqb_refl.
  - destruct (N.eqb_spec (ID a) (ID x)) as [E|E].
    + exfalso. apply Hx. simpl. left. exact E.
    + apply IH.
      * simpl in Hnd. inversion Hnd; assumption.
      * intro Hin. apply Hx. simpl. right. exact Hin.
Qed.

Lemma find_id_removed (l1 l2 : list models_ApiKey) (x : models_ApiKey) :
  NoDup (List.map ID (l1 ++ x :: l2)) ->
  List.find (fun r => N.eqb (ID r) (ID x)) (l1 ++ l2) = None.
Proof.
  intro Hnd. rewrite List.map_app in Hnd. simpl in Hnd.
  assert (~ In (ID x) (List.map ID l1 ++ List.map ID l2)) as Hx
    by (apply NoDup_remove_2; exact Hnd).
  apply find_id_none. intros y Hy E. apply Hx.
  rewrite <- List.map_app. rewrite <- E. apply List.in_map, Hy.
Qed.

Lemma quiet_three (s : dal.Store) :
  dal.quiet 3 s = true ->
  List.hd None (dal.faults s) = None /\
  List.hd None (List.tl (dal.faults s)) = None /\
  List.hd None (List.tl (List.tl (dal.faults s))) = None.
Proof.
  intro H.
  destruct (quiet_succ 2 s (dal.CallFirst []) H) as [H1 H2].
  destruct (quiet_succ 1 _ (dal.CallFirst []) H2) as [H3 H4].
  destruct (quiet_succ 0 _ (dal.CallFirst []) H4) as [H5 _].
  auto.
Qed.

Lemma quiet_four (s : dal.Store) :
  dal.quiet 4 s = true ->
  List.hd None (dal.faults s) = None /\
  List.hd None (List.tl (dal.faults s)) = None /\
  List.hd None (List.tl (List.tl (dal.faults s))) = None /\
  List.hd None (List.tl (List.tl (List.tl (dal.faults s)))) = None.
Proof.
  intro H.
  destruct (quiet_succ 3 s (dal.CallFirst []) H) as [H1 H2].
  destruct (quiet_succ 2 _ (dal.CallFirst []) H2) as [H3 H4].
  destruct (quiet_succ 1 _ (dal.CallFirst []) H4) as [H5 H6].
  destruct (quiet_succ 0 _ (dal.CallFirst []) H6) as [H7 _].
  auto.
Qed.

Lemma has_id_split (id : N) (s : dal.Store) :
  dal.has_id id s = true ->
  exists l1 x l2, ID x = id /\ dal.rows s = l1 ++ x :: l2.
Proof.
  intro H. destruct (has_id_find id s H) as [x Hx].
  destruct (find_split _ _ _ Hx) as [l1 [l2 [Hrows [Hid _]]]].
  exists l1, x, l2. split; [apply N.eqb_eq, Hid | exact Hrows].
Qed.

Lemma has_id_In (id : N) (s : dal.Store) :
  dal.has_id id s = true <-> In id (dal.ids s).
Proof.
  unfold dal.has_id, dal.ids. rewrite List.existsb_exists, List.in_map_iff.
  split; intros [x [H1 H2]]; exists x.
  - apply N.eqb_eq in H2. auto.
  - split; [exact H2 | apply N.eqb_eq, H1].
Qed.

Lemma wf_NoDup (s : dal.Store) :
  dal.wf s = true -> NoDup (List.map ID (dal.rows s)).
Proof. intro H. apply wf_iff in H. apply H. Qed.

(** [Delete] on the identifier of a stored record, with no storage
    fault. *)
Lemma Delete_found (c : ApiKeyHelper) (id : N) (w : World)
    (l1 l2 : list models_ApiKey) (x : models_ApiKey) :
  dal.rows (db w) = l1 ++ x :: l2 ->
  ID x = id ->
  NoDup (List.map ID (dal.rows (db w))) ->
  List.hd None (dal.faults (db w)) = None ->
  List.hd None (List.tl (dal.faults (db w))) = None ->
  Delete c id w =
  (None,
   mkWorld
     (dal.mkStore (l1 ++ l2) (dal.next_id (db w))
        (List.tl (List.tl (dal.faults (db w))))
        (dal.calls (db w) ++
         [dal.CallFirst [dal.Where "id = ?" (dal.Uint id)];
          dal.CallDelete zero_ApiKey [dal.Where "id = ?" (dal.Uint id)]]))
     (entropy w) (clock w) (log w)).
Proof.
  intros Hrows Hid Hnd Hf Hf'. rewrite Delete_eq. cbv zeta.
  rewrite Hf, Hf'. subst id.
  assert (List.find (fun r => N.eqb (ID r) (ID x)) (dal.rows (db w))
          = Some x) as Hfind
    by (rewrite Hrows; apply find_id_middle; rewrite <- Hrows; exact Hnd).
  rewrite Hfind. unfold dal.with_rows, dal.enter.
  cbn [dal.faults dal.rows dal.next_id dal.calls snd].
  rewrite Hrows at 1. rewrite filter_by_id by (rewrite <- Hrows; exact Hnd).
  rewrite <- List.app_assoc. reflexivity.
Qed.

(** ** Deletion *)

(** X1. [Delete] of the identifier of a stored record, on a well-formed
    table and with no storage fault, succeeds and removes that record
    and no other: the rows before and after it keep their places; the
    persistence layer receives the lookup and one delete filtered by
    the identifier; nothing is logged. *)
Theorem Delete_removes_the_record (c : ApiKeyHelper) (id : N) (w : World) :
  dal.wf (db w) = true ->
  dal.quiet 2 (db w) = true ->
  dal.has_id id (db w) = true ->
  fst (Delete c id w) = None /\
  (exists l1 x l2,
     ID x = id /\
     dal.rows (db w) = l1 ++ x :: l2 /\
     dal.rows (db (snd (Delete c id w))) = l1 ++ l2) /\
  dal.has_id id (db (snd (Delete c id w))) = false /\
  dal.calls (db (snd (Delete c id w)))
  = dal.calls (db w) ++
    [dal.CallFirst [dal.Where "id = ?" (dal.Uint id)];
     dal.CallDelete zero_ApiKey [dal.Where "id = ?" (dal.Uint id)]] /\
  log (snd (Delete c id w)) = log w.
Proof.
  intros Hwf Hq Hid.
  destruct (quiet_two _ Hq) as [Hf Hf'].
  destruct (has_id_split id _ Hid) as [l1 [x [l2 [Hx Hrows]]]].
  pose proof (wf_NoDup _ Hwf) as Hnd.
  rewrite (Delete_found c id w l1 l2 x Hrows Hx Hnd Hf Hf').
  cbn [fst snd db dal.rows dal.calls log].
  split; [reflexivity|]. split.
  { exists l1, x, l2. auto. }
  split; [|split; reflexivity].
  match goal with
  | |- ?t = false => destruct t eqn:E; [|reflexivity]
  end.
  apply has_id_In in E. unfold dal.ids in E. cbn [dal.rows] in E.
  exfalso. rewrite Hrows, List.map_app in Hnd. simpl in Hnd.
  apply NoDup_remove_2 in Hnd. apply Hnd.
  rewrite <- List.map_app. rewrite Hx. exact E.
Qed.

(** X2. After a successful [Delete] of an identifier, the lookup of that
    identifier and a second [Delete] of it both fail with the not-found
    error. *)
Theorem Delete_twice_second_not_found (c : ApiKeyHelper)
    (tx : option dal.Dal) (id : N) (w : World) :
  dal.wf (db w) = true ->
  dal.quiet 3 (db w) = true ->
  dal.has_id id (db w) = true ->
  fst (Delete c id w) = None /\
  fst (getApiKeyById c tx id [] (snd (Delete c id w)))
  = (None, Some (NotFoundError dal.NotFoundError id)) /\
  fst (Delete c id (snd (Delete c id w)))
  = Some (NotFoundError dal.NotFoundError id) /\
  dal.rows (db (snd (Delete c id (snd (Delete c id w)))))
  = dal.rows (db (snd (Delete c id w))).
Proof.
  intros Hwf Hq Hid.
  destruct (quiet_three _ Hq) as [Hf [Hf' Hf'']].
  destruct (has_id_split id _ Hid) as [l1 [x [l2 [Hx Hrows]]]].
  pose proof (wf_NoDup _ Hwf) as Hnd.
  rewrite (Delete_found c id w l1 l2 x Hrows Hx Hnd Hf Hf').
  cbn [fst snd].
  assert (List.find (fun r => N.eqb (ID r) id) (l1 ++ l2) = None) as Hgone.
  { subst id. apply (find_id_removed l1 l2 x).
    rewrite <- Hrows. exact Hnd. }
  split; [reflexivity|]. split.
  - rewrite getApiKeyById_eq. cbn [fst db dal.faults dal.rows].
    rewrite Hf''.
    change (dal.valid_clauses [dal.Where "id = ?" (dal.Uint id)]) with true.
    cbv iota.
    rewrite (find_ext_eq _ (fun r => N.eqb (ID r) id) _ (matches_id id)).
    rewrite Hgone. reflexivity.
  - rewrite Delete_eq. cbv zeta. cbn [db dal.faults dal.rows].
    rewrite Hf'', Hgone. cbn [fst snd db dal.rows dal.enter].
    split; reflexivity.
Qed.

(** ** Failures *)

(** X3. A call that returns an error leaves the table as it was: this
    holds for [Create], [Put], [Delete] and [DeleteForPlugin], whatever
    the arguments and whatever the state of the world. *)
Theorem failures_leave_the_table (regexp_Compile : string -> option Error)
    (c : ApiKeyHelper) (tx : dal.Dal) (user : option common_User)
    (name : string) (expiredAt : option Time)
    (allowedPath apiKeyType extra pluginName : string) (id : N) (w : World) :
  (snd (fst (Create regexp_Compile c tx user name expiredAt allowedPath
                    apiKeyType extra w)) <> None ->
   dal.rows (db (snd (Create regexp_Compile c tx user name expiredAt
                             allowedPath apiKeyType extra w)))
   = dal.rows (db w)) /\
  (snd (fst (Put c user id w)) <> None ->
   dal.rows (db (snd (Put c user id w))) = dal.rows (db w)) /\
  (fst (Delete c id w) <> None ->
   dal.rows (db (snd (Delete c id w))) = dal.rows (db w)) /\
  (fst (DeleteForPlugin c tx pluginName extra w) <> None ->
   dal.rows (db (snd (DeleteForPlugin c tx pluginName extra w)))
   = dal.rows (db w)).
Proof.
  split; [|split; [|split]].
  - rewrite Create_eq.
    destruct (regexp_Compile allowedPath); [reflexivity|].
    destruct (List.length (entropy w) <? apiKeyLen)%nat; [reflexivity|].
    cbv zeta.
    destruct (List.hd None (dal.faults (db w))); [reflexivity|].
    destruct (dal.name_taken name (db w)); [reflexivity|].
    cbn [fst snd]. intro H. exfalso. apply H. reflexivity.
  - rewrite Put_eq. cbv zeta.
    destruct (List.hd None (dal.faults (db w))); [reflexivity|].
    destruct (List.find _ _); [|reflexivity].
    destruct (List.length (entropy w) <? apiKeyLen)%nat; [reflexivity|].
    destruct (List.hd None (List.tl (dal.faults (db w)))); [reflexivity|].
    cbn [fst snd]. intro H. exfalso. apply H. reflexivity.
  - rewrite Delete_eq. cbv zeta.
    destruct (List.hd None (dal.faults (db w))); [reflexivity|].
    destruct (List.find _ _); [|reflexivity].
    destruct (List.hd None (List.tl (dal.faults (db w)))); [reflexivity|].
    cbn [fst snd]. intro H. exfalso. apply H. reflexivity.
  - rewrite DeleteForPlugin_paths. cbv zeta.
    destruct (List.hd None (dal.faults (db w))); [reflexivity|].
    destruct (List.find _ _) as [x|];
      [|cbn [fst]; intro H; exfalso; apply H; reflexivity].
    destruct (List.hd None (List.tl (dal.faults (db w)))); [reflexivity|].
    destruct (N.eqb (ID x) 0); [reflexivity|].
    cbn [fst snd]. intro H. exfalso. apply H. reflexivity.
Qed.


(** X5. When the persistence layer reports a fault other than a
    duplicate on the insert, [Create] returns it wrapped as "error
    creating DB api key"; no row is added, the secret that was drawn is
    returned to nobody, and the random source has been consumed. *)
Theorem Create_persistence_fault (regexp_Compile : string -> option Error)
    (c : ApiKeyHelper) (tx : dal.Dal) (user : option common_User)
    (name : string) (expiredAt : option Time)
    (allowedPath apiKeyType extra : string) (w : World) (msg : string) :
  regexp_Compile allowedPath = None ->
  (apiKeyLen <= List.length (entropy w))%nat ->
  List.hd None (dal.faults (db w)) = Some msg ->
  fst (Create regexp_Compile c tx user name expiredAt allowedPath
              apiKeyType extra w)
  = (None,
     Some (PersistenceError (dal.OtherError msg)
                            "error creating DB api key")) /\
  dal.rows (db (snd (Create regexp_Compile c tx user name expiredAt
                            allowedPath apiKeyType extra w)))
  = dal.rows (db w) /\
  dal.next_id (db (snd (Create regexp_Compile c tx user name expiredAt
                               allowedPath apiKeyType extra w)))
  = dal.next_id (db w) /\
  entropy (snd (Create regexp_Compile c tx user name expiredAt
                       allowedPath apiKeyType extra w))
  = List.skipn apiKeyLen (entropy w).
Proof.
  intros Hre Hent Hf. rewrite Create_eq, Hre.
  apply Nat.ltb_ge in Hent. rewrite Hent. cbv zeta. rewrite Hf.
  cbn [fst snd db entropy dal.enter dal.rows dal.next_id].
  repeat split; reflexivity.
Qed.


(** X7. When the persistence layer reports a fault on the update, [Put]
    returns it wrapped in the generic class with the message "error
    deleting api key"; the stored record keeps its old digest and the
    new secret is returned to nobody. *)
Theorem Put_update_fault (c : ApiKeyHelper) (user : option common_User)
    (id : N) (w : World) (msg : string) :
  dal.has_id id (db w) = true ->
  (apiKeyLen <= List.length (entropy w))%nat ->
  List.hd None (dal.faults (db w)) = None ->
  List.hd None (List.tl (dal.faults (db w))) = Some msg ->
  fst (Put c user id w)
  = (None,
     Some (PersistenceError (dal.OtherError msg) "error deleting api key")) /\
  dal.rows (db (snd (Put c user id w))) = dal.rows (db w) /\
  entropy (snd (Put c user id w)) = List.skipn apiKeyLen (entropy w).
Proof.
  intros Hid Hent Hf Hf'.
  destruct (has_id_find id _ Hid) as [x Hx].
  rewrite Put_eq. cbv zeta. rewrite Hf, Hx.
  apply Nat.ltb_ge in Hent. rewrite Hent, Hf'.
  cbn [fst snd db entropy dal.enter dal.rows].
  repeat split; reflexivity.
Qed.

(** X8. A storage fault during the lookup is not taken for an absent
    record: [getApiKeyById], [Put] and [Delete] return it wrapped as
    "error getting api key from DB" (not the not-found error), and [Put]
    and [Delete] stop there: the layer has received the lookup only, no
    secret is drawn, the table is as it was. *)
Theorem lookup_fault_is_not_not_found (c : ApiKeyHelper)
    (tx : option dal.Dal) (user : option common_User) (id : N) (w : World)
    (msg : string) :
  List.hd None (dal.faults (db w)) = Some msg ->
  fst (getApiKeyById c tx id [] w)
  = (None,
     Some (PersistenceError (dal.OtherError msg)
                            "error getting api key from DB")) /\
  (fst (Put c user id w)
   = (None,
      Some (PersistenceError (dal.OtherError msg)
                             "error getting api key from DB")) /\
   dal.rows (db (snd (Put c user id w))) = dal.rows (db w) /\
   dal.calls (db (snd (Put c user id w)))
   = dal.calls (db w) ++ [dal.CallFirst [dal.Where "id = ?" (dal.Uint id)]] /\
   entropy (snd (Put c user id w)) = entropy w) /\
  (fst (Delete c id w)
   = Some (PersistenceError (dal.OtherError msg)
                            "error getting api key from DB") /\
   dal.rows (db (snd (Delete c id w))) = dal.rows (db w) /\
   dal.calls (db (snd (Delete c id w)))
   = dal.calls (db w) ++ [dal.CallFirst [dal.Where "id = ?" (dal.Uint id)]]).
Proof.
  intro Hf. split; [|split].
  - rewrite getApiKeyById_eq, Hf. reflexivity.
  - rewrite Put_eq. cbv zeta. rewrite Hf.
    cbn [fst snd db entropy dal.enter dal.rows dal.calls].
    repeat split; reflexivity.
  - rewrite Delete_eq. cbv zeta. rewrite Hf.
    cbn [fst snd db dal.enter dal.rows dal.calls].
    repeat split; reflexivity.
Qed.

(** X9. When the persistence layer reports a fault on the delete,
    [Delete] returns it wrapped as "error deleting api key" and the
    record is still in the table. *)
Theorem Delete_delete_fault (c : ApiKeyHelper) (id : N) (w : World)
    (msg : string) :
  dal.has_id id (db w) = true ->
  List.hd None (dal.faults (db w)) = None ->
  List.hd None (List.tl (dal.faults (db w))) = Some msg ->
  fst (Delete c id w)
  = Some (PersistenceError (dal.OtherError msg) "error deleting api key") /\
  dal.rows (db (snd (Delete c id w))) = dal.rows (db w).
Proof.
  intros Hid Hf Hf'.
  destruct (has_id_find id _ Hid) as [x Hx].
  rewrite Delete_eq. cbv zeta. rewrite Hf, Hx, Hf'.
  cbn [fst snd db dal.enter dal.rows]. split; reflexivity.
Qed.

(** X10. [DeleteForPlugin] hands on a storage fault as the persistence
    layer reported it, without wrapping it: a fault on the lookup, after
    which no delete is issued, or a fault on the delete of the record
    found.  In both cases the table is as it was. *)
Theorem DeleteForPlugin_propagates_faults (c : ApiKeyHelper) (tx : dal.Dal)
    (pluginName extra : string) (w : World) (msg : string) :
  List.hd None (dal.faults (db w)) = Some msg \/
  (List.hd None (dal.faults (db w)) = None /\
   List.existsb (plugin_match pluginName extra) (dal.rows (db w)) = true /\
   List.hd None (List.tl (dal.faults (db w))) = Some msg) ->
  fst (DeleteForPlugin c tx pluginName extra w) = Some (dal.OtherError msg) /\
  dal.rows (db (snd (DeleteForPlugin c tx pluginName extra w)))
  = dal.rows (db w) /\
  (List.hd None (dal.faults (db w)) = Some msg ->
   dal.calls (db (snd (DeleteForPlugin c tx pluginName extra w)))
   = dal.calls (db w) ++ [dal.CallFirst (plugin_clauses pluginName extra)]).
Proof.
  intros [Hf | [Hf [Hex Hf']]]; rewrite DeleteForPlugin_paths; cbv zeta;
    rewrite Hf.
  - cbn [fst snd db dal.enter dal.rows dal.calls]. repeat split; reflexivity.
  - destruct (List.find (plugin_match pluginName extra) (dal.rows (db w)))
      as [x|] eqn:Efind.
    + rewrite Hf'. cbn [fst snd db dal.enter dal.rows].
      split; [reflexivity|]. split; [reflexivity|]. discriminate.
    + exfalso. apply List.existsb_exists in Hex. destruct Hex as [y [Hy Hm]].
      rewrite (List.find_none _ _ Efind y Hy) in Hm. discriminate.
Qed.

(** ** Operations one after the other *)

Lemma quiet_same_faults (n : nat) (s s' : dal.Store) :
  dal.faults s' = dal.faults s -> dal.quiet n s' = dal.quiet n s.
Proof. unfold dal.quiet. intros ->. reflexivity. Qed.

Lemma set_ApiKey_back (r : models_ApiKey) (p : string) :
  set_ApiKey (set_ApiKey r p) (ApiKey r) = r.
Proof. destruct r. reflexivity. Qed.

(** X11. After a successful [Put] (rotation) of a stored record, on a
    well-formed table, the lookup of its identifier returns the record
    as it is now stored: the digest of the plaintext that [Put]
    returned, the update time of the rotation, and otherwise what the
    result of [Put] shows; nothing is logged. *)
Theorem Put_then_Lookup (c : ApiKeyHelper) (tx : option dal.Dal)
    (user : option common_User) (id : N) (w : World) :
  dal.wf (db w) = true ->
  dal.quiet 3 (db w) = true ->
  (apiKeyLen <= List.length (entropy w))%nat ->
  dal.has_id id (db w) = true ->
  exists issued stored w1 w2,
    Put c user id w = ((Some issued, None), w1) /\
    getApiKeyById c tx id [] w1 = ((Some stored, None), w2) /\
    fst (DigestToken c (ApiKey issued) w2) = (ApiKey stored, None) /\
    stored = set_ApiKey issued (ApiKey stored) /\
    ID stored = id /\
    UpdatedAt stored = clock w /\
    log w1 = log w.
Proof.
  intros Hwf Hq Hent Hid.
  destruct (quiet_three _ Hq) as [Hf [Hf' Hf'']].
  destruct (has_id_find id _ Hid) as [old Hold].
  pose proof (Put_found c user id w old Hold
                (quiet_weaken 2 _ Hq) Hent) as HPut.
  cbv zeta in HPut.
  set (plaintext := utils.letters apiKeyLen (entropy w)) in *.
  set (h := hmac_sha256_hex (encryptionSecret c) plaintext) in *.
  set (sent := rotated_record user old (clock w) h) in *.
  destruct (find_split _ _ _ Hold) as [l1 [l2 [Hrows [Hoid _]]]].
  apply N.eqb_eq in Hoid.
  pose proof (wf_NoDup _ Hwf) as Hnd.
  assert (ID sent = ID old) as Hsid by apply rotated_record_ID.
  assert (List.map (fun x => if N.eqb (ID x) (ID sent) then sent else x)
                   (dal.rows (db w)) = l1 ++ sent :: l2) as Hmap.
  { rewrite Hrows. apply map_replace_by_id; [|exact Hsid].
    rewrite <- Hrows. exact Hnd. }
  rewrite Hmap in HPut.
  assert (NoDup (List.map ID (l1 ++ sent :: l2))) as Hnd'.
  { rewrite List.map_app. cbn [List.map]. rewrite Hsid.
    rewrite Hrows, List.map_app in Hnd. exact Hnd. }
  exists (set_ApiKey sent plaintext), sent.
  eexists. eexists.
  split; [exact HPut|].
  rewrite getApiKeyById_eq. cbn [db dal.faults dal.rows].
  rewrite Hf''.
  change (dal.valid_clauses [dal.Where "id = ?" (dal.Uint id)]) with true.
  cbv iota.
  rewrite (find_ext_eq _ (fun r => N.eqb (ID r) id) _ (matches_id id)).
  assert (List.find (fun r => N.eqb (ID r) id) (l1 ++ sent :: l2)
          = Some sent) as Hfind.
  { rewrite <- Hoid, <- Hsid. apply find_id_middle. exact Hnd'. }
  rewrite Hfind.
  split; [reflexivity|].
  assert (ApiKey sent = h) as Hkey by apply rotated_record_ApiKey.
  rewrite DigestToken_eq. cbn [fst ApiKey set_ApiKey].
  rewrite Hkey. split; [reflexivity|].
  split; [rewrite <- Hkey; symmetry; apply set_ApiKey_back|].
  split; [congruence|].
  split; [unfold sent; destruct user; reflexivity | reflexivity].
Qed.

(** X12. A name is free again once its record is deleted: after a
    successful [Create] and the [Delete] of the record it issued,
    [Create] with the same name succeeds. *)
Theorem name_is_free_after_Delete (regexp_Compile : string -> option Error)
    (c : ApiKeyHelper) (tx tx' : dal.Dal) (user user' : option common_User)
    (name : string) (expiredAt expiredAt' : option Time)
    (allowedPath apiKeyType extra allowedPath' apiKeyType' extra' : string)
    (w : World) :
  regexp_Compile allowedPath = None ->
  regexp_Compile allowedPath' = None ->
  dal.name_taken name (db w) = false ->
  dal.wf (db w) = true ->
  (2 * apiKeyLen <= List.length (entropy w))%nat ->
  dal.quiet 4 (db w) = true ->
  exists issued w1 issued' w3,
    Create regexp_Compile c tx user name expiredAt allowedPath apiKeyType
           extra w = ((Some issued, None), w1) /\
    fst (Delete c (ID issued) w1) = None /\
    Create regexp_Compile c tx' user' name expiredAt' allowedPath'
           apiKeyType' extra' (snd (Delete c (ID issued) w1))
    = ((Some issued', None), w3) /\
    Name issued' = name /\
    List.map Name (dal.rows (db w3))
    = List.map Name (dal.rows (db w)) ++ [name].
Proof.
  intros Hre Hre' Hname Hwf Hent Hq.
  destruct (quiet_four _ Hq) as [Hf [Hf1 [Hf2 Hf3]]].
  assert (apiKeyLen <= List.length (entropy w))%nat as Hent1 by lia.
  pose proof (Create_wf regexp_Compile c tx user name expiredAt allowedPath
                apiKeyType extra w Hwf) as Hwf1.
  rewrite (Create_ok regexp_Compile c tx user name expiredAt allowedPath
             apiKeyType extra w Hre Hent1 Hf Hname) in Hwf1 |- *.
  cbv zeta in Hwf1 |- *. cbn [snd] in Hwf1.
  set (apiKey := utils.letters apiKeyLen (entropy w)) in *.
  set (sent := new_record user name expiredAt allowedPath apiKeyType extra
                 (clock w) (hmac_sha256_hex (encryptionSecret c) apiKey))
    in *.
  set (stored := set_ID sent (dal.next_id (db w))) in *.
  eexists. eexists. eexists. eexists.
  split; [reflexivity|].
  cbn [ID set_ApiKey].
  rewrite (Delete_found c (ID stored) _ (dal.rows (db w)) [] stored);
    [ | reflexivity | reflexivity | apply wf_NoDup; exact Hwf1
      | exact Hf1 | exact Hf2 ].
  cbn [fst snd]. split; [reflexivity|].
  rewrite List.app_nil_r.
  rewrite (Create_ok regexp_Compile c tx' user' name expiredAt' allowedPath'
             apiKeyType' extra');
    [ | exact Hre'
      | cbn [entropy]; rewrite List.length_skipn; lia
      | exact Hf3
      | exact Hname ].
  cbv zeta. split; [reflexivity|].
  split; [cbn [Name set_ApiKey set_ID]; apply new_record_Name|].
  cbn [db dal.rows]. rewrite List.map_app. cbn [List.map Name set_ID].
  rewrite new_record_Name. reflexivity.
Qed.

(** X13. Issue, then revoke: after a successful [Create] of a key of
    type ["plugin:" ++ pluginName] with a given [extra], on a
    well-formed table where no earlier record has that type and
    [extra], [DeleteForPlugin] for that plugin and [extra] succeeds and
    the table is back to what it was before the key was issued. *)
Theorem Create_then_DeleteForPlugin (regexp_Compile : string -> option Error)
    (c : ApiKeyHelper) (tx : dal.Dal) (user : option common_User)
    (name : string) (expiredAt : option Time)
    (allowedPath pluginName extra : string) (w : World) :
  regexp_Compile allowedPath = None ->
  dal.name_taken name (db w) = false ->
  dal.wf (db w) = true ->
  (apiKeyLen <= List.length (entropy w))%nat ->
  dal.quiet 3 (db w) = true ->
  List.existsb (plugin_match pluginName extra) (dal.rows (db w)) = false ->
  exists issued w1,
    Create regexp_Compile c tx user name expiredAt allowedPath
           ("plugin:" ++ pluginName) extra w = ((Some issued, None), w1) /\
    fst (DeleteForPlugin c tx pluginName extra w1) = None /\
    dal.rows (db (snd (DeleteForPlugin c tx pluginName extra w1)))
    = dal.rows (db w).
Proof.
  intros Hre Hname Hwf Hent Hq Hnone.
  destruct (quiet_three _ Hq) as [Hf [Hf1 Hf2]].
  pose proof (Create_wf regexp_Compile c tx user name expiredAt allowedPath
                ("plugin:" ++ pluginName) extra w Hwf) as Hwf1.
  rewrite (Create_ok regexp_Compile c tx user name expiredAt allowedPath
             ("plugin:" ++ pluginName) extra w Hre Hent Hf Hname)
    in Hwf1 |- *.
  cbv zeta in Hwf1 |- *. cbn [snd] in Hwf1.
  set (apiKey := utils.letters apiKeyLen (entropy w)) in *.
  set (sent := new_record user name expiredAt allowedPath
                 ("plugin:" ++ pluginName) extra
                 (clock w) (hmac_sha256_hex (encryptionSecret c) apiKey))
    in *.
  set (stored := set_ID sent (dal.next_id (db w))) in *.
  eexists. eexists. split; [reflexivity|].
  assert (plugin_match pluginName extra stored = true) as Hm.
  { unfold plugin_match, stored, sent. destruct user; cbn;
      rewrite !String.eqb_refl, !orb_true_r; reflexivity. }
  assert (List.find (plugin_match pluginName extra)
                    (dal.rows (db w) ++ [stored]) = Some stored) as Hfind.
  { apply find_app_last; [|exact Hm].
    apply List.forallb_forall. intros y Hy. apply negb_true_iff.
    destruct (plugin_match pluginName extra y) eqn:E; [|reflexivity].
    assert (List.existsb (plugin_match pluginName extra) (dal.rows (db w))
            = true) as Hex
      by (apply List.existsb_exists; exists y; auto).
    congruence. }
  assert (N.eqb (ID stored) 0 = false) as Hid0.
  { apply N.eqb_neq. cbn [ID stored set_ID].
    apply wf_iff in Hwf. destruct Hwf as [H0 _]. lia. }
  rewrite DeleteForPlugin_paths. cbv zeta.
  cbn [db dal.faults dal.rows dal.next_id].
  rewrite Hf1, Hfind, Hf2, Hid0.
  cbn [fst snd db dal.rows dal.with_rows]. split; [reflexivity|].
  rewrite (filter_by_id (dal.rows (db w)) [] stored).
  - apply List.app_nil_r.
  - apply wf_NoDup in Hwf1. exact Hwf1.
Qed.

(** X14. Revocation is idempotent: when exactly one record passes the
    filters, on a well-formed table, a first [DeleteForPlugin] removes
    it and a second one right after succeeds too and changes nothing. *)
Theorem DeleteForPlugin_twice (c : ApiKeyHelper) (tx : dal.Dal)
    (pluginName extra : string) (w : World) :
  dal.wf (db w) = true ->
  dal.quiet 3 (db w) = true ->
  List.length (List.filter (plugin_match pluginName extra) (dal.rows (db w)))
  = 1%nat ->
  fst (DeleteForPlugin c tx pluginName extra w) = None /\
  dal.rows (db (snd (DeleteForPlugin c tx pluginName extra w)))
  = List.filter (fun y => negb (plugin_match pluginName extra y))
                (dal.rows (db w)) /\
  fst (DeleteForPlugin c tx pluginName extra
         (snd (DeleteForPlugin c tx pluginName extra w))) = None /\
  dal.rows (db (snd (DeleteForPlugin c tx pluginName extra
                       (snd (DeleteForPlugin c tx pluginName extra w)))))
  = dal.rows (db (snd (DeleteForPlugin c tx pluginName extra w))).
Proof.
  intros Hwf Hq Hone.
  destruct (quiet_three _ Hq) as [Hf [Hf1 Hf2]].
  set (pm := plugin_match pluginName extra) in *.
  destruct (List.find pm (dal.rows (db w))) as [x|] eqn:Efind.
  2:{ exfalso.
      assert (List.filter pm (dal.rows (db w)) = []) as E.
      { clear Hone. induction (dal.rows (db w)) as [|a l IH]; simpl in *;
          [reflexivity|].
        destruct (pm a); [discriminate|]. apply IH, Efind. }
      rewrite E in Hone. discriminate. }
  destruct (find_split _ _ _ Efind) as [l1 [l2 [Hrows [Hx Hl1]]]].
  assert (List.filter pm l1 = []) as El1.
  { clear -Hl1. induction l1 as [|a l IH]; simpl in *; [reflexivity|].
    apply andb_true_iff in Hl1. destruct Hl1 as [Ha Hl].
    apply negb_true_iff in Ha. rewrite Ha. apply IH, Hl. }
  assert (List.filter pm l2 = []) as El2.
  { rewrite Hrows, List.filter_app in Hone. simpl in Hone.
    rewrite El1, Hx in Hone. simpl in Hone.
    destruct (List.filter pm l2); [reflexivity|discriminate]. }
  assert (forall l, List.filter pm l = [] ->
                    List.filter (fun y => negb (pm y)) l = l /\
                    List.find pm l = None) as Hnone.
  { induction l as [|a l IH]; simpl; [auto|].
    destruct (pm a); [discriminate|]. intro E. simpl.
    destruct (IH E) as [-> ->]. auto. }
  destruct (Hnone l1 El1) as [Hk1 Hn1].
  destruct (Hnone l2 El2) as [Hk2 Hn2].
  assert (N.eqb (ID x) 0 = false) as Hx0.
  { apply N.eqb_neq. intro E.
    assert (In x (dal.rows (db w))) as Hin
      by (rewrite Hrows; apply List.in_elt).
    apply wf_iff in Hwf. destruct Hwf as [_ [Hids _]].
    apply In_ids, Hids in Hin. lia. }
  rewrite (DeleteForPlugin_paths c tx pluginName extra w). cbv zeta.
  fold pm. rewrite Hf, Efind, Hf1, Hx0. cbn [fst snd].
  assert (List.filter (fun y => negb (N.eqb (ID y) (ID x))) (dal.rows (db w))
          = l1 ++ l2) as Hdel.
  { rewrite Hrows. apply filter_by_id. rewrite <- Hrows.
    apply wf_NoDup, Hwf. }
  rewrite Hdel.
  split; [reflexivity|]. split.
  { cbn [db dal.rows dal.with_rows]. rewrite Hrows, List.filter_app.
    simpl. rewrite Hx, Hk1, Hk2. reflexivity. }
  rewrite DeleteForPlugin_paths. cbv zeta. fold pm.
  cbn [db dal.faults dal.rows dal.with_rows dal.enter snd].
  rewrite Hf2.
  assert (List.find pm (l1 ++ l2) = None) as Hgone.
  { clear -Hn1 Hn2. induction l1 as [|a l IH]; simpl in *; [exact Hn2|].
    destruct (pm a); [discriminate|]. apply IH, Hn1. }
  rewrite Hgone. cbn [fst snd db dal.rows]. split; reflexivity.
Qed.

(** X15. When no record passes the filters, [DeleteForPlugin] returns
    success, yet it writes the not-found error of the lookup to the
    log; the persistence layer receives the lookup and no delete. *)
Theorem DeleteForPlugin_no_match_is_logged (c : ApiKeyHelper) (tx : dal.Dal)
    (pluginName extra : string) (w : World) :
  dal.quiet 1 (db w) = true ->
  List.existsb (plugin_match pluginName extra) (dal.rows (db w)) = false ->
  fst (DeleteForPlugin c tx pluginName extra w) = None /\
  log (snd (DeleteForPlugin c tx pluginName extra w))
  = log w ++ [(dal.NotFoundError, "query api key record")] /\
  dal.calls (db (snd (DeleteForPlugin c tx pluginName extra w)))
  = dal.calls (db w) ++ [dal.CallFirst (plugin_clauses pluginName extra)].
Proof.
  intros Hq Hnone.
  destruct (quiet_succ 0 _ (dal.CallFirst []) Hq) as [Hf _].
  rewrite DeleteForPlugin_paths. cbv zeta. rewrite Hf.
  destruct (List.find (plugin_match pluginName extra) (dal.rows (db w)))
    as [x|] eqn:Efind.
  - exfalso. apply List.find_some in Efind. destruct Efind as [Hin Hm].
    assert (List.existsb (plugin_match pluginName extra) (dal.rows (db w))
            = true) as Hex
      by (apply List.existsb_exists; exists x; auto).
    congruence.
  - cbn [fst snd db log dal.enter dal.calls]. repeat split; reflexivity.
Qed.

(** ** What an operation leaves alone *)

Lemma find_id_app_keep (j : N) (l l' : list models_ApiKey) :
  List.existsb (fun r => N.eqb (ID r) j) l = true ->
  List.find (fun r => N.eqb (ID r) j) (l ++ l')
  = List.find (fun r => N.eqb (ID r) j) l.
Proof.
  induction l as [|a l IH]; simpl; [discriminate|].
  destruct (N.eqb (ID a) j); [reflexivity|]. simpl. exact IH.
Qed.

Lemma find_id_map_other (j : N) (r : models_ApiKey)
    (l : list models_ApiKey) :
  j <> ID r ->
  List.find (fun x => N.eqb (ID x) j)
    (List.map (fun x => if N.eqb (ID x) (ID r) then r else x) l)
  = List.find (fun x => N.eqb (ID x) j) l.
Proof.
  intro Hj. induction l as [|a l IH]; simpl; [reflexivity|].
  destruct (N.eqb_spec (ID a) (ID r)) as [E|E].
  - replace (N.eqb (ID r) j) with false
      by (symmetry; apply N.eqb_neq; congruence).
    replace (N.eqb (ID a) j) with false
      by (symmetry; apply N.eqb_neq; congruence).
    exact IH.
  - destruct (N.eqb (ID a) j); [reflexivity|exact IH].
Qed.

Lemma find_id_filter_other (j id : N) (l : list models_ApiKey) :
  j <> id ->
  List.find (fun x => N.eqb (ID x) j)
    (List.filter (fun x => negb (N.eqb (ID x) id)) l)
  = List.find (fun x => N.eqb (ID x) j) l.
Proof.
  intro Hj. induction l as [|a l IH]; simpl; [reflexivity|].
  destruct (N.eqb_spec (ID a) id) as [E|E]; simpl.
  - replace (N.eqb (ID a) j) with false
      by (symmetry; apply N.eqb_neq; congruence).
    exact IH.
  - destruct (N.eqb (ID a) j); [reflexivity|exact IH].
Qed.

(** X16. [Create] never changes or hides a stored record: whatever its
    arguments and its outcome, the record found under an identifier
    that was in the table is the same before and after. *)
Theorem Create_keeps_existing_records
    (regexp_Compile : string -> option Error)
    (c : ApiKeyHelper) (tx : dal.Dal) (user : option common_User)
    (name : string) (expiredAt : option Time)
    (allowedPath apiKeyType extra : string) (w : World) (j : N) :
  dal.has_id j (db w) = true ->
  List.find (fun r => N.eqb (ID r) j)
    (dal.rows (db (snd (Create regexp_Compile c tx user name expiredAt
                               allowedPath apiKeyType extra w))))
  = List.find (fun r => N.eqb (ID r) j) (dal.rows (db w)).
Proof.
  intro Hj. rewrite Create_eq.
  destruct (regexp_Compile allowedPath); [reflexivity|].
  destruct (List.length (entropy w) <? apiKeyLen)%nat; [reflexivity|].
  cbv zeta.
  destruct (List.hd None (dal.faults (db w))); [reflexivity|].
  destruct (dal.name_taken name (db w)); [reflexivity|].
  cbn [snd db dal.rows dal.with_rows].
  apply find_id_app_keep. exact Hj.
Qed.

(** X17. [Put] and [Delete] of an identifier never touch the record
    stored under another identifier: whatever the outcome, the record
    found under [j], with [j] different from [id], is the same before
    and after. *)
Theorem Put_and_Delete_leave_other_records (c : ApiKeyHelper)
    (user : option common_User) (id j : N) (w : World) :
  j <> id ->
  List.find (fun r => N.eqb (ID r) j) (dal.rows (db (snd (Put c user id w))))
  = List.find (fun r => N.eqb (ID r) j) (dal.rows (db w)) /\
  List.find (fun r => N.eqb (ID r) j) (dal.rows (db (snd (Delete c id w))))
  = List.find (fun r => N.eqb (ID r) j) (dal.rows (db w)).
Proof.
  intro Hj. split.
  - rewrite Put_eq. cbv zeta.
    destruct (List.hd None (dal.faults (db w))); [reflexivity|].
    destruct (List.find (fun r => N.eqb (ID r) id) (dal.rows (db w)))
      as [old|] eqn:Eold; [|reflexivity].
    destruct (List.length (entropy w) <? apiKeyLen)%nat; [reflexivity|].
    destruct (List.hd None (List.tl (dal.faults (db w)))); [reflexivity|].
    cbn [snd db dal.rows dal.with_rows].
    apply find_id_map_other. rewrite rotated_record_ID.
    apply List.find_some in Eold. destruct Eold as [_ E].
    apply N.eqb_eq in E. congruence.
  - rewrite Delete_eq. cbv zeta.
    destruct (List.hd None (dal.faults (db w))); [reflexivity|].
    destruct (List.find (fun r => N.eqb (ID r) id) (dal.rows (db w)));
      [|reflexivity].
    destruct (List.hd None (List.tl (dal.faults (db w)))); [reflexivity|].
    cbn [snd db dal.rows dal.with_rows].
    apply find_id_filter_other. exact Hj.
Qed.

(** ** What is issued and what is stored *)

(** X18. A successful [Create] returns the record with the arguments as
    given, the identifier assigned by the persistence layer, both
    timestamps set to the clock, creator and updater set to the acting
    user (all four fields empty without one) and the plaintext in the
    key field.  The persistence layer has received one call, the
    insert of that record with the digest of the plaintext in the key
    field; the row added is the record returned with the digest in
    place of the plaintext; nothing is logged. *)
Theorem Create_issues_the_record (regexp_Compile : string -> option Error)
    (c : ApiKeyHelper) (tx : dal.Dal) (user : option common_User)
    (name : string) (expiredAt : option Time)
    (allowedPath apiKeyType extra : string) (w : World) :
  regexp_Compile allowedPath = None ->
  dal.name_taken name (db w) = false ->
  (apiKeyLen <= List.length (entropy w))%nat ->
  dal.quiet 1 (db w) = true ->
  exists issued digest w1,
    Create regexp_Compile c tx user name expiredAt allowedPath apiKeyType
           extra w = ((Some issued, None), w1) /\
    fst (DigestToken c (ApiKey issued) w1) = (digest, None) /\
    (ID issued = dal.next_id (db w) /\ Name issued = name /\
     ExpiredAt issued = expiredAt /\ AllowedPath issued = allowedPath /\
     Type_ issued = apiKeyType /\ Extra issued = extra /\
     CreatedAt issued = clock w /\ UpdatedAt issued = clock w) /\
    (Creator issued, CreatorEmail issued, Updater issued, UpdaterEmail issued)
    = match user with
      | Some u => (user_Name u, user_Email u, user_Name u, user_Email u)
      | None => ("", "", "", "")
      end /\
    String.length (ApiKey issued) = apiKeyLen /\
    dal.rows (db w1) = dal.rows (db w) ++ [set_ApiKey issued digest] /\
    dal.calls (db w1)
    = dal.calls (db w) ++ [dal.CallCreate (set_ID (set_ApiKey issued digest) 0)] /\
    log w1 = log w.
Proof.
  intros Hre Hname Hent Hq.
  destruct (quiet_succ 0 _ (dal.CallFirst []) Hq) as [Hf _].
  rewrite (Create_ok regexp_Compile c tx user name expiredAt allowedPath
             apiKeyType extra w Hre Hent Hf Hname).
  cbv zeta. eexists. eexists. eexists.
  split; [reflexivity|].
  rewrite DigestToken_eq. cbn [fst ApiKey set_ApiKey].
  split; [reflexivity|].
  split; [destruct user; repeat split; reflexivity|].
  split; [destruct user; reflexivity|].
  split; [apply letters_length; exact Hent|].
  cbn [db dal.rows dal.calls log].
  split; [destruct user; reflexivity|].
  split; [destruct user; reflexivity|reflexivity].
Qed.

Lemma hexdigit_is_lower_hex (d : Z) : is_lower_hex (fmt.hexdigit d) = true.
Proof.
  unfold fmt.hexdigit.
  destruct d as [|q|q]; try reflexivity.
  do 4 (try destruct q as [q|q|]); reflexivity.
Qed.

Lemma hex_is_lower_hex (b : list Z) :
  string_forallb is_lower_hex (fmt.hex b) = true.
Proof.
  induction b as [|x b IH]; simpl; [reflexivity|].
  rewrite !hexdigit_is_lower_hex, IH. reflexivity.
Qed.

(** X19. [DigestToken] never fails and has no effect: for every secret
    and every token, of any length, it returns a digest of 64
    characters, each a digit or a letter from [a] to [f], and no error;
    it logs nothing and changes nothing. *)
Theorem DigestToken_format (c : ApiKeyHelper) (token : string) (w : World) :
  exists digest,
    DigestToken c token w = ((digest, None), w) /\
    String.length digest = 64%nat /\
    string_forallb is_lower_hex digest = true.
Proof.
  exists (hmac_sha256_hex (encryptionSecret c) token).
  split; [apply DigestToken_eq|].
  split; [apply hmac_sha256_hex_length|].
  unfold hmac_sha256_hex. apply hex_is_lower_hex.
Qed.

(** ** Invariants of the table *)

Lemma NoDup_map_eq_in {A B : Type} (f : A -> B) (l : list A) (x y : A) :
  NoDup (List.map f l) -> In x l -> In y l -> f x = f y -> x = y.
Proof.
  induction l as [|a l IH]; simpl; intros Hnd Hx Hy E; [contradiction|].
  inversion Hnd as [|? ? Hni Hnd']; subst.
  destruct Hx as [Hx|Hx], Hy as [Hy|Hy]; subst.
  - reflexivity.
  - exfalso. apply Hni. rewrite E. apply List.in_map, Hy.
  - exfalso. apply Hni. rewrite <- E. apply List.in_map, Hx.
  - apply IH; assumption.
Qed.

Lemma NoDup_map_filter {A B : Type} (f : A -> B) (p : A -> bool)
    (l : list A) :
  NoDup (List.map f l) -> NoDup (List.map f (List.filter p l)).
Proof.
  induction l as [|a l IH]; simpl; intro Hnd; [constructor|].
  inversion Hnd as [|? ? Hni Hnd']; subst.
  destruct (p a); [|apply IH, Hnd'].
  simpl. constructor; [|apply IH, Hnd'].
  intro Hin. apply Hni. apply List.in_map_iff in Hin.
  destruct Hin as [x [Hx Hin]]. apply List.filter_In in Hin.
  apply List.in_map_iff. exists x. tauto.
Qed.

Lemma name_taken_In (name : string) (s : dal.Store) :
  dal.name_taken name s = false -> ~ In name (names s).
Proof.
  unfold dal.name_taken, names. intros H Hin.
  apply List.in_map_iff in Hin. destruct Hin as [x [Hx Hin]].
  assert (List.existsb (fun r => String.eqb (Name r) name) (dal.rows s)
          = true) as E.
  { apply List.existsb_exists. exists x. split; [exact Hin|].
    rewrite Hx. apply String.eqb_refl. }
  congruence.
Qed.

(** The part of the invariant that concerns names and keys. *)
Lemma rows_good_filter (p : models_ApiKey -> bool) (l : list models_ApiKey) :
  NoDup (List.map Name l) /\ (forall r, In r l -> is_digest (ApiKey r)) ->
  NoDup (List.map Name (List.filter p l)) /\
  (forall r, In r (List.filter p l) -> is_digest (ApiKey r)).
Proof.
  intros [Hn Hd]. split; [apply NoDup_map_filter, Hn|].
  intros r Hr. apply List.filter_In in Hr. apply Hd, Hr.
Qed.

Lemma Create_rows_good (regexp_Compile : string -> option Error)
    (c : ApiKeyHelper) (tx : dal.Dal) (user : option common_User)
    (name : string) (expiredAt : option Time)
    (allowedPath apiKeyType extra : string) (w : World) :
  NoDup (names (db w)) /\
  (forall r, In r (dal.rows (db w)) -> is_digest (ApiKey r)) ->
  NoDup (names (db (snd (Create regexp_Compile c tx user name expiredAt
                                allowedPath apiKeyType extra w)))) /\
  (forall r,
     In r (dal.rows (db (snd (Create regexp_Compile c tx user name expiredAt
                                     allowedPath apiKeyType extra w)))) ->
     is_digest (ApiKey r)).
Proof.
  intros [Hn Hd]. rewrite Create_eq.
  destruct (regexp_Compile allowedPath); [split; assumption|].
  destruct (List.length (entropy w) <? apiKeyLen)%nat eqn:Hent;
    [split; assumption|].
  cbv zeta.
  destruct (List.hd None (dal.faults (db w))); [split; assumption|].
  destruct (dal.name_taken name (db w)) eqn:Hname; [split; assumption|].
  unfold names in *. cbn [snd db dal.rows dal.with_rows].
  apply Nat.ltb_ge in Hent. split.
  - rewrite List.map_app. cbn [List.map Name set_ID].
    rewrite new_record_Name.
    apply NoDup_app; [exact Hn | repeat constructor; intros [] |].
    intros a Ha [E|[]]. subst a.
    exact (name_taken_In name (db w) Hname Ha).
  - intros r Hr. apply List.in_app_or in Hr. destruct Hr as [Hr|[Hr|[]]].
    + apply Hd, Hr.
    + subst r. cbn [ApiKey set_ID]. rewrite new_record_ApiKey.
      exists (encryptionSecret c), (utils.letters apiKeyLen (entropy w)).
      split; [apply letters_length; exact Hent | reflexivity].
Qed.

Lemma Put_rows_good (c : ApiKeyHelper) (user : option common_User) (id : N)
    (w : World) :
  dal.wf (db w) = true ->
  NoDup (names (db w)) /\
  (forall r, In r (dal.rows (db w)) -> is_digest (ApiKey r)) ->
  NoDup (names (db (snd (Put c user id w)))) /\
  (forall r, In r (dal.rows (db (snd (Put c user id w)))) ->
             is_digest (ApiKey r)).
Proof.
  intros Hwf [Hn Hd]. rewrite Put_eq. cbv zeta.
  destruct (List.hd None (dal.faults (db w))); [split; assumption|].
  destruct (List.find (fun r => N.eqb (ID r) id) (dal.rows (db w)))
    as [old|] eqn:Eold; [|split; assumption].
  destruct (List.length (entropy w) <? apiKeyLen)%nat eqn:Hent;
    [split; assumption|].
  destruct (List.hd None (List.tl (dal.faults (db w))));
    [split; assumption|].
  unfold names in *. cbn [snd db dal.rows dal.with_rows].
  apply Nat.ltb_ge in Hent.
  apply List.find_some in Eold. destruct Eold as [Hold _].
  pose proof (wf_NoDup _ Hwf) as Hnd.
  set (sent := rotated_record user old (clock w) _).
  assert (ID sent = ID old) as Hsid by apply rotated_record_ID.
  split.
  - rewrite List.map_map.
    rewrite (List.map_ext_in
               (fun x => Name (if N.eqb (ID x) (ID sent) then sent else x))
               Name); [exact Hn|].
    intros x Hx. destruct (N.eqb_spec (ID x) (ID sent)) as [E|E];
      [|reflexivity].
    assert (x = old) as ->
      by (apply (NoDup_map_eq_in ID (dal.rows (db w))); congruence).
    unfold sent. destruct user; reflexivity.
  - intros r Hr. apply List.in_map_iff in Hr. destruct Hr as [x [Hx Hin]].
    destruct (N.eqb (ID x) (ID sent)); [|subst r; apply Hd, Hin].
    subst r. unfold sent. rewrite rotated_record_ApiKey.
    exists (encryptionSecret c), (utils.letters apiKeyLen (entropy w)).
    split; [apply letters_length; exact Hent | reflexivity].
Qed.

Lemma Delete_rows_good (c : ApiKeyHelper) (id : N) (w : World) :
  NoDup (names (db w)) /\
  (forall r, In r (dal.rows (db w)) -> is_digest (ApiKey r)) ->
  NoDup (names (db (snd (Delete c id w)))) /\
  (forall r, In r (dal.rows (db (snd (Delete c id w)))) ->
             is_digest (ApiKey r)).
Proof.
  intro H. rewrite Delete_eq. cbv zeta.
  destruct (List.hd None (dal.faults (db w))); [exact H|].
  destruct (List.find _ _); [|exact H].
  destruct (List.hd None (List.tl (dal.faults (db w)))); [exact H|].
  unfold names in *. cbn [snd db dal.rows dal.with_rows].
  apply rows_good_filter, H.
Qed.

Lemma DeleteForPlugin_rows_good (c : ApiKeyHelper) (tx : dal.Dal)
    (pluginName extra : string) (w : World) :
  NoDup (names (db w)) /\
  (forall r, In r (dal.rows (db w)) -> is_digest (ApiKey r)) ->
  NoDup (names (db (snd (DeleteForPlugin c tx pluginName extra w)))) /\
  (forall r,
     In r (dal.rows (db (snd (DeleteForPlugin c tx pluginName extra w)))) ->
     is_digest (ApiKey r)).
Proof.
  intro H. rewrite DeleteForPlugin_paths. cbv zeta.
  destruct (List.hd None (dal.faults (db w))); [exact H|].
  destruct (List.find _ _) as [x|]; [|exact H].
  destruct (List.hd None (List.tl (dal.faults (db w)))); [exact H|].
  destruct (N.eqb (ID x) 0); [exact H|].
  unfold names in *. cbn [snd db dal.rows dal.with_rows].
  apply rows_good_filter, H.
Qed.

Lemma reachable_rows_good (regexp_Compile : string -> option Error)
    (w : World) :
  reachable regexp_Compile w ->
  NoDup (names (db w)) /\
  (forall r, In r (dal.rows (db w)) -> is_digest (ApiKey r)).
Proof.
  induction 1 as [w Hrows Hnext | w w' Hreach IH Hstep].
  - unfold names. rewrite Hrows. split; [constructor | intros r []].
  - pose proof (reachable_wf _ _ Hreach) as Hwf.
    destruct Hstep.
    + apply Create_rows_good, IH.
    + apply Create_rows_good, IH.
    + apply Put_rows_good; assumption.
    + apply Delete_rows_good, IH.
    + apply DeleteForPlugin_rows_good, IH.
    + rewrite getApiKeyById_eq. exact IH.
    + rewrite GetApiKey_eq. exact IH.
    + unfold names in *.
      match goal with
      | Hr : dal.rows _ = _ |- _ => rewrite Hr
      end.
      exact IH.
Qed.

(** X20. The plaintext is never stored: in every world the helper can
    bring about, starting from an empty table, the key field of every
    row is a digest (the HMAC-SHA256, in hexadecimal, of a token of 128
    characters under the secret of a helper), hence a string of 64
    characters and not a secret of 128. *)
Theorem stored_keys_are_digests (regexp_Compile : string -> option Error)
    (w : World) (r : models_ApiKey) :
  reachable regexp_Compile w ->
  In r (dal.rows (db w)) ->
  is_digest (ApiKey r) /\ String.length (ApiKey r) = 64%nat.
Proof.
  intros Hreach Hr.
  destruct (reachable_rows_good _ _ Hreach) as [_ Hd].
  pose proof (Hd r Hr) as Hdig. split; [exact Hdig|].
  destruct Hdig as [secret [token [_ ->]]]. apply hmac_sha256_hex_length.
Qed.

(** X21. Names stay unique: in every world the helper can bring about,
    starting from an empty table, no two rows have the same name, and
    no two rows have the same identifier. *)
Theorem stored_names_are_unique (regexp_Compile : string -> option Error)
    (w : World) :
  reachable regexp_Compile w ->
  NoDup (names (db w)) /\ NoDup (dal.ids (db w)).
Proof.
  intro Hreach. split.
  - apply (reachable_rows_good _ _ Hreach).
  - apply wf_NoDup. exact (reachable_wf _ _ Hreach).
Qed.

(** ** The further properties at concrete inputs *)

Lemma Delete_removes_the_record_witness :
  (dal.wf (db examples.three_keys) = true) /\
  (dal.quiet 2 (db examples.three_keys) = true) /\
  (dal.has_id 1%N (db examples.three_keys) = true) /\
  (fst (Delete examples.helper 1%N examples.three_keys) = None /\
    (exists l1 x l2,
       ID x = 1%N /\
       dal.rows (db examples.three_keys) = l1 ++ x :: l2 /\
       dal.rows (db (snd (Delete examples.helper 1%N examples.three_keys))) = l1 ++ l2) /\
    dal.has_id 1%N (db (snd (Delete examples.helper 1%N examples.three_keys))) = false /\
    dal.calls (db (snd (Delete examples.helper 1%N examples.three_keys)))
    = dal.calls (db examples.three_keys) ++
      [dal.CallFirst [dal.Where "id = ?" (dal.Uint 1%N)];
       dal.CallDelete zero_ApiKey [dal.Where "id = ?" (dal.Uint 1%N)]] /\
    log (snd (Delete examples.helper 1%N examples.three_keys)) = log examples.three_keys).
Proof.
  assert (dal.wf (db examples.three_keys) = true) as h1
    by (vm_compute; reflexivity).
  assert (dal.quiet 2 (db examples.three_keys) = true) as h2
    by (vm_compute; reflexivity).
  assert (dal.has_id 1%N (db examples.three_keys) = true) as h3
    by (vm_compute; reflexivity).
  exact (conj h1 (conj h2 (conj h3 (Delete_removes_the_record examples.helper 1%N examples.three_keys h1 h2 h3)))).
Defined.

Lemma Delete_twice_second_not_found_witness :
  (dal.wf (db examples.three_keys) = true) /\
  (dal.quiet 3 (db examples.three_keys) = true) /\
  (dal.has_id 2%N (db examples.three_keys) = true) /\
  (fst (Delete examples.helper 2%N examples.three_keys) = None /\
    fst (getApiKeyById examples.helper None 2%N [] (snd (Delete examples.helper 2%N examples.three_keys)))
    = (None, Some (NotFoundError dal.NotFoundError 2%N)) /\
    fst (Delete examples.helper 2%N (snd (Delete examples.helper 2%N examples.three_keys)))
    = Some (NotFoundError dal.NotFoundError 2%N) /\
    dal.rows (db (snd (Delete examples.helper 2%N (snd (Delete examples.helper 2%N examples.three_keys)))))
    = dal.rows (db (snd (Delete examples.helper 2%N examples.three_keys)))).
Proof.
  assert (dal.wf (db examples.three_keys) = true) as h1
    by (vm_compute; reflexivity).
  assert (dal.quiet 3 (db examples.three_keys) = true) as h2
    by (vm_compute; reflexivity).
  assert (dal.has_id 2%N (db examples.three_keys) = true) as h3
    by (vm_compute; reflexivity).
  exact (conj h1 (conj h2 (conj h3 (Delete_twice_second_not_found examples.helper None 2%N examples.three_keys h1 h2 h3)))).
Defined.


Lemma Create_persistence_fault_witness :
  (sample.Compile "/api/.*" = None) /\
  ((apiKeyLen <= List.length (entropy examples.failing))%nat) /\
  (List.hd None (dal.faults (db examples.failing)) = Some ("connection lost")) /\
  (fst (Create sample.Compile examples.helper dal.Conn None "deploy" None "/api/.*"
                "user" "" examples.failing)
    = (None,
       Some (PersistenceError (dal.OtherError ("connection lost"))
                              "error creating DB api key")) /\
    dal.rows (db (snd (Create sample.Compile examples.helper dal.Conn None "deploy" None
                              "/api/.*" "user" "" examples.failing)))
    = dal.rows (db examples.failing) /\
    dal.next_id (db (snd (Create sample.Compile examples.helper dal.Conn None "deploy" None
                                 "/api/.*" "user" "" examples.failing)))
    = dal.next_id (db examples.failing) /\
    entropy (snd (Create sample.Compile examples.helper dal.Conn None "deploy" None
                         "/api/.*" "user" "" examples.failing))
    = List.skipn apiKeyLen (entropy examples.failing)).
Proof.
  assert (sample.Compile "/api/.*" = None) as h1
    by (vm_compute; reflexivity).
  assert ((apiKeyLen <= List.length (entropy examples.failing))%nat) as h2
    by (apply Nat.leb_le; vm_compute; reflexivity).
  assert (List.hd None (dal.faults (db examples.failing)) = Some ("connection lost")) as h3
    by (vm_compute; reflexivity).
  exact (conj h1 (conj h2 (conj h3 (Create_persistence_fault sample.Compile examples.helper dal.Conn None "deploy" None "/api/.*" "user" "" examples.failing ("connection lost") h1 h2 h3)))).
Defined.


Lemma Put_update_fault_witness :
  (dal.has_id 1%N (db examples.failing_later) = true) /\
  ((apiKeyLen <= List.length (entropy examples.failing_later))%nat) /\
  (List.hd None (dal.faults (db examples.failing_later)) = None) /\
  (List.hd None (List.tl (dal.faults (db examples.failing_later))) = Some "deadlock") /\
  (fst (Put examples.helper (Some examples.alice) 1%N examples.failing_later)
    = (None,
       Some (PersistenceError (dal.OtherError "deadlock") "error deleting api key")) /\
    dal.rows (db (snd (Put examples.helper (Some examples.alice) 1%N examples.failing_later))) = dal.rows (db examples.failing_later) /\
    entropy (snd (Put examples.helper (Some examples.alice) 1%N examples.failing_later)) = List.skipn apiKeyLen (entropy examples.failing_later)).
Proof.
  assert (dal.has_id 1%N (db examples.failing_later) = true) as h1
    by (vm_compute; reflexivity).
  assert ((apiKeyLen <= List.length (entropy examples.failing_later))%nat) as h2
    by (apply Nat.leb_le; vm_compute; reflexivity).
  assert (List.hd None (dal.faults (db examples.failing_later)) = None) as h3
    by (vm_compute; reflexivity).
  assert (List.hd None (List.tl (dal.faults (db examples.failing_later))) = Some "deadlock") as h4
    by (vm_compute; reflexivity).
  exact (conj h1 (conj h2 (conj h3 (conj h4 (Put_update_fault examples.helper (Some examples.alice) 1%N examples.failing_later "deadlock" h1 h2 h3 h4))))).
Defined.

Lemma lookup_fault_is_not_not_found_witness :
  (List.hd None (dal.faults (db examples.failing)) = Some ("connection lost")) /\
  (fst (getApiKeyById examples.helper None 1%N [] examples.failing)
    = (None,
       Some (PersistenceError (dal.OtherError ("connection lost"))
                              "error getting api key from DB")) /\
    (fst (Put examples.helper (Some examples.alice) 1%N examples.failing)
     = (None,
        Some (PersistenceError (dal.OtherError ("connection lost"))
                               "error getting api key from DB")) /\
     dal.rows (db (snd (Put examples.helper (Some examples.alice) 1%N examples.failing))) = dal.rows (db examples.failing) /\
     dal.calls (db (snd (Put examples.helper (Some examples.alice) 1%N examples.failing)))
     = dal.calls (db examples.failing) ++ [dal.CallFirst [dal.Where "id = ?" (dal.Uint 1%N)]] /\
     entropy (snd (Put examples.helper (Some examples.alice) 1%N examples.failing)) = entropy examples.failing) /\
    (fst (Delete examples.helper 1%N examples.failing)
     = Some (PersistenceError (dal.OtherError ("connection lost"))
                              "error getting api key from DB") /\
     dal.rows (db (snd (Delete examples.helper 1%N examples.failing))) = dal.rows (db examples.failing) /\
     dal.calls (db (snd (Delete examples.helper 1%N examples.failing)))
     = dal.calls (db examples.failing) ++ [dal.CallFirst [dal.Where "id = ?" (dal.Uint 1%N)]])).
Proof.
  assert (List.hd None (dal.faults (db examples.failing)) = Some ("connection lost")) as h1
    by (vm_compute; reflexivity).
  exact (conj h1 (lookup_fault_is_not_not_found examples.helper None (Some examples.alice) 1%N examples.failing ("connection lost") h1)).
Defined.

Lemma Delete_delete_fault_witness :
  (dal.has_id 1%N (db examples.failing_later) = true) /\
  (List.hd None (dal.faults (db examples.failing_later)) = None) /\
  (List.hd None (List.tl (dal.faults (db examples.failing_later))) = Some "deadlock") /\
  (fst (Delete examples.helper 1%N examples.failing_later)
    = Some (PersistenceError (dal.OtherError "deadlock") "error deleting api key") /\
    dal.rows (db (snd (Delete examples.helper 1%N examples.failing_later))) = dal.rows (db examples.failing_later)).
Proof.
  assert (dal.has_id 1%N (db examples.failing_later) = true) as h1
    by (vm_compute; reflexivity).
  assert (List.hd None (dal.faults (db examples.failing_later)) = None) as h2
    by (vm_compute; reflexivity).
  assert (List.hd None (List.tl (dal.faults (db examples.failing_later))) = Some "deadlock") as h3
    by (vm_compute; reflexivity).
  exact (conj h1 (conj h2 (conj h3 (Delete_delete_fault examples.helper 1%N examples.failing_later "deadlock" h1 h2 h3)))).
Defined.

Lemma DeleteForPlugin_propagates_faults_witness :
  (List.hd None (dal.faults (db examples.failing_later)) = Some "deadlock" \/
    (List.hd None (dal.faults (db examples.failing_later)) = None /\
     List.existsb (plugin_match "" "") (dal.rows (db examples.failing_later)) = true /\
     List.hd None (List.tl (dal.faults (db examples.failing_later))) = Some "deadlock")) /\
  (fst (DeleteForPlugin examples.helper dal.Conn "" "" examples.failing_later) = Some (dal.OtherError "deadlock") /\
    dal.rows (db (snd (DeleteForPlugin examples.helper dal.Conn "" "" examples.failing_later)))
    = dal.rows (db examples.failing_later) /\
    (List.hd None (dal.faults (db examples.failing_later)) = Some "deadlock" ->
     dal.calls (db (snd (DeleteForPlugin examples.helper dal.Conn "" "" examples.failing_later)))
     = dal.calls (db examples.failing_later) ++ [dal.CallFirst (plugin_clauses "" "")])).
Proof.
  assert (List.hd None (dal.faults (db examples.failing_later)) = Some "deadlock" \/
    (List.hd None (dal.faults (db examples.failing_later)) = None /\
     List.existsb (plugin_match "" "") (dal.rows (db examples.failing_later)) = true /\
     List.hd None (List.tl (dal.faults (db examples.failing_later))) = Some "deadlock")) as h1
    by (right; vm_compute; repeat split; reflexivity).
  exact (conj h1 (DeleteForPlugin_propagates_faults examples.helper dal.Conn "" "" examples.failing_later "deadlock" h1)).
Defined.

Lemma Put_then_Lookup_witness :
  (dal.wf (db examples.one_key) = true) /\
  (dal.quiet 3 (db examples.one_key) = true) /\
  ((apiKeyLen <= List.length (entropy examples.one_key))%nat) /\
  (dal.has_id 1%N (db examples.one_key) = true) /\
  (exists issued stored w1 w2,
      Put examples.helper (Some examples.alice) 1%N examples.one_key = ((Some issued, None), w1) /\
      getApiKeyById examples.helper None 1%N [] w1 = ((Some stored, None), w2) /\
      fst (DigestToken examples.helper (ApiKey issued) w2) = (ApiKey stored, None) /\
      stored = set_ApiKey issued (ApiKey stored) /\
      ID stored = 1%N /\
      UpdatedAt stored = clock examples.one_key /\
      log w1 = log examples.one_key).
Proof.
  assert (dal.wf (db examples.one_key) = true) as h1
    by (vm_compute; reflexivity).
  assert (dal.quiet 3 (db examples.one_key) = true) as h2
    by (vm_compute; reflexivity).
  assert ((apiKeyLen <= List.length (entropy examples.one_key))%nat) as h3
    by (apply Nat.leb_le; vm_compute; reflexivity).
  assert (dal.has_id 1%N (db examples.one_key) = true) as h4
    by (vm_compute; reflexivity).
  exact (conj h1 (conj h2 (conj h3 (conj h4 (Put_then_Lookup examples.helper None (Some examples.alice) 1%N examples.one_key h1 h2 h3 h4))))).
Defined.

Lemma name_is_free_after_Delete_witness :
  (sample.Compile "/api/.*" = None) /\
  (sample.Compile ".*" = None) /\
  (dal.name_taken "ci" (db examples.fresh) = false) /\
  (dal.wf (db examples.fresh) = true) /\
  ((2 * apiKeyLen <= List.length (entropy examples.fresh))%nat) /\
  (dal.quiet 4 (db examples.fresh) = true) /\
  (exists issued w1 issued' w3,
      Create sample.Compile examples.helper dal.Conn (Some examples.alice) "ci" None "/api/.*" "user"
             "" examples.fresh = ((Some issued, None), w1) /\
      fst (Delete examples.helper (ID issued) w1) = None /\
      Create sample.Compile examples.helper dal.Conn None "ci" (Some 5000) ".*"
             "plugin:webhook" "7" (snd (Delete examples.helper (ID issued) w1))
      = ((Some issued', None), w3) /\
      Name issued' = "ci" /\
      List.map Name (dal.rows (db w3))
      = List.map Name (dal.rows (db examples.fresh)) ++ ["ci"]).
Proof.
  assert (sample.Compile "/api/.*" = None) as h1
    by (vm_compute; reflexivity).
  assert (sample.Compile ".*" = None) as h2
    by (vm_compute; reflexivity).
  assert (dal.name_taken "ci" (db examples.fresh) = false) as h3
    by (vm_compute; reflexivity).
  assert (dal.wf (db examples.fresh) = true) as h4
    by (vm_compute; reflexivity).
  assert ((2 * apiKeyLen <= List.length (entropy examples.fresh))%nat) as h5
    by (apply Nat.leb_le; vm_compute; reflexivity).
  assert (dal.quiet 4 (db examples.fresh) = true) as h6
    by (vm_compute; reflexivity).
  exact (conj h1 (conj h2 (conj h3 (conj h4 (conj h5 (conj h6 (name_is_free_after_Delete sample.Compile examples.helper dal.Conn dal.Conn (Some examples.alice) None "ci" None (Some 5000) "/api/.*" "user" "" ".*" "plugin:webhook" "7" examples.fresh h1 h2 h3 h4 h5 h6))))))).
Defined.

Lemma Create_then_DeleteForPlugin_witness :
  (sample.Compile "/plugins/webhook/7/.*" = None) /\
  (dal.name_taken "hook" (db examples.one_key) = false) /\
  (dal.wf (db examples.one_key) = true) /\
  ((apiKeyLen <= List.length (entropy examples.one_key))%nat) /\
  (dal.quiet 3 (db examples.one_key) = true) /\
  (List.existsb (plugin_match "webhook" "7") (dal.rows (db examples.one_key)) = false) /\
  (exists issued w1,
      Create sample.Compile examples.helper dal.Conn None "hook" None "/plugins/webhook/7/.*"
             ("plugin:" ++ "webhook") "7" examples.one_key = ((Some issued, None), w1) /\
      fst (DeleteForPlugin examples.helper dal.Conn "webhook" "7" w1) = None /\
      dal.rows (db (snd (DeleteForPlugin examples.helper dal.Conn "webhook" "7" w1)))
      = dal.rows (db examples.one_key)).
Proof.
  assert (sample.Compile "/plugins/webhook/7/.*" = None) as h1
    by (vm_compute; reflexivity).
  assert (dal.name_taken "hook" (db examples.one_key) = false) as h2
    by (vm_compute; reflexivity).
  assert (dal.wf (db examples.one_key) = true) as h3
    by (vm_compute; reflexivity).
  assert ((apiKeyLen <= List.length (entropy examples.one_key))%nat) as h4
    by (apply Nat.leb_le; vm_compute; reflexivity).
  assert (dal.quiet 3 (db examples.one_key) = true) as h5
    by (vm_compute; reflexivity).
  assert (List.existsb (plugin_match "webhook" "7") (dal.rows (db examples.one_key)) = false) as h6
    by (vm_compute; reflexivity).
  exact (conj h1 (conj h2 (conj h3 (conj h4 (conj h5 (conj h6 (Create_then_DeleteForPlugin sample.Compile examples.helper dal.Conn None "hook" None "/plugins/webhook/7/.*" "webhook" "7" examples.one_key h1 h2 h3 h4 h5 h6))))))).
Defined.

Lemma DeleteForPlugin_twice_witness :
  (dal.wf (db examples.one_hook) = true) /\
  (dal.quiet 3 (db examples.one_hook) = true) /\
  (List.length (List.filter (plugin_match "webhook" "7") (dal.rows (db examples.one_hook)))
    = 1%nat) /\
  (fst (DeleteForPlugin examples.helper dal.Conn "webhook" "7" examples.one_hook) = None /\
    dal.rows (db (snd (DeleteForPlugin examples.helper dal.Conn "webhook" "7" examples.one_hook)))
    = List.filter (fun y => negb (plugin_match "webhook" "7" y))
                  (dal.rows (db examples.one_hook)) /\
    fst (DeleteForPlugin examples.helper dal.Conn "webhook" "7"
           (snd (DeleteForPlugin examples.helper dal.Conn "webhook" "7" examples.one_hook))) = None /\
    dal.rows (db (snd (DeleteForPlugin examples.helper dal.Conn "webhook" "7"
                         (snd (DeleteForPlugin examples.helper dal.Conn "webhook" "7" examples.one_hook)))))
    = dal.rows (db (snd (DeleteForPlugin examples.helper dal.Conn "webhook" "7" examples.one_hook)))).
Proof.
  assert (dal.wf (db examples.one_hook) = true) as h1
    by (vm_compute; reflexivity).
  assert (dal.quiet 3 (db examples.one_hook) = true) as h2
    by (vm_compute; reflexivity).
  assert (List.length (List.filter (plugin_match "webhook" "7") (dal.rows (db examples.one_hook)))
    = 1%nat) as h3
    by (vm_compute; reflexivity).
  exact (conj h1 (conj h2 (conj h3 (DeleteForPlugin_twice examples.helper dal.Conn "webhook" "7" examples.one_hook h1 h2 h3)))).
Defined.

Lemma DeleteForPlugin_no_match_is_logged_witness :
  (dal.quiet 1 (db examples.one_key) = true) /\
  (List.existsb (plugin_match "webhook" "7") (dal.rows (db examples.one_key)) = false) /\
  (fst (DeleteForPlugin examples.helper dal.Conn "webhook" "7" examples.one_key) = None /\
    log (snd (DeleteForPlugin examples.helper dal.Conn "webhook" "7" examples.one_key))
    = log examples.one_key ++ [(dal.NotFoundError, "query api key record")] /\
    dal.calls (db (snd (DeleteForPlugin examples.helper dal.Conn "webhook" "7" examples.one_key)))
    = dal.calls (db examples.one_key) ++ [dal.CallFirst (plugin_clauses "webhook" "7")]).
Proof.
  assert (dal.quiet 1 (db examples.one_key) = true) as h1
    by (vm_compute; reflexivity).
  assert (List.existsb (plugin_match "webhook" "7") (dal.rows (db examples.one_key)) = false) as h2
    by (vm_compute; reflexivity).
  exact (conj h1 (conj h2 (DeleteForPlugin_no_match_is_logged examples.helper dal.Conn "webhook" "7" examples.one_key h1 h2))).
Defined.

Lemma Create_keeps_existing_records_witness :
  (dal.has_id 2%N (db examples.three_keys) = true) /\
  (List.find (fun r => N.eqb (ID r) 2%N)
      (dal.rows (db (snd (Create sample.Compile examples.helper dal.Conn None "deploy" None
                                 "/api/.*" "user" "" examples.three_keys))))
    = List.find (fun r => N.eqb (ID r) 2%N) (dal.rows (db examples.three_keys))).
Proof.
  assert (dal.has_id 2%N (db examples.three_keys) = true) as h1
    by (vm_compute; reflexivity).
  exact (conj h1 (Create_keeps_existing_records sample.Compile examples.helper dal.Conn None "deploy" None "/api/.*" "user" "" examples.three_keys 2%N h1)).
Defined.

Lemma Put_and_Delete_leave_other_records_witness :
  (2%N <> 1%N) /\
  (List.find (fun r => N.eqb (ID r) 2%N) (dal.rows (db (snd (Put examples.helper None 1%N examples.three_keys))))
    = List.find (fun r => N.eqb (ID r) 2%N) (dal.rows (db examples.three_keys)) /\
    List.find (fun r => N.eqb (ID r) 2%N) (dal.rows (db (snd (Delete examples.helper 1%N examples.three_keys))))
    = List.find (fun r => N.eqb (ID r) 2%N) (dal.rows (db examples.three_keys))).
Proof.
  assert (2%N <> 1%N) as h1
    by (discriminate).
  exact (conj h1 (Put_and_Delete_leave_other_records examples.helper None 1%N 2%N examples.three_keys h1)).
Defined.

Lemma Create_issues_the_record_witness :
  (sample.Compile "/api/.*" = None) /\
  (dal.name_taken "deploy" (db examples.one_key) = false) /\
  ((apiKeyLen <= List.length (entropy examples.one_key))%nat) /\
  (dal.quiet 1 (db examples.one_key) = true) /\
  (exists issued digest w1,
      Create sample.Compile examples.helper dal.Conn (Some examples.alice) "deploy" (Some 2000) "/api/.*" "user"
             "ops" examples.one_key = ((Some issued, None), w1) /\
      fst (DigestToken examples.helper (ApiKey issued) w1) = (digest, None) /\
      (ID issued = dal.next_id (db examples.one_key) /\ Name issued = "deploy" /\
       ExpiredAt issued = (Some 2000) /\ AllowedPath issued = "/api/.*" /\
       Type_ issued = "user" /\ Extra issued = "ops" /\
       CreatedAt issued = clock examples.one_key /\ UpdatedAt issued = clock examples.one_key) /\
      (Creator issued, CreatorEmail issued, Updater issued, UpdaterEmail issued)
      = match (Some examples.alice) with
        | Some u => (user_Name u, user_Email u, user_Name u, user_Email u)
        | None => ("", "", "", "")
        end /\
      String.length (ApiKey issued) = apiKeyLen /\
      dal.rows (db w1) = dal.rows (db examples.one_key) ++ [set_ApiKey issued digest] /\
      dal.calls (db w1)
      = dal.calls (db examples.one_key) ++ [dal.CallCreate (set_ID (set_ApiKey issued digest) 0)] /\
      log w1 = log examples.one_key).
Proof.
  assert (sample.Compile "/api/.*" = None) as h1
    by (vm_compute; reflexivity).
  assert (dal.name_taken "deploy" (db examples.one_key) = false) as h2
    by (vm_compute; reflexivity).
  assert ((apiKeyLen <= List.length (entropy examples.one_key))%nat) as h3
    by (apply Nat.leb_le; vm_compute; reflexivity).
  assert (dal.quiet 1 (db examples.one_key) = true) as h4
    by (vm_compute; reflexivity).
  exact (conj h1 (conj h2 (conj h3 (conj h4 (Create_issues_the_record sample.Compile examples.helper dal.Conn (Some examples.alice) "deploy" (Some 2000) "/api/.*" "user" "ops" examples.one_key h1 h2 h3 h4))))).
Defined.

Lemma stored_keys_are_digests_witness :
  (reachable sample.Compile examples.one_key) /\
  (In (List.hd zero_ApiKey (dal.rows (db examples.one_key))) (dal.rows (db examples.one_key))) /\
  (is_digest (ApiKey (List.hd zero_ApiKey (dal.rows (db examples.one_key)))) /\ String.length (ApiKey (List.hd zero_ApiKey (dal.rows (db examples.one_key)))) = 64%nat).
Proof.
  assert (reachable sample.Compile examples.one_key) as h1
    by (apply (reachable_step sample.Compile examples.fresh); [apply reachable_init; reflexivity | apply step_Create]).
  assert (In (List.hd zero_ApiKey (dal.rows (db examples.one_key))) (dal.rows (db examples.one_key))) as h2
    by (vm_compute; left; reflexivity).
  exact (conj h1 (conj h2 (stored_keys_are_digests sample.Compile examples.one_key (List.hd zero_ApiKey (dal.rows (db examples.one_key))) h1 h2))).
Defined.

Lemma stored_names_are_unique_witness :
  (reachable sample.Compile examples.one_key) /\
  (NoDup (names (db examples.one_key)) /\ NoDup (dal.ids (db examples.one_key))).
Proof.
  assert (reachable sample.Compile examples.one_key) as h1
    by (apply (reachable_step sample.Compile examples.fresh); [apply reachable_init; reflexivity | apply step_Create]).
  exact (conj h1 (stored_names_are_unique sample.Compile examples.one_key h1)).
Defined.
